(** * Image Extractor ([app.py]): a shallow embedding and its properties

    The development follows the layout of [app.py]:
    - Python values, strings and exceptions as the program uses them;
    - a state-and-exception monad for the effectful code;
    - the HTTP layer ([http_session], [fetch_image]);
    - the imaging layer ([to_png_thumb], [sniff_mime], [to_data_url]),
      with base64 written out;
    - the sheet builder ([build_excel_with_images]).

    The libraries the program calls ([requests], [PIL], the upper-casing
    of non-ASCII text) are the environment: they enter as Section
    variables, so every theorem holds for every behaviour of theirs. *)

From Stdlib Require Import String Ascii DecimalString.
From Stdlib Require Import List ZArith NArith Lia Bool.
Import ListNotations.
Open Scope Z_scope.

(* ================================================================== *)
(** ** Python strings *)

(** A [str] is a sequence of Unicode code points. *)
Definition pystr := list N.

(** A literal of the source, read character by character. *)
Definition lit (s : string) : pystr :=
  List.map N_of_ascii (list_ascii_of_string s).
Arguments lit s%_string.

Fixpoint pystr_eqb (a b : pystr) : bool :=
  match a, b with
  | [], [] => true
  | x :: a', y :: b' => (x =? y)%N && pystr_eqb a' b'
  | _, _ => false
  end.

(** [ch.isspace()]: the code points [str.strip()] removes. *)
Definition isspace (c : N) : bool :=
  ((9 <=? c) && (c <=? 13) || (28 <=? c) && (c <=? 32)
   || (c =? 133) || (c =? 160) || (c =? 5760)
   || (8192 <=? c) && (c <=? 8202)
   || (c =? 8232) || (c =? 8233) || (c =? 8239) || (c =? 8287)
   || (c =? 12288))%N.

Fixpoint lstrip (s : pystr) : pystr :=
  match s with
  | [] => []
  | c :: s' => if isspace c then lstrip s' else s
  end.

Definition rstrip (s : pystr) : pystr := rev (lstrip (rev s)).

(** [s.strip()] *)
Definition strip (s : pystr) : pystr := rstrip (lstrip s).

(** [s.startswith(p)] *)
Fixpoint startswith (s p : pystr) : bool :=
  match p, s with
  | [], _ => true
  | y :: p', x :: s' => (x =? y)%N && startswith s' p'
  | _ :: _, [] => false
  end.

(** [l[:n]] for [0 <= n], counting down on an integer. *)
Fixpoint take {A} (n : Z) (l : list A) : list A :=
  match l with
  | [] => []
  | x :: l' => if n <=? 0 then [] else x :: take (n - 1) l'
  end.

(** [len(l)] *)
Definition len {A} (l : list A) : Z := Z.of_nat (length l).

(** Truth value of a sequence: non-empty. *)
Definition nonempty {A} (l : list A) : bool :=
  match l with [] => false | _ :: _ => true end.

(* ================================================================== *)
(** ** Python values held by table and worksheet cells *)

(** The scalars a parsed table holds.  [VOther] stands for the remaining
    scalars (floats, among them the NaN of a missing cell, and
    timestamps), carried by the two things the program asks of them:
    their truth value and their [str()]. *)
Inductive pyval :=
| VNone
| VStr (s : pystr)
| VInt (z : Z)
| VBool (b : bool)
| VOther (truth : bool) (repr : pystr).

(** [bool(v)] *)
Definition py_truthy (v : pyval) : bool :=
  match v with
  | VNone => false
  | VStr s => nonempty s
  | VInt z => negb (z =? 0)
  | VBool b => b
  | VOther t _ => t
  end.

(** [v or d] *)
Definition py_or (v d : pyval) : pyval := if py_truthy v then v else d.

(** [str(v)] *)
Definition py_str (v : pyval) : pystr :=
  match v with
  | VNone => lit "None"
  | VStr s => s
  | VInt z => lit (NilZero.string_of_int (Z.to_int z))
  | VBool true => lit "True"
  | VBool false => lit "False"
  | VOther _ r => r
  end.

(** [isinstance(v, str)] *)
Definition is_str (v : pyval) : bool :=
  match v with VStr _ => true | _ => false end.

(** [v == s] for a string literal [s]. *)
Definition py_eq_str (v : pyval) (s : pystr) : bool :=
  match v with VStr t => pystr_eqb t s | _ => false end.

Definition bytes := list Byte.byte.

(* ================================================================== *)
(** ** Exceptions, results, and the monad of effectful code *)

(** An instance of [Exception]: its class name ([type(e).__name__]),
    whether the class is [requests.exceptions.SSLError] or derives from
    it, and its message.  What is raised outside [Exception]
    ([KeyboardInterrupt], [SystemExit]) interrupts the program and is
    not part of the model. *)
Record exn := mkExn {
  exn_name : pystr;
  exn_is_SSLError : bool;
  exn_msg : pystr
}.

Inductive res (A : Type) :=
| Ok (a : A)
| Raise (e : exn).
Arguments Ok {A} a.
Arguments Raise {A} e.

(** Computations over a mutable state [S] that return or raise.  The
    state reached when an exception is raised is kept: what a [try]
    body did before raising stays done. *)
Definition M (S A : Type) : Type := S -> res A * S.

Definition ret {S A} (a : A) : M S A := fun s => (Ok a, s).

Definition raise {S A} (e : exn) : M S A := fun s => (Raise e, s).

Definition bind {S A B} (m : M S A) (k : A -> M S B) : M S B :=
  fun s =>
    match m s with
    | (Ok a, s') => k a s'
    | (Raise e, s') => (Raise e, s')
    end.

Notation "x <- m ;; k" := (bind m (fun x => k))
  (at level 61, m at next level, right associativity).
Notation "m ;;; k" := (bind m (fun _ => k))
  (at level 61, right associativity).

(** [try: body / except <class>: handler]: the handler answers [None]
    for an exception its clause does not match. *)
Definition try_except {S A} (body : M S A) (handler : exn -> option (M S A))
  : M S A :=
  fun s =>
    match body s with
    | (Ok a, s') => (Ok a, s')
    | (Raise e, s') =>
        match handler e with
        | Some h => h s'
        | None => (Raise e, s')
        end
    end.

(** A value that is already a result. *)
Definition of_res {S A} (r : res A) : M S A := fun s => (r, s).

Definition get_state {S} : M S S := fun s => (Ok s, s).

Definition modify {S} (f : S -> S) : M S unit := fun s => (Ok tt, f s).

(** [for x in l: body x] *)
Fixpoint for_each {S A} (l : list A) (body : A -> M S unit) : M S unit :=
  match l with
  | [] => ret tt
  | x :: l' => body x ;;; for_each l' body
  end.

(** [range(lo, hi)] *)
Definition range (lo hi : Z) : list Z :=
  List.map (fun i => lo + Z.of_nat i) (seq 0 (Z.to_nat (hi - lo))).

(* ================================================================== *)
(** ** Config *)

Definition TIMEOUT : Z := 25.
Definition MAX_BYTES : Z := 12000000.
Definition THUMB_PX : Z := 96.

(* ================================================================== *)
(** ** HTTP *)

(** One call of [Session.get]: the session's default headers and the
    arguments of the call. *)
Record request := mkRequest {
  req_session_headers : list (pystr * pystr);
  req_url : pystr;
  req_timeout : Z;
  req_stream : bool;
  req_allow_redirects : bool;
  req_headers : list (pystr * pystr);
  req_verify : bool
}.

(** What the program reads of a [Response]: the status code, the body
    ([r.content], whose download may raise) and the raw stream
    ([r.raw], whose [read] may raise). *)
Record response := mkResponse {
  status_code : Z;
  content : res bytes;
  raw : res bytes
}.

(** The requests issued so far, oldest first. *)
Definition trace := list request.

Record session := mkSession { session_headers : list (pystr * pystr) }.

Definition http_session : session :=
  {| session_headers :=
       [ (lit "User-Agent", lit "Mozilla/5.0");
         (lit "Accept",
          lit "image/avif,image/webp,image/apng,image/*,*/*;q=0.8");
         (lit "Accept-Language", lit "en");
         (lit "Cache-Control", lit "no-cache");
         (lit "Referer", lit "") ] |}.

Definition HTTPError : exn :=
  {| exn_name := lit "HTTPError"; exn_is_SSLError := false; exn_msg := [] |}.

(** A client or server error code. *)
Definition is_error_status (r : response) : bool :=
  (400 <=? status_code r) && (status_code r <? 600).

(** [r.raise_for_status()] *)
Definition raise_for_status {S} (r : response) : M S unit :=
  if is_error_status r then raise HTTPError else ret tt.

(** [r.raw.read(n)] *)
Definition raw_read (r : response) (n : Z) : res bytes :=
  match raw r with
  | Ok b => Ok (take n b)
  | Raise e => Raise e
  end.

(** [r.content if r.content else r.raw.read(MAX_BYTES + 1)] *)
Definition body_of (r : response) : res bytes :=
  match content r with
  | Ok c => if nonempty c then Ok c else raw_read r (MAX_BYTES + 1)
  | Raise e => Raise e
  end.

Definition read_body {S} (r : response) : M S bytes := of_res (body_of r).

(** The request that [s.get(url, timeout=TIMEOUT, stream=True,
    allow_redirects=True, headers=headers, verify=verify)] issues. *)
Definition get_request (s : session) (url : pystr)
    (headers : list (pystr * pystr)) (verify : bool) : request :=
  {| req_session_headers := session_headers s;
     req_url := url;
     req_timeout := TIMEOUT;
     req_stream := true;
     req_allow_redirects := true;
     req_headers := headers;
     req_verify := verify |}.

Section Network.

(** The network: the outcome of a request, given the requests made
    before it. *)
Variable server : trace -> request -> res response.

(** [s.get(url, timeout=TIMEOUT, stream=True, allow_redirects=True,
    headers=headers[, verify=False])] *)
Definition session_get (s : session) (url : pystr)
    (headers : list (pystr * pystr)) (verify : bool) : M trace response :=
  fun tr =>
    let rq := get_request s url headers verify in
    (server tr rq, tr ++ [rq]).

(** Lines 47-50: the GET, tried again without certificate verification
    when it raises [SSLError]. *)
Definition primary_get (s : session) (url : pystr)
    (headers : list (pystr * pystr)) : M trace response :=
  try_except (session_get s url headers true)
    (fun e => if exn_is_SSLError e
              then Some (session_get s url headers false)
              else None).

(** Lines 53-60: the plain-HTTP fallback.  [None] is the early
    [return b""] of the handler. *)
Definition http_fallback (s : session) (url : pystr)
    (headers : list (pystr * pystr)) (data : bytes) : M trace (option bytes) :=
  if negb (nonempty data) && startswith url (lit "https://") then
    let alt := lit "http://" ++ skipn (length (lit "https://")) url in
    try_except
      (r2 <- session_get s alt headers true ;;
       raise_for_status r2 ;;;
       data2 <- read_body r2 ;;
       ret (Some data2))
      (fun _ => Some (ret None))
  else ret (Some data).

(** Lines 45-60: everything before the final [return]. *)
Definition fetch_payload (url : pystr) : M trace (option bytes) :=
  let s := http_session in
  let headers := [(lit "Referer", url)] in
  r <- primary_get s url headers ;;
  raise_for_status r ;;;
  data <- read_body r ;;
  http_fallback s url headers data.

(** Line 61: [data if data and len(data) <= MAX_BYTES else b""] *)
Definition clip (data : bytes) : bytes :=
  if nonempty data && (len data <=? MAX_BYTES) then data else [].

Definition fetch_image (url : pyval) : M trace bytes :=
  match url with
  | VStr u =>
      if negb (nonempty (strip u)) then ret []
      else
        p <- fetch_payload u ;;
        match p with
        | None => ret []
        | Some data => ret (clip data)
        end
  | _ => ret []
  end.

End Network.

(** What line 61 returns when the fallback of lines 53-60 is taken
    and its request had the outcome [r2]: the clipped body of the
    second response, and empty on any failure. *)
Definition fallback_result (r2 : res response) : bytes :=
  match r2 with
  | Raise _ => []
  | Ok r =>
      if is_error_status r then []
      else match body_of r with
           | Ok b => clip b
           | Raise _ => []
           end
  end.

(* ================================================================== *)
(** ** Base64 ([base64.b64encode], RFC 4648 with padding)

    The encoder of Python's standard library, written out: three bytes
    make a 24-bit group, read as four six-bit values, and a last
    group of one or two bytes is padded with [=]. *)

Definition b64_alphabet : bytes :=
  list_byte_of_string
    "ABCDEFGHIJKLMNOPQRSTUVWXYZabcdefghijklmnopqrstuvwxyz0123456789+/".

Definition b64_pad : Byte.byte := Byte.x3d.

(** The character of a six-bit value. *)
Definition b64_char (v : N) : Byte.byte :=
  nth (N.to_nat v) b64_alphabet b64_pad.

(** The 24-bit group of three bytes. *)
Definition group24 (a b c : Byte.byte) : N :=
  (Byte.to_N a * 65536 + Byte.to_N b * 256 + Byte.to_N c)%N.

(** Six-bit value [i] of a 24-bit group, counted from the low end. *)
Definition sextet (n : N) (i : N) : N := ((n / 2 ^ (6 * i)) mod 64)%N.

Fixpoint b64encode (s : bytes) : bytes :=
  match s with
  | [] => []
  | [a] =>
      let n := group24 a Byte.x00 Byte.x00 in
      [b64_char (sextet n 3); b64_char (sextet n 2); b64_pad; b64_pad]
  | [a; b] =>
      let n := group24 a b Byte.x00 in
      [b64_char (sextet n 3); b64_char (sextet n 2); b64_char (sextet n 1);
       b64_pad]
  | a :: b :: c :: rest =>
      let n := group24 a b c in
      b64_char (sextet n 3) :: b64_char (sextet n 2)
        :: b64_char (sextet n 1) :: b64_char (sextet n 0) :: b64encode rest
  end.

Definition UnicodeDecodeError : exn :=
  {| exn_name := lit "UnicodeDecodeError"; exn_is_SSLError := false;
     exn_msg := [] |}.

(** [b.decode("ascii")] *)
Definition decode_ascii (b : bytes) : res pystr :=
  if forallb (fun x => (Byte.to_N x <? 128)%N) b
  then Ok (List.map Byte.to_N b)
  else Raise UnicodeDecodeError.

(** The position of the character [c] in [l], counted from [i]. *)
Fixpoint index_from (i : N) (c : N) (l : bytes) : option N :=
  match l with
  | [] => None
  | x :: l' => if (Byte.to_N x =? c)%N then Some i
               else index_from (i + 1)%N c l'
  end.

(** The six-bit value of a character of the alphabet. *)
Definition b64_value (c : N) : option N := index_from 0%N c b64_alphabet.

(** Byte [i] of a 24-bit group, counted from the low end. *)
Definition byte_at (n : N) (i : N) : option Byte.byte :=
  Byte.of_N ((n / 2 ^ (8 * i)) mod 256)%N.

Definition opt_cons {A} (x : option A) (l : option (list A))
  : option (list A) :=
  match x, l with
  | Some a, Some l' => Some (a :: l')
  | _, _ => None
  end.

(** The 24-bit group of four six-bit values. *)
Definition join24 (v3 v2 v1 v0 : N) : N :=
  (v3 * 262144 + v2 * 4096 + v1 * 64 + v0)%N.

(** The decoder the round trip is stated against: the inverse reading
    of RFC 4648, group by group over the characters of a string;
    [None] for text that is not padded base64. *)
Fixpoint b64decode (s : pystr) : option bytes :=
  match s with
  | [] => Some []
  | c3 :: c2 :: c1 :: c0 :: rest =>
      match b64_value c3, b64_value c2 with
      | Some v3, Some v2 =>
          if (c0 =? 61)%N then
            match rest with
            | [] =>
                if (c1 =? 61)%N then
                  opt_cons (byte_at (join24 v3 v2 0 0) 2) (Some [])
                else
                  match b64_value c1 with
                  | Some v1 =>
                      let n := join24 v3 v2 v1 0 in
                      opt_cons (byte_at n 2) (opt_cons (byte_at n 1) (Some []))
                  | None => None
                  end
            | _ :: _ => None
            end
          else
            match b64_value c1, b64_value c0 with
            | Some v1, Some v0 =>
                let n := join24 v3 v2 v1 v0 in
                opt_cons (byte_at n 2)
                  (opt_cons (byte_at n 1)
                     (opt_cons (byte_at n 0) (b64decode rest)))
            | _, _ => None
            end
      | _, _ => None
      end
  | _ => None
  end.

(** The check that the character of the six-bit value [v] is an ASCII
    character other than the padding and reads back as [v]. *)
Definition sextet_ok (v : N) : bool :=
  let c := Byte.to_N (b64_char v) in
  match b64_value c with
  | Some w => (w =? v)%N && negb (c =? 61)%N && (c <? 128)%N
  | None => false
  end.

(* ================================================================== *)
(** ** Imaging *)

(** What the program uses of an opened [PIL] image: its [format], and
    the PNG bytes of its RGB thumbnail for a pixel budget (conversion,
    resizing and saving may raise). *)
Record image := mkImage {
  img_format : option pystr;
  img_thumbnail_png : Z -> res bytes
}.

Section Imaging.

(** [Image.open(io.BytesIO(b))] *)
Variable image_open : bytes -> res image.

(** The upper-case mapping of a code point outside ASCII. *)
Variable upper_nonascii : N -> pystr.

(** [s.upper()], character by character. *)
Definition upper_char (c : N) : pystr :=
  if (c <? 128)%N
  then [if (97 <=? c)%N && (c <=? 122)%N then (c - 32)%N else c]
  else upper_nonascii c.

Definition upper (s : pystr) : pystr := flat_map upper_char s.

Definition to_png_thumb (img_bytes : bytes) (max_px : Z) : res bytes :=
  match image_open img_bytes with
  | Ok im => img_thumbnail_png im max_px
  | Raise e => Raise e
  end.

(** Lines 71-74: [Image.open(...).format or "PNG"], and ["PNG"] when
    opening raises. *)
Definition sniff_format (img_bytes : bytes) : pystr :=
  match image_open img_bytes with
  | Ok im =>
      match img_format im with
      | Some f => if nonempty f then f else lit "PNG"
      | None => lit "PNG"
      end
  | Raise _ => lit "PNG"
  end.

Definition sniff_mime (img_bytes : bytes) : pystr :=
  let fmt := sniff_format img_bytes in
  let fmt := upper fmt in
  if pystr_eqb fmt (lit "JPG") || pystr_eqb fmt (lit "JPEG")
  then lit "image/jpeg"
  else if pystr_eqb fmt (lit "PNG") then lit "image/png"
  else if pystr_eqb fmt (lit "GIF") then lit "image/gif"
  else lit "image/png".

Definition to_data_url (img_bytes : bytes) : res pystr :=
  let mime := sniff_mime img_bytes in
  match decode_ascii (b64encode img_bytes) with
  | Ok b64 => Ok (lit "data:" ++ mime ++ lit ";base64," ++ b64)
  | Raise e => Raise e
  end.

End Imaging.

(* ================================================================== *)
(** ** Tables and worksheets *)

(** A [pandas.DataFrame]: column labels and the data rows, each row
    holding one value per column. *)
Record DataFrame := mkDataFrame {
  columns : list pyval;
  rows : list (list pyval)
}.

(** [label in df.columns] *)
Definition has_column (df : DataFrame) (label : pystr) : bool :=
  existsb (fun c => py_eq_str c label) (columns df).

(** [df.head(n)] for a positive [n]. *)
Definition head (df : DataFrame) (n : Z) : DataFrame :=
  {| columns := columns df; rows := take n (rows df) |}.

(** [df[label] = v]: a new last column holding [v] in every row. *)
Definition add_column (df : DataFrame) (label : pystr) (v : pyval)
  : DataFrame :=
  {| columns := columns df ++ [VStr label];
     rows := List.map (fun r => r ++ [v]) (rows df) |}.

(** [dataframe_to_rows(df, index=False, header=True)] *)
Definition dataframe_to_rows (df : DataFrame) : list (list pyval) :=
  columns df :: rows df.

(** An entry of the log: [{"row": ..., "status": ...}]. *)
Record LogEntry := mkLogEntry {
  row : Z;
  status : pystr
}.

(** [openpyxl.drawing.image.Image], built from PNG bytes. *)
Record XLImage := mkXLImage { xl_data : bytes }.

(** The worksheet: the grid of cell values (rows and columns counted
    from 1; a cell outside the stored grid reads [None]), the embedded
    images with the (row, column) of their anchor cell, and the row
    heights and column widths that were set. *)
Record worksheet := mkWorksheet {
  ws_title : pystr;
  ws_cells : list (list pyval);
  ws_images : list (XLImage * (Z * Z));
  ws_row_heights : list (Z * Z);
  ws_col_widths : list (Z * Z)
}.

(** [Workbook().active] with [ws.title = "Products"]. *)
Definition new_worksheet : worksheet :=
  {| ws_title := lit "Products"; ws_cells := []; ws_images := [];
     ws_row_heights := []; ws_col_widths := [] |}.

Definition ILLEGAL_CHARACTER (c : N) : bool :=
  ((c <=? 8) || (11 <=? c) && (c <=? 12) || (14 <=? c) && (c <=? 31))%N.

Definition IllegalCharacterError : exn :=
  {| exn_name := lit "IllegalCharacterError"; exn_is_SSLError := false;
     exn_msg := [] |}.

(** Storing a value in a cell: a string is cut to 32,767 characters
    and refused when it holds a control character the file format
    forbids; other scalars are stored as they are. *)
Definition bind_value (v : pyval) : res pyval :=
  match v with
  | VStr s =>
      let s' := take 32767 s in
      if existsb ILLEGAL_CHARACTER s' then Raise IllegalCharacterError
      else Ok (VStr s')
  | _ => Ok v
  end.

Fixpoint bind_values (l : list pyval) : res (list pyval) :=
  match l with
  | [] => Ok []
  | v :: l' =>
      match bind_value v, bind_values l' with
      | Ok v', Ok l'' => Ok (v' :: l'')
      | Raise e, _ => Raise e
      | _, Raise e => Raise e
      end
  end.

Definition nat_index (i : Z) : nat := Z.to_nat (i - 1).

(** [ws.max_row] *)
Definition max_row (ws : worksheet) : Z := Z.max 1 (len (ws_cells ws)).

(** The values of worksheet row [r]. *)
Definition ws_row (ws : worksheet) (r : Z) : list pyval :=
  nth (nat_index r) (ws_cells ws) [].

(** [ws.cell(row=r, column=c).value] *)
Definition cell_value (ws : worksheet) (r c : Z) : pyval :=
  nth (nat_index c) (ws_row ws r) VNone.

(** [l[i] = v], the list grown with [d] when it is too short. *)
Fixpoint set_nth {A} (d : A) (i : nat) (v : A) (l : list A) : list A :=
  match i, l with
  | O, [] => [v]
  | O, _ :: l' => v :: l'
  | S i', [] => d :: set_nth d i' v []
  | S i', x :: l' => x :: set_nth d i' v l'
  end.

Definition with_cells (ws : worksheet) (cells : list (list pyval))
  : worksheet :=
  {| ws_title := ws_title ws; ws_cells := cells; ws_images := ws_images ws;
     ws_row_heights := ws_row_heights ws; ws_col_widths := ws_col_widths ws |}.

(** The worksheet with [v] in the cell at row [r], column [c]. *)
Definition put_cell (ws : worksheet) (r c : Z) (v : pyval) : worksheet :=
  with_cells ws
    (set_nth [] (nat_index r)
       (set_nth VNone (nat_index c) v (ws_row ws r)) (ws_cells ws)).

(** [ws.insert_cols(idx, amount=1)]: the cells of columns [idx] and
    beyond move one column to the right. *)
Definition shift_cols (idx : Z) (cells : list pyval) : list pyval :=
  let k := nat_index idx in
  if (k <? length cells)%nat
  then firstn k cells ++ VNone :: skipn k cells
  else cells.

Definition insert_cols (ws : worksheet) (idx : Z) : worksheet :=
  with_cells ws (List.map (shift_cols idx) (ws_cells ws)).

Definition add_image (ws : worksheet) (img : XLImage) (anchor : Z * Z)
  : worksheet :=
  {| ws_title := ws_title ws; ws_cells := ws_cells ws;
     ws_images := ws_images ws ++ [(img, anchor)];
     ws_row_heights := ws_row_heights ws; ws_col_widths := ws_col_widths ws |}.

Definition set_row_height (ws : worksheet) (r h : Z) : worksheet :=
  {| ws_title := ws_title ws; ws_cells := ws_cells ws;
     ws_images := ws_images ws;
     ws_row_heights := (r, h) :: ws_row_heights ws;
     ws_col_widths := ws_col_widths ws |}.

Definition set_col_width (ws : worksheet) (c w : Z) : worksheet :=
  {| ws_title := ws_title ws; ws_cells := ws_cells ws;
     ws_images := ws_images ws; ws_row_heights := ws_row_heights ws;
     ws_col_widths := (c, w) :: ws_col_widths ws |}.

Definition ValueError (msg : pystr) : exn :=
  {| exn_name := lit "ValueError"; exn_is_SSLError := false; exn_msg := msg |}.

(** [l.index(s)], counted from [i]. *)
Fixpoint list_index (i : Z) (s : pystr) (l : list pyval) : res Z :=
  match l with
  | [] => Raise (ValueError (lit "'" ++ s ++ lit "' is not in list"))
  | v :: l' => if py_eq_str v s then Ok i else list_index (i + 1) s l'
  end.

(* ================================================================== *)
(** ** The sheet builder *)

(** What a run of [build_excel_with_images] mutates: the network
    history, the worksheet, the log and the two counters. *)
Record build_state := mkBuildState {
  st_trace : trace;
  st_ws : worksheet;
  st_logs : list LogEntry;
  st_ok : Z;
  st_fail : Z
}.

Definition with_trace (st : build_state) (tr : trace) : build_state :=
  {| st_trace := tr; st_ws := st_ws st; st_logs := st_logs st;
     st_ok := st_ok st; st_fail := st_fail st |}.

Definition with_ws (st : build_state) (ws : worksheet) : build_state :=
  {| st_trace := st_trace st; st_ws := ws; st_logs := st_logs st;
     st_ok := st_ok st; st_fail := st_fail st |}.

(** A network computation run inside the builder. *)
Definition lift_net {A} (m : M trace A) : M build_state A :=
  fun st => let (r, tr) := m (st_trace st) in (r, with_trace st tr).

(** [ws.append(r)] *)
Definition ws_append (r : list pyval) : M build_state unit :=
  vals <- of_res (bind_values r) ;;
  modify (fun st =>
    with_ws st (with_cells (st_ws st) (ws_cells (st_ws st) ++ [vals]))).

(** [ws.cell(row=r, column=c).value = v] *)
Definition set_cell_value (r c : Z) (v : pyval) : M build_state unit :=
  v' <- of_res (bind_value v) ;;
  modify (fun st => with_ws st (put_cell (st_ws st) r c v')).

(** [logs.append(e)] *)
Definition log_append (e : LogEntry) : M build_state unit :=
  modify (fun st =>
    {| st_trace := st_trace st; st_ws := st_ws st;
       st_logs := st_logs st ++ [e];
       st_ok := st_ok st; st_fail := st_fail st |}).

(** [ok += 1] *)
Definition incr_ok : M build_state unit :=
  modify (fun st =>
    {| st_trace := st_trace st; st_ws := st_ws st; st_logs := st_logs st;
       st_ok := st_ok st + 1; st_fail := st_fail st |}).

(** [fail += 1] *)
Definition incr_fail : M build_state unit :=
  modify (fun st =>
    {| st_trace := st_trace st; st_ws := st_ws st; st_logs := st_logs st;
       st_ok := st_ok st; st_fail := st_fail st + 1 |}).

Section SheetBuilder.

Variable server : trace -> request -> res response.
Variable image_open : bytes -> res image.
Variable upper_nonascii : N -> pystr.

(** Line 123:
    [str(ws.cell(row=row_idx, column=col_thumb).value or "").strip()] *)
Definition row_url (ws : worksheet) (row_idx col_thumb : Z) : pystr :=
  strip (py_str (py_or (cell_value ws row_idx col_thumb) (VStr []))).

(** Line 126: [fetch_image(url) if url else b""] *)
Definition row_fetch (url : pystr) : M build_state bytes :=
  if nonempty url then lift_net (fetch_image server (VStr url)) else ret [].

(** Lines 126-137: the body of the [try]. *)
Definition row_try (url : pystr) (col_dataurl col_img row_idx : Z)
  : M build_state unit :=
  img_bytes <- row_fetch url ;;
  if nonempty img_bytes then
    data_url <- of_res (to_data_url image_open upper_nonascii img_bytes) ;;
    set_cell_value row_idx col_dataurl (VStr data_url) ;;;
    thumb <- of_res (to_png_thumb image_open img_bytes THUMB_PX) ;;
    let xl_img := mkXLImage thumb in
    modify (fun st =>
      with_ws st (add_image (st_ws st) xl_img (row_idx, col_img))) ;;;
    modify (fun st => with_ws st (set_row_height (st_ws st) row_idx 80)) ;;;
    incr_ok ;;;
    log_append {| row := row_idx - 1; status := lit "ok" |}
  else
    incr_fail ;;;
    log_append {| row := row_idx - 1; status := lit "no-bytes" |}.

(** Lines 138-140: [except Exception as e]. *)
Definition row_except (row_idx : Z) (e : exn) : M build_state unit :=
  incr_fail ;;;
  log_append {| row := row_idx - 1;
                status := lit "error:" ++ exn_name e |}.

(** Lines 123-140: one turn of the row loop (the progress bar, which
    only displays, is left out). *)
Definition process_row (col_thumb col_dataurl col_img row_idx : Z)
  : M build_state unit :=
  st <- get_state ;;
  let url := row_url (st_ws st) row_idx col_thumb in
  try_except (row_try url col_dataurl col_img row_idx)
    (fun e => Some (row_except row_idx e)).

(** Lines 122-142: [for row_idx in range(2, ws.max_row + 1)]. *)
Definition row_loop (col_thumb col_dataurl col_img : Z)
  : M build_state unit :=
  st <- get_state ;;
  for_each (range 2 (max_row (st_ws st) + 1))
    (process_row col_thumb col_dataurl col_img).

(** Lines 97-102: the table that is written out. *)
Definition prepare (df : DataFrame) (max_rows : Z) : DataFrame :=
  let df_out := df in
  let df_out :=
    if negb (max_rows =? 0) && (0 <? max_rows)
    then head df_out max_rows else df_out in
  if negb (has_column df_out (lit "thumbnail_dataurl"))
  then add_column df_out (lit "thumbnail_dataurl") (VStr [])
  else df_out.

(** Lines 104-145, run on the builder's state.  The serialized
    workbook is represented by the worksheet it was saved from. *)
Definition build_body (df_out : DataFrame)
  : M build_state (worksheet * list LogEntry) :=
  for_each (dataframe_to_rows df_out) ws_append ;;;
  st <- get_state ;;
  let headers := ws_row (st_ws st) 1 in
  i <- of_res (list_index 0 (lit "thumbnail") headers) ;;
  let col_thumb := i + 1 in
  j <- of_res (list_index 0 (lit "thumbnail_dataurl") headers) ;;
  let col_dataurl := j + 1 in
  modify (fun st => with_ws st (insert_cols (st_ws st) (col_dataurl + 1))) ;;;
  set_cell_value 1 (col_dataurl + 1) (VStr (lit "thumbnail_image_embedded")) ;;;
  let col_img := col_dataurl + 1 in
  modify (fun st => with_ws st (set_col_width (st_ws st) col_img 18)) ;;;
  row_loop col_thumb col_dataurl col_img ;;;
  st <- get_state ;;
  ret (st_ws st, st_logs st).

Definition initial_state (tr : trace) : build_state :=
  {| st_trace := tr; st_ws := new_worksheet; st_logs := [];
     st_ok := 0; st_fail := 0 |}.

Definition build_excel_with_images (df : DataFrame) (max_rows : Z)
  : M trace (worksheet * list LogEntry) :=
  fun tr =>
    if negb (has_column df (lit "thumbnail")) then
      (Raise (ValueError (lit "Missing required column: 'thumbnail'")), tr)
    else
      let (r, st) := build_body (prepare df max_rows) (initial_state tr) in
      (r, st_trace st).

End SheetBuilder.

(* ================================================================== *)
(** ** Vocabulary of the statements *)

(** The statuses a log entry may carry. *)
Definition valid_status (s : pystr) : Prop :=
  s = lit "ok" \/ s = lit "no-bytes" \/ exists kind, s = lit "error:" ++ kind.

(** The builder's state after a row was counted as failed and logged
    with status [s]; nothing else differs. *)
Definition log_failure (st : build_state) (row_idx : Z) (s : pystr)
  : build_state :=
  {| st_trace := st_trace st; st_ws := st_ws st;
     st_logs := st_logs st ++ [{| row := row_idx - 1; status := s |}];
     st_ok := st_ok st; st_fail := st_fail st + 1 |}.

(** The number of data rows a run processes. *)
Definition processed_count (df : DataFrame) (max_rows : Z) : Z :=
  if 0 <? max_rows then Z.min max_rows (len (rows df)) else len (rows df).

(** Every cell of the table can be stored in a worksheet. *)
Definition storable (df : DataFrame) : bool :=
  forallb
    (fun r => match bind_values r with Ok _ => true | Raise _ => false end)
    (dataframe_to_rows df).

(* ================================================================== *)
(** ** Concrete environments and inputs *)

Module Scenario.

Definition MissingSchema : exn :=
  {| exn_name := lit "MissingSchema"; exn_is_SSLError := false;
     exn_msg := [] |}.

Definition ConnectionError : exn :=
  {| exn_name := lit "ConnectionError"; exn_is_SSLError := false;
     exn_msg := [] |}.

Definition UnidentifiedImageError : exn :=
  {| exn_name := lit "UnidentifiedImageError"; exn_is_SSLError := false;
     exn_msg := [] |}.

(** Upper-casing that leaves code points outside ASCII alone. *)
Definition upper_plain (c : N) : pystr := [c].

(** A decoder that recognises nothing. *)
Definition pil_none (b : bytes) : res image := Raise UnidentifiedImageError.

(** A decoder that reads everything as a JPEG with a two-byte
    thumbnail. *)
Definition pil_jpeg (b : bytes) : res image :=
  Ok {| img_format := Some (lit "JPEG");
        img_thumbnail_png := fun _ => Ok [Byte.x89; Byte.x50] |}.

Definition url_a : pystr := lit "http://a.test/i.jpg".
Definition url_s : pystr := lit "https://a.test/i.jpg".

(** Every request is answered 404. *)
Definition server_404 (tr : trace) (rq : request) : res response :=
  Ok {| status_code := 404; content := Ok []; raw := Ok [] |}.

(** Every request is refused before it is sent. *)
Definition server_no_schema (tr : trace) (rq : request) : res response :=
  Raise MissingSchema.

(** Every request is answered 200 with a three-byte body. *)
Definition body3 : bytes := [Byte.xff; Byte.xd8; Byte.xff].

Definition server_ok (tr : trace) (rq : request) : res response :=
  Ok {| status_code := 200; content := Ok body3; raw := Ok [] |}.

(** A body one byte longer than [MAX_BYTES]. *)
Definition big_body : bytes :=
  Byte.x00 :: repeat Byte.x00 (Z.to_nat MAX_BYTES).

Definition big_response : response :=
  {| status_code := 200; content := Ok big_body; raw := Ok [] |}.

Definition server_big (tr : trace) (rq : request) : res response :=
  Ok big_response.

(** An empty 200 answer over https, and no listener on plain http. *)
Definition empty_response : response :=
  {| status_code := 200; content := Ok []; raw := Ok [] |}.

Definition server_https_only (tr : trace) (rq : request) : res response :=
  if startswith (req_url rq) (lit "https://")
  then Ok empty_response
  else Raise ConnectionError.

Definition thumbnail_col : list pyval := [VStr (lit "thumbnail")].

(** One row holding a URL. *)
Definition df_url : DataFrame :=
  {| columns := thumbnail_col; rows := [[VStr url_a]] |}.

(** One row whose URL cell holds the number 5. *)
Definition df_five : DataFrame :=
  {| columns := thumbnail_col; rows := [[VInt 5]] |}.

(** Three rows: a URL, an empty cell, a URL. *)
Definition df_three : DataFrame :=
  {| columns := thumbnail_col;
     rows := [[VStr url_a]; [VNone]; [VStr url_a]] |}.

(** A table without the [thumbnail] column. *)
Definition df_nocol : DataFrame :=
  {| columns := [VStr (lit "name")]; rows := [[VStr (lit "x")]] |}.

Definition header3 : list pyval :=
  [VStr (lit "thumbnail"); VStr (lit "thumbnail_dataurl");
   VStr (lit "thumbnail_image_embedded")].

(** The worksheet of a table with the single column [thumbnail] once
    the header, the data rows [cells] and the image column are in
    place and no image is embedded. *)
Definition sheet (cells : list (list pyval)) : worksheet :=
  {| ws_title := lit "Products"; ws_cells := header3 :: cells;
     ws_images := []; ws_row_heights := []; ws_col_widths := [(3, 18)] |}.

(** The builder's state when the row loop starts on that worksheet,
    before any request. *)
Definition state_of (cells : list (list pyval)) : build_state :=
  with_ws (initial_state []) (sheet cells).

(** The GET that [fetch_image] issues first for [url]. *)
Definition first_get (url : pystr) : request :=
  get_request http_session url [(lit "Referer", url)] true.

End Scenario.

(* ================================================================== *)
(** ** Further vocabulary and environments *)

(** The address line 54 builds for the fallback. *)
Definition http_twin (url : pystr) : pystr :=
  lit "http://" ++ skipn (length (lit "https://")) url.

(** The GETs one call of [fetch_image url] can issue, in order: the
    URL itself; the same without certificate verification when
    [ssl_retry]; the plain-HTTP twin when [fallback].  All carry the
    header [Referer: url]. *)
Definition fetch_requests (url : pystr) (ssl_retry fallback : bool)
  : list request :=
  let headers := [(lit "Referer", url)] in
  [get_request http_session url headers true]
  ++ (if ssl_retry then [get_request http_session url headers false]
      else [])
  ++ (if fallback
      then [get_request http_session (http_twin url) headers true]
      else []).

Definition SSLError : exn :=
  {| exn_name := lit "SSLError"; exn_is_SSLError := true; exn_msg := [] |}.

(** A host with a certificate that does not verify: refused under
    verification, served a three-byte body without. *)
Definition server_self_signed (tr : trace) (rq : request) : res response :=
  if req_verify rq then Raise SSLError
  else Ok {| status_code := 200; content := Ok Scenario.body3;
             raw := Ok [] |}.

(** A host that answers with an empty [content] and leaves the body
    on the raw stream. *)
Definition server_raw (b : bytes) (tr : trace) (rq : request)
  : res response :=
  Ok {| status_code := 200; content := Ok []; raw := Ok b |}.

(** A printable ASCII character. *)
Definition printable (c : N) : bool := ((32 <=? c) && (c <? 127))%N.

(** The check that the character of the six-bit value [v] is
    printable. *)
Definition sextet_printable (v : N) : bool :=
  printable (Byte.to_N (b64_char v)).

(** The text [to_data_url] returns for [b] (it always returns). *)
Definition data_url_of (image_open : bytes -> res image)
    (upper_nonascii : N -> pystr) (b : bytes) : pystr :=
  lit "data:" ++ sniff_mime image_open upper_nonascii b
  ++ lit ";base64," ++ List.map Byte.to_N (b64encode b).

(** The builder's state after a row was embedded: the data URL [v]
    in its cell, the thumbnail anchored at the image column, the row
    height set, the row counted and logged [ok]. *)
Definition log_success (st : build_state) (row_idx col_dataurl col_img : Z)
    (v : pyval) (thumb : bytes) : build_state :=
  {| st_trace := st_trace st;
     st_ws :=
       set_row_height
         (add_image (put_cell (st_ws st) row_idx col_dataurl v)
            (mkXLImage thumb) (row_idx, col_img))
         row_idx 80;
     st_logs := st_logs st ++ [{| row := row_idx - 1; status := lit "ok" |}];
     st_ok := st_ok st + 1;
     st_fail := st_fail st |}.

(** [status == "ok"] *)
Definition is_ok (e : LogEntry) : bool := pystr_eqb (status e) (lit "ok").

(** Lines 176-182: the two counts shown after a run,
    [(embedded_ok, embedded_fail)]. *)
Definition report (logs : list LogEntry) : Z * Z :=
  if nonempty logs then
    let embedded_ok := len (filter is_ok logs) in
    let embedded_fail := len logs - embedded_ok in
    (embedded_ok, embedded_fail)
  else (0, 0).

(** Lines 104-115 on stored values: the worksheet when the row loop
    starts, for the stored header [hs], the stored data rows [bound]
    and [thumbnail_dataurl] found at position [j] of the header
    (counted from 0). *)
Definition sheet_start (hs : list pyval) (bound : list (list pyval)) (j : Z)
  : worksheet :=
  set_col_width
    (put_cell
       (insert_cols (with_cells new_worksheet (hs :: bound)) (j + 1 + 1))
       1 (j + 1 + 1) (VStr (lit "thumbnail_image_embedded")))
    (j + 1 + 1) 18.

(** The run of [Scenario.df_three] capped at two rows, every URL
    answered with [Scenario.body3]: the sheet and the log it returns. *)
Definition sheet_three_capped : worksheet :=
  {| ws_title := lit "Products";
     ws_cells :=
       [Scenario.header3;
        [VStr Scenario.url_a; VStr (lit "data:image/jpeg;base64,/9j/")];
        [VNone; VStr []]];
     ws_images := [(mkXLImage [Byte.x89; Byte.x50], (2, 3))];
     ws_row_heights := [(2, 80)];
     ws_col_widths := [(3, 18)] |}.

Definition logs_three_capped : list LogEntry :=
  [{| row := 1; status := lit "ok" |};
   {| row := 2; status := lit "no-bytes" |}].

(** A stored header with [thumbnail_dataurl] left of [thumbnail]. *)
Definition header_swapped : list pyval :=
  [VStr (lit "thumbnail_dataurl"); VStr (lit "thumbnail")].

(** The builder's state at the first data row of [Scenario.df_url]. *)
Definition state_url : build_state :=
  Scenario.state_of [[VStr Scenario.url_a; VStr []]].

(* ================================================================== *)
(** ** IO: reading the uploaded table *)

(** [s.endswith(p)] *)
Definition endswith (s p : pystr) : bool := startswith (rev s) (rev p).

(** The lower case of an ASCII character. *)
Definition lower_ascii (c : N) : N :=
  if (65 <=? c)%N && (c <=? 90)%N then (c + 32)%N else c.

(** [s.lower()]: ASCII letters are lowered in place; what a character
    outside ASCII becomes is left to [f], which is told where the
    character stands. *)
Fixpoint lower_from (f : nat -> N -> pystr) (i : nat) (s : pystr) : pystr :=
  match s with
  | [] => []
  | c :: s' =>
      (if (c <? 128)%N then [lower_ascii c] else f i c)
      ++ lower_from f (S i) s'
  end.

(** An uploaded file: its name and its bytes. *)
Record UploadedFile := mkUploadedFile {
  name : pystr;
  file_bytes : bytes
}.

Section IO.

(** The lower-case mapping outside ASCII: of the character at a
    position of a string (the mapping of a capital sigma depends on
    its neighbours). *)
Variable lower_nonascii : pystr -> nat -> N -> pystr.

(** [pd.read_excel(f, engine="openpyxl")] and [pd.read_csv(f)] *)
Variable read_excel : UploadedFile -> res DataFrame.
Variable read_csv : UploadedFile -> res DataFrame.

Definition lower (s : pystr) : pystr := lower_from (lower_nonascii s) 0 s.

Definition read_any_table (f : UploadedFile) : res DataFrame :=
  let fn := lower (name f) in
  if endswith fn (lit ".xlsx") || endswith fn (lit ".xls")
  then read_excel f
  else if endswith fn (lit ".csv") then read_csv f
  else Raise (ValueError (lit "Use .xlsx/.xls/.csv")).

End IO.

(* ================================================================== *)
(** ** Action: the run behind the Process button *)

(** What the page shows, call by call. *)
Inductive ui_event :=
| UiError (msg : pystr)
    (** [st.error(msg)] *)
| UiWriteTable (n_rows : Z) (cols : list pyval)
    (** [st.write({"rows": ..., "columns": ...})] *)
| UiCaption (msg : pystr)
    (** [st.caption(msg)] *)
| UiImage (col : Z) (url caption : pystr)
    (** [st.image(url, caption=...)] inside [cols[col]] *)
| UiSuccess (msg : pystr)
    (** [st.success(msg)] *)
| UiDownload (label : pystr) (buf : worksheet) (file_name mime : pystr)
    (** [st.download_button(label, data=..., file_name=..., mime=...)] *)
| UiWriteCounts (embedded_ok embedded_fail : Z)
    (** [st.write({"embedded_ok": ..., "embedded_fail": ...})] *)
| UiDataframe (logs : list LogEntry)
    (** [st.dataframe(logs)] *)
| UiInfo (msg : pystr).
    (** [st.info(msg)] *)

(** What a run of the page changes: the network history and what is
    on the page. *)
Record page_state := mkPageState {
  pg_trace : trace;
  pg_events : list ui_event
}.

(** One more thing on the page. *)
Definition emit (e : ui_event) : M page_state unit :=
  modify (fun pg =>
    {| pg_trace := pg_trace pg; pg_events := pg_events pg ++ [e] |}).

(** A network computation run from the page. *)
Definition lift_page {A} (m : M trace A) : M page_state A :=
  fun pg =>
    let (r, tr) := m (pg_trace pg) in
    (r, {| pg_trace := tr; pg_events := pg_events pg |}).

Definition XLSX_MIME : pystr :=
  lit "application/vnd.openxmlformats-officedocument.spreadsheetml.sheet".

(** The closing note of line 184. *)
Definition info_note : pystr :=
  lit "Open the XLSX in Microsoft Excel desktop to see embedded images."
  ++ lit " Google Sheets/Numbers may hide them.".

Section Action.

Variable server : trace -> request -> res response.
Variable image_open : bytes -> res image.
Variable upper_nonascii : N -> pystr.
Variable lower_nonascii : pystr -> nat -> N -> pystr.
Variable read_excel : UploadedFile -> res DataFrame.
Variable read_csv : UploadedFile -> res DataFrame.

(** Lines 156-164: the preview of the first URLs.  Whatever it
    raises is dropped ([except Exception: pass]); the calls it made
    before it ended or raised are given by [preview]. *)
Variable preview : DataFrame -> list ui_event.

(** The page after a sequence of calls. *)
Definition emit_all (es : list ui_event) : M page_state unit :=
  modify (fun pg =>
    {| pg_trace := pg_trace pg; pg_events := pg_events pg ++ es |}).

(** Lines 176-182: the counts and the head of the log. *)
Definition show_report (logs : list LogEntry) : M page_state unit :=
  if nonempty logs then
    let embedded_ok := len (filter is_ok logs) in
    let embedded_fail := len logs - embedded_ok in
    emit (UiWriteCounts embedded_ok embedded_fail) ;;;
    emit (UiDataframe (take 50 logs))
  else emit (UiWriteCounts 0 0).

(** Lines 153-184: the body of the outer [try]. *)
Definition action_try (up : UploadedFile) (limit : Z) : M page_state unit :=
  df <- of_res (read_any_table lower_nonascii read_excel read_csv up) ;;
  emit (UiWriteTable (len (rows df)) (columns df)) ;;;
  emit_all (preview df) ;;;
  r <- lift_page
         (build_excel_with_images server image_open upper_nonascii
            df limit) ;;
  let (buf, logs) := r in
  emit (UiSuccess (lit "Done. Download and use in your main dashboard.")) ;;;
  emit (UiDownload (lit "Download preprocessed Excel") buf
          (lit "products_with_images.xlsx") XLSX_MIME) ;;;
  show_report logs ;;;
  emit (UiInfo info_note).

(** Lines 185-186: [st.error(f"Failed: {type(e).__name__}: {e}")] *)
Definition action_except (e : exn) : M page_state unit :=
  emit (UiError (lit "Failed: " ++ exn_name e ++ lit ": " ++ exn_msg e)).

(** Lines 148-186. *)
Definition action (start_btn : bool) (up : option UploadedFile) (limit : Z)
  : M page_state unit :=
  if start_btn then
    match up with
    | None => emit (UiError (lit "Upload a file first."))
    | Some f =>
        try_except (action_try f limit) (fun e => Some (action_except e))
    end
  else ret tt.

End Action.

(** Readers and a preview for concrete runs. *)
Definition lower_plain (s : pystr) (i : nat) (c : N) : pystr := [c].

Definition excel_unreadable (f : UploadedFile) : res DataFrame :=
  Raise (ValueError (lit "File is not a zip file")).

Definition csv_three (f : UploadedFile) : res DataFrame :=
  Ok Scenario.df_three.


Definition no_preview (df : DataFrame) : list ui_event := [].

Definition upload_csv : UploadedFile :=
  {| name := lit "Products.CSV"; file_bytes := [] |}.

Definition upload_txt : UploadedFile :=
  {| name := lit "notes.txt"; file_bytes := [] |}.

Definition empty_page : page_state := {| pg_trace := []; pg_events := [] |}.


(* ================================================================== *)
(** * Properties *)

(** ** Strings *)

Lemma pystr_eqb_eq (a b : pystr) : pystr_eqb a b = true <-> a = b.
Proof.
  revert b; induction a as [|x a IH]; intros [|y b]; simpl;
    try (split; [discriminate | congruence]); try tauto.
  rewrite andb_true_iff, N.eqb_eq, IH.
  split; [intros [-> ->]; reflexivity | intros H; injection H; auto].
Qed.

Lemma pystr_eqb_refl (a : pystr) : pystr_eqb a a = true.
Proof. apply pystr_eqb_eq; reflexivity. Qed.

Lemma lstrip_all_space (s : pystr) :
  forallb isspace s = true -> lstrip s = [].
Proof.
  induction s as [|c s IH]; simpl; [reflexivity|].
  rewrite andb_true_iff; intros [Hc Hs]; rewrite Hc; auto.
Qed.

Lemma strip_all_space (s : pystr) :
  forallb isspace s = true -> strip s = [].
Proof.
  intros H; unfold strip, rstrip.
  rewrite (lstrip_all_space s H); reflexivity.
Qed.

Lemma lstrip_app_keep (s : pystr) (c : N) :
  isspace c = false -> lstrip (s ++ [c]) <> [].
Proof.
  intros Hc; induction s as [|x s IH]; simpl.
  - rewrite Hc; discriminate.
  - destruct (isspace x); [exact IH | discriminate].
Qed.

(** A string whose first character is not a space keeps it under
    [strip]. *)
Lemma strip_keeps_head (c : N) (s : pystr) :
  isspace c = false -> nonempty (strip (c :: s)) = true.
Proof.
  intros Hc; unfold strip, rstrip; simpl lstrip; rewrite Hc.
  simpl rev.
  destruct (lstrip (rev s ++ [c])) as [|x t] eqn:E.
  - exfalso; exact (lstrip_app_keep _ _ Hc E).
  - assert (Hn : rev (x :: t) <> []).
    { simpl; intros H; apply app_eq_nil in H; destruct H; discriminate. }
    destruct (rev (x :: t)); [contradiction | reflexivity].
Qed.

Lemma startswith_https_nonblank (u : pystr) :
  startswith u (lit "https://") = true -> nonempty (strip u) = true.
Proof.
  destruct u as [|c u]; [discriminate|].
  simpl; rewrite andb_true_iff; intros [Hc _].
  apply N.eqb_eq in Hc; subst c.
  apply strip_keeps_head; reflexivity.
Qed.

Lemma nonempty_false {A} (l : list A) : nonempty l = false <-> l = [].
Proof. destruct l; simpl; split; congruence. Qed.

Lemma len_nonneg {A} (l : list A) : 0 <= len l.
Proof. unfold len; lia. Qed.

(** ** The fetcher *)

Section FetchFacts.

Variable server : trace -> request -> res response.

Lemma fetch_image_non_str (v : pyval) (tr : trace) :
  is_str v = false -> fetch_image server v tr = (Ok [], tr).
Proof. destruct v; simpl; try discriminate; reflexivity. Qed.

Lemma fetch_image_blank (s : pystr) (tr : trace) :
  strip s = [] -> fetch_image server (VStr s) tr = (Ok [], tr).
Proof. intros H; simpl; rewrite H; reflexivity. Qed.

Lemma clip_bounded (d : bytes) : len (clip d) <= MAX_BYTES.
Proof.
  unfold clip.
  destruct (nonempty d); simpl; [|unfold len, MAX_BYTES; simpl; lia].
  destruct (len d <=? MAX_BYTES) eqn:E; [apply Z.leb_le; exact E|].
  unfold len, MAX_BYTES; simpl; lia.
Qed.

Lemma clip_too_long (d : bytes) : MAX_BYTES < len d -> clip d = [].
Proof.
  intros H; unfold clip.
  replace (len d <=? MAX_BYTES) with false
    by (symmetry; apply Z.leb_gt; exact H).
  rewrite andb_false_r; reflexivity.
Qed.

Lemma fetch_image_unfold (u : pystr) (tr : trace) :
  nonempty (strip u) = true ->
  fetch_image server (VStr u) tr =
  match fetch_payload server u tr with
  | (Ok None, tr') => (Ok [], tr')
  | (Ok (Some d), tr') => (Ok (clip d), tr')
  | (Raise e, tr') => (Raise e, tr')
  end.
Proof.
  intros H; simpl; rewrite H; simpl.
  unfold bind.
  destruct (fetch_payload server u tr) as [[[d|]|e] tr']; reflexivity.
Qed.

Lemma len_nil_bounded : len (@nil Byte.byte) <= MAX_BYTES.
Proof. unfold len, MAX_BYTES; simpl; lia. Qed.

Lemma fetch_image_len (v : pyval) (tr : trace) (d : bytes) (tr' : trace) :
  fetch_image server v tr = (Ok d, tr') -> len d <= MAX_BYTES.
Proof.
  destruct v as [|u|z|b|t r];
    try (simpl; unfold ret; intros H; injection H as <- _;
         exact len_nil_bounded).
  destruct (nonempty (strip u)) eqn:E.
  - rewrite (fetch_image_unfold u tr E).
    destruct (fetch_payload server u tr) as [[[p|]|e] t];
      intros H; try discriminate; injection H as <- _.
    + apply clip_bounded.
    + exact len_nil_bounded.
  - apply nonempty_false in E. rewrite (fetch_image_blank u tr E).
    intros H; injection H as <- _; exact len_nil_bounded.
Qed.

End FetchFacts.

Section FetchClaims.

Variable server : trace -> request -> res response.

(** The requests of lines 47-50: one GET, and a second one without
    certificate verification when the first raised [SSLError]. *)
Lemma primary_get_trace (u : pystr) (h : list (pystr * pystr))
    (tr : trace) (x : res response) (tr1 : trace) :
  primary_get server http_session u h tr = (x, tr1) ->
  tr1 = tr ++ [get_request http_session u h true]
  \/ tr1 = (tr ++ [get_request http_session u h true])
             ++ [get_request http_session u h false].
Proof.
  unfold primary_get, try_except, session_get.
  destruct (server tr _) as [r|e].
  - intros H; injection H as _ <-; left; reflexivity.
  - destruct (exn_is_SSLError e).
    + intros H; injection H as _ <-; right; reflexivity.
    + intros H; injection H as _ <-; left; reflexivity.
Qed.

(** What [fetch_payload] does once the first response is in. *)
Lemma fetch_payload_after_get (u : pystr) (tr : trace) (r : response)
    (tr1 : trace) :
  primary_get server http_session u [(lit "Referer", u)] tr = (Ok r, tr1) ->
  is_error_status r = false ->
  fetch_payload server u tr =
  match body_of r with
  | Ok data =>
      http_fallback server http_session u [(lit "Referer", u)] data tr1
  | Raise e => (Raise e, tr1)
  end.
Proof.
  intros Hget Hst. unfold fetch_payload, bind at 1.
  rewrite Hget. unfold raise_for_status; rewrite Hst.
  unfold bind, ret, read_body, of_res.
  destruct (body_of r); reflexivity.
Qed.

(** A non-success status on the first response raises [HTTPError]. *)
Lemma fetch_payload_http_error (u : pystr) (tr : trace) (r : response)
    (tr1 : trace) :
  primary_get server http_session u [(lit "Referer", u)] tr = (Ok r, tr1) ->
  is_error_status r = true ->
  fetch_payload server u tr = (Raise HTTPError, tr1).
Proof.
  intros Hget Hst. unfold fetch_payload, bind at 1.
  rewrite Hget. unfold raise_for_status; rewrite Hst. reflexivity.
Qed.

(** C10: for every string made of whitespace characters only,
    [fetch_image] returns the empty result and issues no request,
    exactly as it does for the empty string. *)
Theorem fetch_image_whitespace_only (s : pystr) (tr : trace) :
  forallb isspace s = true ->
  fetch_image server (VStr s) tr = (Ok [], tr)
  /\ fetch_image server (VStr s) tr = fetch_image server (VStr []) tr.
Proof.
  intros H.
  rewrite (fetch_image_blank server s tr (strip_all_space s H)).
  split; reflexivity.
Qed.

(** C4: whatever [fetch_image] returns is empty or at most [MAX_BYTES]
    long, and a payload longer than [MAX_BYTES] (the body of the first
    response, or whatever lines 45-60 arrive at) gives the empty
    result. *)
Theorem fetch_image_max_bytes :
  (forall v tr d tr',
      fetch_image server v tr = (Ok d, tr') ->
      d = [] \/ (0 < len d /\ len d <= MAX_BYTES))
  /\ (forall u tr d tr',
      nonempty (strip u) = true ->
      fetch_payload server u tr = (Ok (Some d), tr') ->
      MAX_BYTES < len d ->
      fetch_image server (VStr u) tr = (Ok [], tr'))
  /\ (forall u tr r tr1 c,
      nonempty (strip u) = true ->
      primary_get server http_session u [(lit "Referer", u)] tr
        = (Ok r, tr1) ->
      is_error_status r = false ->
      content r = Ok c ->
      MAX_BYTES < len c ->
      fetch_image server (VStr u) tr = (Ok [], tr1)).
Proof.
  assert (A : forall u tr d tr',
      nonempty (strip u) = true ->
      fetch_payload server u tr = (Ok (Some d), tr') ->
      MAX_BYTES < len d ->
      fetch_image server (VStr u) tr = (Ok [], tr')).
  { intros u tr d tr' Hu Hp Hd.
    rewrite (fetch_image_unfold server u tr Hu), Hp, (clip_too_long d Hd).
    reflexivity. }
  split; [|split; [exact A|]].
  - intros v tr d tr' H.
    pose proof (fetch_image_len server v tr d tr' H) as Hle.
    destruct d as [|x d]; [left; reflexivity | right].
    split; [unfold len; simpl length; lia | exact Hle].
  - intros u tr r tr1 c Hu Hget Hst Hc Hlen.
    apply (A u tr c tr1 Hu); [|exact Hlen].
    rewrite (fetch_payload_after_get u tr r tr1 Hget Hst).
    unfold body_of; rewrite Hc.
    destruct c as [|x c]; [unfold len, MAX_BYTES in Hlen; simpl in Hlen; lia|].
    reflexivity.
Qed.

End FetchClaims.

(** A space, a tab and an ideographic space: no request is made. *)
Lemma fetch_image_whitespace_only_witness :
  fetch_image Scenario.server_ok (VStr [32; 9; 12288]%N) []
    = (Ok [], [])
  /\ fetch_image Scenario.server_ok (VStr [32; 9; 12288]%N) []
     = fetch_image Scenario.server_ok (VStr []) [].
Proof.
  apply (fetch_image_whitespace_only Scenario.server_ok [32; 9; 12288]%N []).
  reflexivity.
Defined.

Lemma big_body_len : MAX_BYTES < len Scenario.big_body.
Proof.
  assert (L : forall (x : Byte.byte) l, length (x :: l) = S (length l))
    by reflexivity.
  unfold Scenario.big_body, len.
  rewrite L, repeat_length, Nat2Z.inj_succ, Z2Nat.id;
    unfold MAX_BYTES; lia.
Qed.

(** A body of [MAX_BYTES + 1] bytes is dropped. *)
Lemma fetch_image_max_bytes_witness :
  fetch_image Scenario.server_big (VStr Scenario.url_a) []
  = (Ok [],
     [get_request http_session Scenario.url_a
        [(lit "Referer", Scenario.url_a)] true]).
Proof.
  apply (proj2 (proj2 (fetch_image_max_bytes Scenario.server_big))
           Scenario.url_a [] Scenario.big_response _ Scenario.big_body).
  - vm_compute; reflexivity.
  - reflexivity.
  - reflexivity.
  - reflexivity.
  - exact big_body_len.
Defined.

Section FallbackClaim.

Variable server : trace -> request -> res response.

Lemma http_fallback_taken (u : pystr) (h : list (pystr * pystr))
    (tr1 : trace) :
  startswith u (lit "https://") = true ->
  let alt :=
    get_request http_session (lit "http://" ++ skipn 8 u) h true in
  exists p,
    http_fallback server http_session u h [] tr1 = (Ok p, tr1 ++ [alt])
    /\ match p with
       | Some d => clip d
       | None => []
       end = fallback_result (server tr1 alt).
Proof.
  intros Hs alt. unfold http_fallback. rewrite Hs.
  cbn [nonempty negb andb].
  change (length (lit "https://")) with 8%nat. fold alt.
  unfold try_except, bind, session_get, raise_for_status, read_body,
    of_res, raise, ret, fallback_result.
  fold alt.
  destruct (server tr1 alt) as [r2|e].
  - destruct (is_error_status r2).
    + eexists; split; reflexivity.
    + destruct (body_of r2) as [b|e]; eexists; split; reflexivity.
  - eexists; split; reflexivity.
Qed.

(** C6: when the URL starts with [https://] and its GET succeeds with
    an empty body, [fetch_image] issues exactly one more request, to
    the same address under [http://] and with the same headers, and
    returns normally whatever becomes of that request: empty when the
    request raises, answers a non-success status or fails to deliver
    its body. *)
Theorem https_empty_body_http_retry (u : pystr) (tr : trace)
    (r : response) (tr1 : trace) :
  startswith u (lit "https://") = true ->
  primary_get server http_session u [(lit "Referer", u)] tr = (Ok r, tr1) ->
  is_error_status r = false ->
  body_of r = Ok [] ->
  let headers := [(lit "Referer", u)] in
  let alt :=
    get_request http_session (lit "http://" ++ skipn 8 u) headers true in
  fetch_image server (VStr u) tr
    = (Ok (fallback_result (server tr1 alt)), tr1 ++ [alt])
  /\ (forall rq, In rq (tr1 ++ [alt]) ->
        In rq tr
        \/ (req_headers rq = headers
            /\ req_session_headers rq = session_headers http_session))
  /\ (forall e, server tr1 alt = Raise e ->
        fallback_result (server tr1 alt) = [])
  /\ (forall r2, server tr1 alt = Ok r2 -> is_error_status r2 = true ->
        fallback_result (server tr1 alt) = [])
  /\ (forall r2 e, server tr1 alt = Ok r2 -> body_of r2 = Raise e ->
        fallback_result (server tr1 alt) = []).
Proof.
  intros Hs Hget Hst Hbody headers alt. subst headers alt.
  split; [|split; [|split; [|split]]].
  - rewrite (fetch_image_unfold server u tr (startswith_https_nonblank u Hs)).
    rewrite (fetch_payload_after_get server u tr r tr1 Hget Hst), Hbody.
    pose proof (http_fallback_taken u [(lit "Referer", u)] tr1 Hs) as H.
    cbv zeta in H. destruct H as [p [Hp Hres]].
    rewrite Hp, <- Hres.
    destruct p; reflexivity.
  - intros rq Hin. apply in_app_or in Hin.
    destruct Hin as [Hin | [<- | []]]; [|right; split; reflexivity].
    destruct (primary_get_trace server u _ tr (Ok r) tr1 Hget)
      as [-> | ->].
    + apply in_app_or in Hin.
      destruct Hin as [Hin | [<- | []]];
        [left; exact Hin | right; split; reflexivity].
    + apply in_app_or in Hin. destruct Hin as [Hin | [<- | []]].
      * apply in_app_or in Hin.
        destruct Hin as [Hin | [<- | []]];
          [left; exact Hin | right; split; reflexivity].
      * right; split; reflexivity.
  - intros e He; rewrite He; reflexivity.
  - intros r2 Hr Hbad; rewrite Hr; simpl; rewrite Hbad; reflexivity.
  - intros r2 e Hr Hb; rewrite Hr; simpl; rewrite Hb.
    destruct (is_error_status r2); reflexivity.
Qed.

End FallbackClaim.

(** An empty answer over https, nobody listening on http: one more
    request and the empty result. *)
Lemma https_empty_body_http_retry_witness :
  fetch_image Scenario.server_https_only (VStr Scenario.url_s) []
  = (Ok [],
     [get_request http_session Scenario.url_s
        [(lit "Referer", Scenario.url_s)] true;
      get_request http_session (lit "http://a.test/i.jpg")
        [(lit "Referer", Scenario.url_s)] true]).
Proof.
  exact (proj1 (https_empty_body_http_retry Scenario.server_https_only
                  Scenario.url_s [] Scenario.empty_response
                  [get_request http_session Scenario.url_s
                     [(lit "Referer", Scenario.url_s)] true]
                  eq_refl eq_refl eq_refl eq_refl)).
Defined.

(** ** Base64 *)

Lemma sextet_ok_all (v : N) : (v < 64)%N -> sextet_ok v = true.
Proof.
  intros H.
  assert (A : forallb sextet_ok (List.map N.of_nat (seq 0 64)) = true)
    by (vm_compute; reflexivity).
  rewrite forallb_forall in A. apply A.
  apply in_map_iff. exists (N.to_nat v). split; [apply N2Nat.id|].
  apply in_seq. lia.
Qed.

Lemma b64_char_spec (v : N) :
  (v < 64)%N ->
  b64_value (Byte.to_N (b64_char v)) = Some v
  /\ (Byte.to_N (b64_char v) =? 61)%N = false
  /\ (Byte.to_N (b64_char v) <? 128)%N = true.
Proof.
  intros H. pose proof (sextet_ok_all v H) as A. unfold sextet_ok in A.
  destruct (b64_value (Byte.to_N (b64_char v))) as [w|]; [|discriminate].
  apply andb_true_iff in A; destruct A as [A C].
  apply andb_true_iff in A; destruct A as [A B].
  apply N.eqb_eq in A; subst w.
  apply negb_true_iff in B. auto.
Qed.

Lemma sextet_lt (n i : N) : (sextet n i < 64)%N.
Proof. unfold sextet. apply N.mod_lt. discriminate. Qed.

Lemma pad_is_61 : Byte.to_N b64_pad = 61%N.
Proof. reflexivity. Qed.

Ltac euclid :=
  zify; Z.to_euclidean_division_equations; lia.

Lemma join24_sextets (n : N) :
  (n < 16777216)%N ->
  join24 (sextet n 3) (sextet n 2) (sextet n 1) (sextet n 0) = n.
Proof.
  intros H. unfold join24, sextet.
  change (2 ^ (6 * 3))%N with 262144%N.
  change (2 ^ (6 * 2))%N with 4096%N.
  change (2 ^ (6 * 1))%N with 64%N.
  change (2 ^ (6 * 0))%N with 1%N.
  euclid.
Qed.

Lemma group24_lt (a b c : Byte.byte) : (group24 a b c < 16777216)%N.
Proof.
  unfold group24.
  pose proof (Byte.to_N_bounded a). pose proof (Byte.to_N_bounded b).
  pose proof (Byte.to_N_bounded c). lia.
Qed.

Lemma byte_at_group24 (a b c : Byte.byte) :
  byte_at (group24 a b c) 2 = Some a
  /\ byte_at (group24 a b c) 1 = Some b
  /\ byte_at (group24 a b c) 0 = Some c.
Proof.
  pose proof (Byte.to_N_bounded a). pose proof (Byte.to_N_bounded b).
  pose proof (Byte.to_N_bounded c).
  unfold byte_at, group24.
  change (2 ^ (8 * 2))%N with 65536%N.
  change (2 ^ (8 * 1))%N with 256%N.
  change (2 ^ (8 * 0))%N with 1%N.
  repeat split.
  - rewrite <- (Byte.of_to_N a); f_equal; euclid.
  - rewrite <- (Byte.of_to_N b); f_equal; euclid.
  - rewrite <- (Byte.of_to_N c); f_equal; euclid.
Qed.

(** Two characters carry the first byte of a group. *)
Lemma join24_two (n : N) :
  (n < 16777216)%N ->
  ((join24 (sextet n 3) (sextet n 2) 0 0 / 2 ^ (8 * 2)) mod 256
   = (n / 2 ^ (8 * 2)) mod 256)%N.
Proof.
  intros H. unfold join24, sextet.
  change (2 ^ (6 * 3))%N with 262144%N.
  change (2 ^ (6 * 2))%N with 4096%N.
  change (2 ^ (8 * 2))%N with 65536%N.
  euclid.
Qed.

(** Three characters carry the first two bytes of a group. *)
Lemma join24_three (n : N) :
  (n < 16777216)%N -> (n mod 256 = 0)%N ->
  join24 (sextet n 3) (sextet n 2) (sextet n 1) 0 = n.
Proof.
  intros H H0. unfold join24, sextet.
  change (2 ^ (6 * 3))%N with 262144%N.
  change (2 ^ (6 * 2))%N with 4096%N.
  change (2 ^ (6 * 1))%N with 64%N.
  euclid.
Qed.

Lemma list_ind3 {A} (P : list A -> Prop) :
  P [] -> (forall a, P [a]) -> (forall a b, P [a; b]) ->
  (forall a b c l, P l -> P (a :: b :: c :: l)) ->
  forall l, P l.
Proof.
  intros H0 H1 H2 H3.
  fix IH 1. intros [|a [|b [|c l]]].
  - exact H0.
  - exact (H1 a).
  - exact (H2 a b).
  - exact (H3 a b c l (IH l)).
Qed.

(** Decoding a full group of four characters. *)
Lemma b64decode_group (v3 v2 v1 v0 : N) (rest : pystr) :
  (v3 < 64)%N -> (v2 < 64)%N -> (v1 < 64)%N -> (v0 < 64)%N ->
  b64decode (Byte.to_N (b64_char v3) :: Byte.to_N (b64_char v2)
             :: Byte.to_N (b64_char v1) :: Byte.to_N (b64_char v0) :: rest)
  = let n := join24 v3 v2 v1 v0 in
    opt_cons (byte_at n 2)
      (opt_cons (byte_at n 1) (opt_cons (byte_at n 0) (b64decode rest))).
Proof.
  intros H3 H2 H1 H0.
  destruct (b64_char_spec v3 H3) as [E3 _].
  destruct (b64_char_spec v2 H2) as [E2 _].
  destruct (b64_char_spec v1 H1) as [E1 _].
  destruct (b64_char_spec v0 H0) as [E0 [P0 _]].
  remember (Byte.to_N (b64_char v3)) as c3.
  remember (Byte.to_N (b64_char v2)) as c2.
  remember (Byte.to_N (b64_char v1)) as c1.
  remember (Byte.to_N (b64_char v0)) as c0.
  cbn [b64decode]. rewrite E3, E2, P0, E1, E0. reflexivity.
Qed.

(** Decoding a last group padded once. *)
Lemma b64decode_pad1 (v3 v2 v1 : N) :
  (v3 < 64)%N -> (v2 < 64)%N -> (v1 < 64)%N ->
  b64decode [Byte.to_N (b64_char v3); Byte.to_N (b64_char v2);
             Byte.to_N (b64_char v1); Byte.to_N b64_pad]
  = let n := join24 v3 v2 v1 0 in
    opt_cons (byte_at n 2) (opt_cons (byte_at n 1) (Some [])).
Proof.
  intros H3 H2 H1.
  destruct (b64_char_spec v3 H3) as [E3 _].
  destruct (b64_char_spec v2 H2) as [E2 _].
  destruct (b64_char_spec v1 H1) as [E1 [P1 _]].
  rewrite pad_is_61.
  remember (Byte.to_N (b64_char v3)) as c3.
  remember (Byte.to_N (b64_char v2)) as c2.
  remember (Byte.to_N (b64_char v1)) as c1.
  cbn [b64decode]. rewrite E3, E2, P1, E1. reflexivity.
Qed.

(** Decoding a last group padded twice. *)
Lemma b64decode_pad2 (v3 v2 : N) :
  (v3 < 64)%N -> (v2 < 64)%N ->
  b64decode [Byte.to_N (b64_char v3); Byte.to_N (b64_char v2);
             Byte.to_N b64_pad; Byte.to_N b64_pad]
  = opt_cons (byte_at (join24 v3 v2 0 0) 2) (Some []).
Proof.
  intros H3 H2.
  destruct (b64_char_spec v3 H3) as [E3 _].
  destruct (b64_char_spec v2 H2) as [E2 _].
  rewrite pad_is_61.
  remember (Byte.to_N (b64_char v3)) as c3.
  remember (Byte.to_N (b64_char v2)) as c2.
  cbn [b64decode]. rewrite E3, E2. reflexivity.
Qed.

Lemma group24_low_zero (a b : Byte.byte) :
  (group24 a b Byte.x00 mod 256 = 0)%N.
Proof.
  unfold group24. change (Byte.to_N Byte.x00) with 0%N. euclid.
Qed.

(** Decoding what [b64encode] produced gives the bytes back. *)
Lemma b64_roundtrip (s : bytes) :
  b64decode (List.map Byte.to_N (b64encode s)) = Some s.
Proof.
  induction s as [|a|a b|a b c s IH] using list_ind3.
  - reflexivity.
  - cbn [b64encode List.map].
    rewrite b64decode_pad2 by apply sextet_lt.
    unfold byte_at.
    rewrite (join24_two _ (group24_lt a Byte.x00 Byte.x00)).
    destruct (byte_at_group24 a Byte.x00 Byte.x00) as [Ea _].
    unfold byte_at in Ea. rewrite Ea. reflexivity.
  - cbn [b64encode List.map].
    rewrite b64decode_pad1 by apply sextet_lt.
    cbv zeta.
    rewrite (join24_three _ (group24_lt a b Byte.x00) (group24_low_zero a b)).
    destruct (byte_at_group24 a b Byte.x00) as [Ea [Eb _]].
    rewrite Ea, Eb. reflexivity.
  - cbn [b64encode List.map].
    rewrite b64decode_group by apply sextet_lt.
    cbv zeta. rewrite (join24_sextets _ (group24_lt a b c)), IH.
    destruct (byte_at_group24 a b c) as [Ea [Eb Ec]].
    rewrite Ea, Eb, Ec. reflexivity.
Qed.

(** [b64encode] produces ASCII characters only. *)
Lemma b64encode_ascii (s : bytes) :
  forallb (fun x => (Byte.to_N x <? 128)%N) (b64encode s) = true.
Proof.
  assert (C : forall v, (v < 64)%N ->
                        (Byte.to_N (b64_char v) <? 128)%N = true)
    by (intros v Hv; apply (b64_char_spec v Hv)).
  induction s as [|a|a b|a b c s IH] using list_ind3;
    cbn [b64encode forallb];
    rewrite ?C by apply sextet_lt; rewrite ?pad_is_61; auto.
Qed.

Example b64encode_Man :
  b64encode (list_byte_of_string "Man") = list_byte_of_string "TWFu".
Proof. reflexivity. Qed.

Example b64encode_Ma :
  b64encode (list_byte_of_string "Ma") = list_byte_of_string "TWE=".
Proof. reflexivity. Qed.

Example b64encode_M :
  b64encode (list_byte_of_string "M") = list_byte_of_string "TQ==".
Proof. reflexivity. Qed.

Example b64decode_TWFu :
  b64decode (lit "TWFu") = Some (list_byte_of_string "Man").
Proof. reflexivity. Qed.

(** ** Imaging *)

Section ImagingClaims.

Variable image_open : bytes -> res image.
Variable upper_nonascii : N -> pystr.

(** [sniff_mime] by the upper-cased format name. *)
Lemma sniff_mime_by_format (b : bytes) :
  let fmt := upper upper_nonascii (sniff_format image_open b) in
  (fmt = lit "JPG" \/ fmt = lit "JPEG" ->
   sniff_mime image_open upper_nonascii b = lit "image/jpeg")
  /\ (fmt = lit "PNG" ->
      sniff_mime image_open upper_nonascii b = lit "image/png")
  /\ (fmt = lit "GIF" ->
      sniff_mime image_open upper_nonascii b = lit "image/gif")
  /\ (fmt <> lit "JPG" -> fmt <> lit "JPEG" -> fmt <> lit "GIF" ->
      sniff_mime image_open upper_nonascii b = lit "image/png").
Proof.
  intros fmt. unfold sniff_mime. fold fmt.
  repeat split.
  - intros [-> | ->]; reflexivity.
  - intros ->; reflexivity.
  - intros ->; reflexivity.
  - intros H1 H2 H3.
    destruct (pystr_eqb fmt (lit "JPG")) eqn:E1;
      [apply pystr_eqb_eq in E1; contradiction|].
    destruct (pystr_eqb fmt (lit "JPEG")) eqn:E2;
      [apply pystr_eqb_eq in E2; contradiction|].
    destruct (pystr_eqb fmt (lit "GIF")) eqn:E3;
      [apply pystr_eqb_eq in E3; contradiction|].
    simpl. destruct (pystr_eqb fmt (lit "PNG")); reflexivity.
Qed.

(** C9: [sniff_mime] answers [image/jpeg] for bytes that open as a
    JPEG, [image/png] for a PNG, [image/gif] for a GIF, and
    [image/png] for bytes that do not open, for an image without a
    format and for every other format; it answers nothing else. *)
Theorem sniff_mime_cases (b : bytes) :
  (forall im,
      image_open b = Ok im -> img_format im = Some (lit "JPEG") ->
      sniff_mime image_open upper_nonascii b = lit "image/jpeg")
  /\ (forall im,
      image_open b = Ok im -> img_format im = Some (lit "PNG") ->
      sniff_mime image_open upper_nonascii b = lit "image/png")
  /\ (forall im,
      image_open b = Ok im -> img_format im = Some (lit "GIF") ->
      sniff_mime image_open upper_nonascii b = lit "image/gif")
  /\ (forall e,
      image_open b = Raise e ->
      sniff_mime image_open upper_nonascii b = lit "image/png")
  /\ (forall im,
      image_open b = Ok im -> img_format im = None ->
      sniff_mime image_open upper_nonascii b = lit "image/png")
  /\ (forall im f,
      image_open b = Ok im -> img_format im = Some f ->
      upper upper_nonascii f <> lit "JPG" ->
      upper upper_nonascii f <> lit "JPEG" ->
      upper upper_nonascii f <> lit "GIF" ->
      sniff_mime image_open upper_nonascii b = lit "image/png")
  /\ (sniff_mime image_open upper_nonascii b = lit "image/jpeg"
      \/ sniff_mime image_open upper_nonascii b = lit "image/png"
      \/ sniff_mime image_open upper_nonascii b = lit "image/gif").
Proof.
  pose proof (sniff_mime_by_format b) as H. cbv zeta in H.
  destruct H as [HJ [HP [HG HO]]].
  unfold sniff_format in HJ, HP, HG, HO.
  repeat split.
  - intros im E F. apply HJ. rewrite E, F. right; reflexivity.
  - intros im E F. apply HP. rewrite E, F. reflexivity.
  - intros im E F. apply HG. rewrite E, F. reflexivity.
  - intros e E. apply HP. rewrite E. reflexivity.
  - intros im E F. apply HP. rewrite E, F. reflexivity.
  - intros im f E F H1 H2 H3.
    destruct f as [|c f].
    + apply HP. rewrite E, F. reflexivity.
    + apply HO; rewrite E, F; assumption.
  - unfold sniff_mime.
    destruct (_ || _); [left; reflexivity|].
    destruct (pystr_eqb _ (lit "PNG")); [right; left; reflexivity|].
    destruct (pystr_eqb _ (lit "GIF")); [right; right; reflexivity|].
    right; left; reflexivity.
Qed.

Lemma decode_ascii_b64encode (b : bytes) :
  decode_ascii (b64encode b) = Ok (List.map Byte.to_N (b64encode b)).
Proof. unfold decode_ascii. rewrite b64encode_ascii. reflexivity. Qed.

(** [to_data_url] never raises: the base64 text is ASCII. *)
Lemma to_data_url_eq (b : bytes) :
  to_data_url image_open upper_nonascii b
  = Ok (lit "data:" ++ sniff_mime image_open upper_nonascii b
        ++ lit ";base64," ++ List.map Byte.to_N (b64encode b)).
Proof.
  unfold to_data_url. rewrite decode_ascii_b64encode. reflexivity.
Qed.

(** C5: for every byte string [b] (the non-empty ones the builder
    passes, and the empty one too), [to_data_url b] returns
    ["data:" + mime + ";base64," + payload] where [mime] is what
    [sniff_mime b] answers and the base64 decoding of [payload] is [b]
    itself, the bytes it was given. *)
Theorem to_data_url_round_trip (b : bytes) :
  exists mime payload,
    to_data_url image_open upper_nonascii b
      = Ok (lit "data:" ++ mime ++ lit ";base64," ++ payload)
    /\ mime = sniff_mime image_open upper_nonascii b
    /\ b64decode payload = Some b.
Proof.
  exists (sniff_mime image_open upper_nonascii b),
         (List.map Byte.to_N (b64encode b)).
  split; [apply to_data_url_eq | split; [reflexivity | apply b64_roundtrip]].
Qed.

End ImagingClaims.

(** ** The row loop *)

Section RowFacts.

Variable server : trace -> request -> res response.
Variable image_open : bytes -> res image.
Variable upper_nonascii : N -> pystr.

(** Fetching touches nothing but the network history. *)
Lemma row_fetch_frame (url : pystr) (st : build_state) (r : res bytes)
    (st1 : build_state) :
  row_fetch server url st = (r, st1) ->
  st1 = with_trace st (st_trace st1).
Proof.
  unfold row_fetch, lift_net, ret.
  destruct (nonempty url).
  - destruct (fetch_image server (VStr url) (st_trace st)) as [x tr].
    intros H; injection H as _ <-; reflexivity.
  - intros H; injection H as _ <-; destruct st; reflexivity.
Qed.

Lemma row_fetch_no_url (st : build_state) :
  row_fetch server [] st = (Ok [], st).
Proof. reflexivity. Qed.

Variables col_thumb col_dataurl col_img : Z.

(** A row whose fetch raises is logged with the error and left as it
    was. *)
Lemma process_row_fetch_raises (row_idx : Z) (st st1 : build_state)
    (e : exn) :
  row_fetch server (row_url (st_ws st) row_idx col_thumb) st
    = (Raise e, st1) ->
  process_row server image_open upper_nonascii
    col_thumb col_dataurl col_img row_idx st
  = (Ok tt, log_failure st1 row_idx (lit "error:" ++ exn_name e)).
Proof.
  intros H.
  unfold process_row, bind at 1, get_state, try_except, row_try, bind at 1.
  rewrite H. reflexivity.
Qed.

(** A row whose fetch is empty is logged [no-bytes] and left as it
    was. *)
Lemma process_row_fetch_empty (row_idx : Z) (st st1 : build_state) :
  row_fetch server (row_url (st_ws st) row_idx col_thumb) st
    = (Ok [], st1) ->
  process_row server image_open upper_nonascii
    col_thumb col_dataurl col_img row_idx st
  = (Ok tt, log_failure st1 row_idx (lit "no-bytes")).
Proof.
  intros H.
  unfold process_row, bind at 1, get_state, try_except, row_try, bind at 1.
  rewrite H. reflexivity.
Qed.

(** A row whose fetch brought bytes: logged [ok] or with an error;
    an image is embedded only in the first case. *)
Lemma process_row_fetch_bytes (row_idx : Z) (st st1 : build_state)
    (x : Byte.byte) (img : bytes) :
  row_fetch server (row_url (st_ws st) row_idx col_thumb) st
    = (Ok (x :: img), st1) ->
  exists st' s,
    process_row server image_open upper_nonascii
      col_thumb col_dataurl col_img row_idx st = (Ok tt, st')
    /\ st_logs st' = st_logs st1 ++ [{| row := row_idx - 1; status := s |}]
    /\ st_trace st' = st_trace st1
    /\ (s = lit "ok" \/ exists e, s = lit "error:" ++ exn_name e)
    /\ ((exists e, s = lit "error:" ++ exn_name e) ->
        ws_images (st_ws st') = ws_images (st_ws st1)
        /\ ws_row_heights (st_ws st') = ws_row_heights (st_ws st1)).
Proof.
  intros H.
  unfold process_row, bind at 1, get_state, try_except, row_try, bind at 1.
  rewrite H. cbn [nonempty].
  rewrite to_data_url_eq.
  unfold bind at 1, of_res at 1.
  unfold set_cell_value, bind at 1, of_res at 1.
  destruct (bind_value _) as [v|e].
  - unfold bind at 1, modify at 1, bind at 1, of_res at 1.
    destruct (to_png_thumb image_open (x :: img) THUMB_PX) as [thumb|e].
    + eexists; exists (lit "ok"). split; [reflexivity|].
      split; [reflexivity|]. split; [reflexivity|].
      split; [left; reflexivity|].
      intros [e E]. discriminate E.
    + eexists; exists (lit "error:" ++ exn_name e).
      split; [reflexivity|]. split; [reflexivity|]. split; [reflexivity|].
      split; [right; exists e; reflexivity|].
      intros _; split; reflexivity.
  - eexists; exists (lit "error:" ++ exn_name e).
    split; [reflexivity|]. split; [reflexivity|]. split; [reflexivity|].
    split; [right; exists e; reflexivity|].
    intros _; split; reflexivity.
Qed.

(** A row whose fetch brought bytes that are stored and thumbnailed:
    the cell receives the data URL of the fetched bytes, the thumbnail
    is embedded at the image column, and the row is logged [ok]. *)
Lemma process_row_ok (row_idx : Z) (st st1 : build_state)
    (x : Byte.byte) (img : bytes) (data_url : pystr) (v : pyval)
    (thumb : bytes) :
  row_fetch server (row_url (st_ws st) row_idx col_thumb) st
    = (Ok (x :: img), st1) ->
  to_data_url image_open upper_nonascii (x :: img) = Ok data_url ->
  bind_value (VStr data_url) = Ok v ->
  to_png_thumb image_open (x :: img) THUMB_PX = Ok thumb ->
  process_row server image_open upper_nonascii
    col_thumb col_dataurl col_img row_idx st
  = (Ok tt,
     {| st_trace := st_trace st1;
        st_ws :=
          set_row_height
            (add_image (put_cell (st_ws st1) row_idx col_dataurl v)
               (mkXLImage thumb) (row_idx, col_img))
            row_idx 80;
        st_logs :=
          st_logs st1 ++ [{| row := row_idx - 1; status := lit "ok" |}];
        st_ok := st_ok st1 + 1;
        st_fail := st_fail st1 |}).
Proof.
  intros F D B T.
  unfold process_row, bind at 1, get_state, try_except, row_try, bind at 1.
  rewrite F. cbn [nonempty]. rewrite D.
  unfold bind at 1, of_res at 1.
  unfold set_cell_value, bind at 1, of_res at 1. rewrite B.
  unfold bind at 1, modify at 1, bind at 1, of_res at 1. rewrite T.
  reflexivity.
Qed.

End RowFacts.

Lemma lstrip_head (s : pystr) :
  lstrip s = [] \/ exists c t, lstrip s = c :: t /\ isspace c = false.
Proof.
  induction s as [|c s IH]; simpl; [left; reflexivity|].
  destruct (isspace c) eqn:E; [exact IH | right; exists c, s; auto].
Qed.

Lemma lstrip_app_nonspace (l : pystr) (c : N) :
  isspace c = false -> lstrip (l ++ [c]) = lstrip l ++ [c].
Proof.
  intros Hc; induction l as [|x l IH]; simpl.
  - rewrite Hc; reflexivity.
  - destruct (isspace x); [exact IH | reflexivity].
Qed.

Lemma rstrip_cons_nonspace (c : N) (s : pystr) :
  isspace c = false -> rstrip (c :: s) = c :: rstrip s.
Proof.
  intros Hc. unfold rstrip. simpl rev.
  rewrite (lstrip_app_nonspace _ _ Hc), rev_app_distr. reflexivity.
Qed.

(** Stripping what was stripped leaves a non-empty string non-empty:
    the test of line 43 passes for the URL line 126 lets through. *)
Lemma strip_strip_nonempty (s : pystr) :
  nonempty (strip s) = true -> nonempty (strip (strip s)) = true.
Proof.
  unfold strip at 1 3.
  destruct (lstrip_head s) as [E | [c [t [E Hc]]]]; rewrite E.
  - discriminate.
  - intros _. rewrite (rstrip_cons_nonspace c t Hc).
    apply strip_keeps_head; exact Hc.
Qed.

Section RowClaims.

Variable server : trace -> request -> res response.
Variable image_open : bytes -> res image.
Variable upper_nonascii : N -> pystr.
Variables col_thumb col_dataurl col_img : Z.

Lemma row_url_nonblank (ws : worksheet) (row_idx : Z) :
  nonempty (row_url ws row_idx col_thumb) = true ->
  nonempty (strip (row_url ws row_idx col_thumb)) = true.
Proof. unfold row_url. apply strip_strip_nonempty. Qed.

(** C1, as the code has it: when the GET for a row's URL (with its
    retry without certificate verification) is answered with a client
    or server error status, [fetch_image] raises [HTTPError] instead
    of returning, and the row is logged with status
    [error:HTTPError]; the worksheet is left as it was. *)
Theorem http_error_status_row (row_idx : Z) (st : build_state)
    (r : response) (tr1 : trace) :
  let u := row_url (st_ws st) row_idx col_thumb in
  nonempty u = true ->
  primary_get server http_session u [(lit "Referer", u)] (st_trace st)
    = (Ok r, tr1) ->
  is_error_status r = true ->
  fetch_image server (VStr u) (st_trace st) = (Raise HTTPError, tr1)
  /\ process_row server image_open upper_nonascii
       col_thumb col_dataurl col_img row_idx st
     = (Ok tt,
        log_failure (with_trace st tr1) row_idx (lit "error:HTTPError")).
Proof.
  intros u Hu Hget Hst.
  assert (F : fetch_image server (VStr u) (st_trace st)
              = (Raise HTTPError, tr1)).
  { rewrite (fetch_image_unfold server u _ (row_url_nonblank _ _ Hu)).
    rewrite (fetch_payload_http_error server u _ r tr1 Hget Hst).
    reflexivity. }
  split; [exact F|].
  apply process_row_fetch_raises with (e := HTTPError).
  fold u. unfold row_fetch, lift_net. rewrite Hu, F. reflexivity.
Qed.

(** C8, as the code has it: [fetch_image] returns the empty result
    without a request for every argument that is not a string and for
    every blank string; and a row whose URL cell is falsy ([None], the
    empty string, zero, [False]) or blank once converted with [str()]
    fetches nothing, issues no request and is logged [no-bytes]. *)
Theorem blank_url_no_request :
  (forall v tr, is_str v = false -> fetch_image server v tr = (Ok [], tr))
  /\ (forall s tr, strip s = [] ->
        fetch_image server (VStr s) tr = (Ok [], tr))
  /\ (forall row_idx st,
        let v := cell_value (st_ws st) row_idx col_thumb in
        py_truthy v = false \/ strip (py_str v) = [] ->
        row_fetch server (row_url (st_ws st) row_idx col_thumb) st
          = (Ok [], st)
        /\ process_row server image_open upper_nonascii
             col_thumb col_dataurl col_img row_idx st
           = (Ok tt, log_failure st row_idx (lit "no-bytes"))).
Proof.
  split; [exact (fetch_image_non_str server)|].
  split; [exact (fetch_image_blank server)|].
  intros row_idx st v H.
  assert (U : row_url (st_ws st) row_idx col_thumb = []).
  { unfold row_url, py_or. fold v.
    destruct H as [H | H]; [rewrite H; reflexivity|].
    destruct (py_truthy v); [exact H | reflexivity]. }
  assert (F : row_fetch server (row_url (st_ws st) row_idx col_thumb) st
              = (Ok [], st)) by (rewrite U; reflexivity).
  split; [exact F|].
  apply process_row_fetch_empty; exact F.
Qed.

(** One turn of the row loop always completes and appends one entry,
    numbered [row_idx - 1], with one of the three kinds of status. *)
Lemma process_row_logs (row_idx : Z) (st : build_state) :
  exists st' s,
    process_row server image_open upper_nonascii
      col_thumb col_dataurl col_img row_idx st = (Ok tt, st')
    /\ st_logs st' = st_logs st ++ [{| row := row_idx - 1; status := s |}]
    /\ valid_status s
    /\ (s <> lit "ok" ->
        ws_images (st_ws st') = ws_images (st_ws st)
        /\ ws_row_heights (st_ws st') = ws_row_heights (st_ws st)).
Proof.
  destruct (row_fetch server (row_url (st_ws st) row_idx col_thumb) st)
    as [[[|x img]|e] st1] eqn:F;
    pose proof (row_fetch_frame server _ _ _ _ F) as Fr.
  - exists (log_failure st1 row_idx (lit "no-bytes")), (lit "no-bytes").
    split; [apply process_row_fetch_empty; exact F|].
    rewrite Fr. repeat split. right; left; reflexivity.
  - destruct (process_row_fetch_bytes server image_open upper_nonascii
                col_thumb col_dataurl col_img row_idx st st1 x img F)
      as [st' [s [P [L [_ [V I]]]]]].
    exists st', s. split; [exact P|].
    rewrite Fr in L, I. split; [exact L|].
    split; [destruct V as [-> | [e ->]];
            [left; reflexivity | right; right; eexists; reflexivity]|].
    intros Hs. apply I. destruct V as [-> | V]; [contradiction | exact V].
  - exists (log_failure st1 row_idx (lit "error:" ++ exn_name e)),
           (lit "error:" ++ exn_name e).
    split; [apply process_row_fetch_raises; exact F|].
    rewrite Fr. repeat split. right; right; eexists; reflexivity.
Qed.

End RowClaims.

(** ** The monad *)

Lemma bind_ok_inv {S A B} (m : M S A) (k : A -> M S B) (s s' : S) (b : B) :
  bind m k s = (Ok b, s') ->
  exists a s1, m s = (Ok a, s1) /\ k a s1 = (Ok b, s').
Proof.
  unfold bind. destruct (m s) as [[a|e] s1]; [|discriminate].
  intros H; exists a, s1; auto.
Qed.

Lemma bind_ok {S A B} (m : M S A) (k : A -> M S B) (s s1 : S) (a : A) :
  m s = (Ok a, s1) -> bind m k s = k a s1.
Proof. intros H; unfold bind; rewrite H; reflexivity. Qed.

(** ** The row loop as a whole *)

Section LoopFacts.

Variable server : trace -> request -> res response.
Variable image_open : bytes -> res image.
Variable upper_nonascii : N -> pystr.
Variables col_thumb col_dataurl col_img : Z.

(** The loop runs through every index it is given, whatever happens in
    a row, and appends one entry per index, in order. *)
Lemma for_each_row_logs (idxs : list Z) (st : build_state) :
  exists st' new,
    for_each idxs
      (process_row server image_open upper_nonascii
         col_thumb col_dataurl col_img) st = (Ok tt, st')
    /\ st_logs st' = st_logs st ++ new
    /\ List.map row new = List.map (fun i => i - 1) idxs
    /\ Forall valid_status (List.map status new).
Proof.
  revert st; induction idxs as [|i idxs IH]; intros st.
  - exists st, []. cbn. rewrite app_nil_r. repeat split. constructor.
  - destruct (process_row_logs server image_open upper_nonascii
                col_thumb col_dataurl col_img i st)
      as [st1 [s [P [L [V _]]]]].
    destruct (IH st1) as [st' [new [F [L' [R V']]]]].
    exists st', ({| row := i - 1; status := s |} :: new).
    split; [cbn [for_each]; rewrite (bind_ok _ _ _ _ _ P); exact F|].
    split; [rewrite L', L, <- app_assoc; reflexivity|].
    split; [cbn [List.map row]; rewrite R; reflexivity|].
    cbn [List.map status]. constructor; assumption.
Qed.

End LoopFacts.

Section FailedRowClaim.

Variable server : trace -> request -> res response.
Variable image_open : bytes -> res image.
Variable upper_nonascii : N -> pystr.
Variables col_thumb col_dataurl col_img : Z.

(** C3, as the code has it: a turn of the row loop always completes
    and logs the row under its own number; when the fetch of the row
    returns empty or raises, the whole worksheet (the row's
    [thumbnail_dataurl] cell with it) is left as it was and the status
    is not [ok]; whenever the status is not [ok], no image is embedded
    and no row height is set; and the loop runs through all its rows,
    logging them in order, whatever is raised inside a turn. *)
Theorem failed_fetch_leaves_row :
  (forall row_idx st,
     exists st' s,
       process_row server image_open upper_nonascii
         col_thumb col_dataurl col_img row_idx st = (Ok tt, st')
       /\ st_logs st' = st_logs st ++ [{| row := row_idx - 1; status := s |}]
       /\ (forall r st1,
             row_fetch server (row_url (st_ws st) row_idx col_thumb) st
               = (r, st1) ->
             r = Ok [] \/ (exists e, r = Raise e) ->
             st_ws st' = st_ws st /\ s <> lit "ok")
       /\ (s <> lit "ok" ->
           ws_images (st_ws st') = ws_images (st_ws st)
           /\ ws_row_heights (st_ws st') = ws_row_heights (st_ws st)))
  /\ (forall idxs st,
        exists st' new,
          for_each idxs
            (process_row server image_open upper_nonascii
               col_thumb col_dataurl col_img) st = (Ok tt, st')
          /\ st_logs st' = st_logs st ++ new
          /\ List.map row new = List.map (fun i => i - 1) idxs).
Proof.
  split.
  - intros row_idx st.
    destruct (process_row_logs server image_open upper_nonascii
                col_thumb col_dataurl col_img row_idx st)
      as [st' [s [P [L [_ I]]]]].
    exists st', s. split; [exact P|]. split; [exact L|].
    split; [|exact I].
    intros r st1 F [-> | [e ->]];
      pose proof (row_fetch_frame server _ _ _ _ F) as Fr.
    + rewrite (process_row_fetch_empty server image_open upper_nonascii
                 col_thumb col_dataurl col_img row_idx st st1 F) in P.
      injection P as <-. rewrite Fr in L. cbn in L.
      apply app_inv_head in L. injection L as <-.
      split; [rewrite Fr; reflexivity | discriminate].
    + rewrite (process_row_fetch_raises server image_open upper_nonascii
                 col_thumb col_dataurl col_img row_idx st st1 e F) in P.
      injection P as <-. rewrite Fr in L.
      cbn [log_failure st_logs with_trace] in L.
      apply app_inv_head in L. injection L as <-.
      split; [rewrite Fr; reflexivity | discriminate].
  - intros idxs st.
    destruct (for_each_row_logs server image_open upper_nonascii
                col_thumb col_dataurl col_img idxs st)
      as [st' [new [F [L [R _]]]]].
    exists st', new. auto.
Qed.

End FailedRowClaim.

(** ** The table that is written out *)

Lemma take_len {A} (l : list A) (n : Z) :
  0 <= n -> len (take n l) = Z.min n (len l).
Proof.
  revert n; induction l as [|x l IH]; intros n Hn; unfold len in *.
  - simpl. lia.
  - cbn [take]. destruct (n <=? 0) eqn:E.
    + apply Z.leb_le in E. simpl length. lia.
    + apply Z.leb_gt in E. cbn [length].
      rewrite Nat2Z.inj_succ, (IH (n - 1)) by lia.
      rewrite Nat2Z.inj_succ. lia.
Qed.

Lemma take_all {A} (l : list A) (n : Z) : len l <= n -> take n l = l.
Proof.
  revert n; induction l as [|x l IH]; intros n Hn; [reflexivity|].
  unfold len in *. cbn [length] in Hn. rewrite Nat2Z.inj_succ in Hn.
  cbn [take]. destruct (n <=? 0) eqn:E.
  - apply Z.leb_le in E. lia.
  - rewrite IH by lia. reflexivity.
Qed.

Lemma prepare_rows_len (df : DataFrame) (max_rows : Z) :
  len (rows (prepare df max_rows)) = processed_count df max_rows.
Proof.
  unfold prepare, processed_count.
  assert (E : negb (max_rows =? 0) && (0 <? max_rows) = (0 <? max_rows)).
  { destruct (0 <? max_rows) eqn:P; [|apply andb_false_r].
    apply Z.ltb_lt in P. rewrite andb_true_r.
    apply negb_true_iff, Z.eqb_neq. lia. }
  rewrite E.
  assert (L : forall d,
             len (rows (if negb (has_column d (lit "thumbnail_dataurl"))
                        then add_column d (lit "thumbnail_dataurl") (VStr [])
                        else d))
             = len (rows d)).
  { intros d. destruct (negb (has_column d _)); [|reflexivity].
    unfold len; cbn [add_column rows]. rewrite length_map. reflexivity. }
  rewrite L.
  destruct (0 <? max_rows) eqn:P; [|reflexivity].
  apply Z.ltb_lt in P. cbn [head rows]. apply take_len. lia.
Qed.

Lemma prepare_has_thumbnail (df : DataFrame) (max_rows : Z) :
  has_column df (lit "thumbnail") = true ->
  has_column (prepare df max_rows) (lit "thumbnail") = true.
Proof.
  intros H. unfold prepare.
  set (d := if negb (max_rows =? 0) && (0 <? max_rows)
            then head df max_rows else df).
  assert (Hd : has_column d (lit "thumbnail") = true)
    by (unfold d; destruct (_ && _); exact H).
  destruct (negb (has_column d (lit "thumbnail_dataurl"))); [|exact Hd].
  unfold has_column, add_column in *; cbn [columns].
  rewrite existsb_app, Hd. reflexivity.
Qed.

Lemma prepare_has_dataurl (df : DataFrame) (max_rows : Z) :
  has_column (prepare df max_rows) (lit "thumbnail_dataurl") = true.
Proof.
  unfold prepare.
  set (d := if negb (max_rows =? 0) && (0 <? max_rows)
            then head df max_rows else df).
  destruct (has_column d (lit "thumbnail_dataurl")) eqn:E; cbn [negb];
    [exact E|].
  unfold has_column, add_column; cbn [columns].
  rewrite existsb_app. cbn [existsb py_eq_str].
  rewrite pystr_eqb_refl. apply orb_true_r.
Qed.

(** ** Writing the worksheet *)

Lemma ws_append_inv (r : list pyval) (st st' : build_state) :
  ws_append r st = (Ok tt, st') ->
  exists vals,
    bind_values r = Ok vals
    /\ st' = with_ws st
               (with_cells (st_ws st) (ws_cells (st_ws st) ++ [vals])).
Proof.
  unfold ws_append, bind, of_res, modify.
  destruct (bind_values r) as [vals|e]; [|discriminate].
  intros H; injection H as <-. exists vals; auto.
Qed.

Lemma for_each_ws_append_inv (l : list (list pyval)) (st st' : build_state) :
  for_each l ws_append st = (Ok tt, st') ->
  exists bound,
    length bound = length l
    /\ (forall r, nth_error l 0 = Some r ->
          exists vals, nth_error bound 0 = Some vals
                       /\ bind_values r = Ok vals)
    /\ ws_cells (st_ws st') = ws_cells (st_ws st) ++ bound
    /\ st_logs st' = st_logs st
    /\ st_trace st' = st_trace st.
Proof.
  revert st; induction l as [|r l IH]; intros st.
  - cbn. intros H; injection H as <-. exists [].
    rewrite app_nil_r. repeat split. intros r; discriminate.
  - cbn [for_each]. intros H.
    apply bind_ok_inv in H. destruct H as [[] [s1 [A F]]].
    apply ws_append_inv in A. destruct A as [vals [B ->]].
    apply IH in F. destruct F as [bound [L [_ [C [Lg T]]]]].
    exists (vals :: bound). cbn [length]. split; [lia|].
    split; [intros r' E; injection E as <-; exists vals; auto|].
    rewrite C, Lg, T. cbn. rewrite <- app_assoc. auto.
Qed.

Lemma for_each_ws_append_ok (l : list (list pyval)) (st : build_state) :
  forallb
    (fun r => match bind_values r with Ok _ => true | Raise _ => false end)
    l = true ->
  exists st', for_each l ws_append st = (Ok tt, st').
Proof.
  revert st; induction l as [|r l IH]; intros st H.
  - exists st; reflexivity.
  - cbn [forallb] in H. apply andb_true_iff in H. destruct H as [Hr Hl].
    destruct (bind_values r) as [vals|e] eqn:E; [|discriminate].
    destruct (IH (with_ws st
                    (with_cells (st_ws st) (ws_cells (st_ws st) ++ [vals])))
                Hl) as [st' F].
    exists st'. cbn [for_each].
    assert (A : ws_append r st
                = (Ok tt, with_ws st (with_cells (st_ws st)
                                        (ws_cells (st_ws st) ++ [vals])))).
    { unfold ws_append, bind, of_res, modify. rewrite E. reflexivity. }
    unfold bind at 1. rewrite A. exact F.
Qed.

Lemma set_nth_0_length {A} (d v : A) (l : list A) :
  l <> [] -> length (set_nth d 0 v l) = length l.
Proof. destruct l; [contradiction | reflexivity]. Qed.

Lemma put_cell_row1_length (ws : worksheet) (c : Z) (v : pyval) :
  ws_cells ws <> [] ->
  length (ws_cells (put_cell ws 1 c v)) = length (ws_cells ws).
Proof.
  intros H. unfold put_cell. cbn [with_cells ws_cells].
  change (nat_index 1) with 0%nat. apply set_nth_0_length; exact H.
Qed.

Lemma set_cell_value_inv (r c : Z) (v : pyval) (st st' : build_state) :
  set_cell_value r c v st = (Ok tt, st') ->
  exists v', st' = with_ws st (put_cell (st_ws st) r c v').
Proof.
  unfold set_cell_value, bind, of_res, modify.
  destruct (bind_value v) as [v'|e]; [|discriminate].
  intros H; injection H as <-. exists v'; reflexivity.
Qed.

Lemma of_res_ok_inv {S A} (r : res A) (s s' : S) (a : A) :
  of_res r s = (Ok a, s') -> r = Ok a /\ s' = s.
Proof. unfold of_res. intros H; injection H as -> <-; auto. Qed.

Lemma range_pred (n : Z) :
  List.map (fun i => i - 1) (range 2 (n + 2)) = range 1 (n + 1).
Proof.
  unfold range. rewrite map_map.
  replace (n + 2 - 2) with (n + 1 - 1) by lia.
  apply map_ext. intros i. lia.
Qed.

Lemma range_length (lo hi : Z) : lo <= hi -> len (range lo hi) = hi - lo.
Proof.
  intros H. unfold range, len. rewrite length_map, length_seq. lia.
Qed.

Lemma bind_values_cons_inv (v : pyval) (l : list pyval) (hs : list pyval) :
  bind_values (v :: l) = Ok hs ->
  exists v' hs', hs = v' :: hs' /\ bind_value v = Ok v'
                 /\ bind_values l = Ok hs'.
Proof.
  cbn [bind_values].
  destruct (bind_value v) as [v'|e]; [|discriminate].
  destruct (bind_values l) as [hs'|e]; [|discriminate].
  intros H; injection H as <-. exists v', hs'; auto.
Qed.

(** A column that the table has is found among the stored headers. *)
Lemma list_index_ok (label : pystr) (cols hs : list pyval) (i0 : Z) :
  take 32767 label = label ->
  bind_values cols = Ok hs ->
  existsb (fun c => py_eq_str c label) cols = true ->
  exists i, list_index i0 label hs = Ok i.
Proof.
  intros Hl. revert hs i0; induction cols as [|v cols IH]; intros hs i0 B E.
  - discriminate.
  - apply bind_values_cons_inv in B. destruct B as [v' [hs' [-> [Bv Bl]]]].
    cbn [list_index].
    destruct (py_eq_str v' label) eqn:P; [exists i0; reflexivity|].
    cbn [existsb] in E. apply orb_true_iff in E. destruct E as [E | E].
    + destruct v as [|t|z|b|t r]; try discriminate.
      cbn [py_eq_str] in E. apply pystr_eqb_eq in E. subst t.
      cbn [bind_value] in Bv. rewrite Hl in Bv.
      destruct (existsb ILLEGAL_CHARACTER label); [discriminate|].
      injection Bv as <-. cbn [py_eq_str] in P.
      rewrite pystr_eqb_refl in P. discriminate.
    + apply IH; assumption.
Qed.

Section BuildFacts.

Variable server : trace -> request -> res response.
Variable image_open : bytes -> res image.
Variable upper_nonascii : N -> pystr.

(** What a completed run logged: one entry per data row of the table
    written out, numbered from 1 in row order. *)
Lemma build_body_inv (df_out : DataFrame) (st0 st' : build_state)
    (out : worksheet) (logs : list LogEntry) :
  ws_cells (st_ws st0) = [] -> st_logs st0 = [] ->
  build_body server image_open upper_nonascii df_out st0
    = (Ok (out, logs), st') ->
  List.map row logs = range 1 (len (rows df_out) + 1)
  /\ Forall valid_status (List.map status logs).
Proof.
  intros C0 L0 H. unfold build_body in H.
  apply bind_ok_inv in H. destruct H as [[] [s1 [A H]]].
  apply for_each_ws_append_inv in A.
  destruct A as [bound [Lb [_ [C [Lg _]]]]].
  rewrite C0 in C. cbn [app] in C. rewrite L0 in Lg.
  unfold dataframe_to_rows in Lb. cbn [length] in Lb.
  apply bind_ok_inv in H. destruct H as [s1' [s1'' [G H]]].
  unfold get_state in G. injection G as <- <-.
  apply bind_ok_inv in H. destruct H as [i [s2 [I H]]].
  apply of_res_ok_inv in I. destruct I as [_ ->].
  apply bind_ok_inv in H. destruct H as [j [s2 [J H]]].
  apply of_res_ok_inv in J. destruct J as [_ ->].
  apply bind_ok_inv in H. destruct H as [[] [s3 [Mo H]]].
  unfold modify in Mo. injection Mo as <-.
  apply bind_ok_inv in H. destruct H as [[] [s4 [Sc H]]].
  apply set_cell_value_inv in Sc. destruct Sc as [v' ->].
  apply bind_ok_inv in H. destruct H as [[] [s5 [Mo H]]].
  unfold modify in Mo. injection Mo as <-.
  apply bind_ok_inv in H. destruct H as [[] [s6 [RL H]]].
  apply bind_ok_inv in H. destruct H as [s6' [s6'' [G H]]].
  unfold get_state in G. injection G as <- <-.
  unfold ret in H. injection H as _ <- _.
  unfold row_loop, bind at 1, get_state in RL.
  match type of RL with
  | for_each ?idxs ?body ?st = _ =>
      destruct (for_each_row_logs server image_open upper_nonascii
                  (i + 1) (j + 1) (j + 1 + 1) idxs st)
        as [st'' [new [F [L [R V]]]]];
      assert (Hm : idxs = range 2 (len (rows df_out) + 2))
  end.
  { f_equal. unfold max_row.
    cbn [with_ws st_ws set_col_width ws_cells].
    unfold len. rewrite put_cell_row1_length.
    - cbn [insert_cols with_cells ws_cells]. rewrite length_map, C, Lb.
      rewrite Nat2Z.inj_succ. lia.
    - cbn [insert_cols with_cells ws_cells]. rewrite C.
      destruct bound; [discriminate | discriminate]. }
  rewrite RL in F. injection F as <-.
  cbn [with_ws st_logs] in L. rewrite Lg in L. cbn [app] in L.
  rewrite L. rewrite Hm in R. rewrite range_pred in R. auto.
Qed.

(** A run completes when the table has the two columns and its cells
    can be stored. *)
Lemma build_body_ok (df_out : DataFrame) (tr : trace) :
  has_column df_out (lit "thumbnail") = true ->
  has_column df_out (lit "thumbnail_dataurl") = true ->
  storable df_out = true ->
  exists out logs st',
    build_body server image_open upper_nonascii df_out (initial_state tr)
    = (Ok (out, logs), st').
Proof.
  intros Ht Hd Hs. unfold build_body.
  destruct (for_each_ws_append_ok _ (initial_state tr) Hs) as [s1 A].
  unfold bind at 1. rewrite A.
  apply for_each_ws_append_inv in A.
  destruct A as [bound [_ [Hh [C _]]]].
  destruct (Hh (columns df_out) eq_refl) as [hs [Nb B]].
  cbn [initial_state st_ws new_worksheet ws_cells app] in C.
  assert (R1 : ws_row (st_ws s1) 1 = hs).
  { unfold ws_row. rewrite C. change (nat_index 1) with 0%nat.
    destruct bound; [discriminate|]. injection Nb as ->. reflexivity. }
  unfold bind at 1, get_state at 1. rewrite R1.
  destruct (list_index_ok (lit "thumbnail") _ hs 0 eq_refl B Ht) as [i I].
  destruct (list_index_ok (lit "thumbnail_dataurl") _ hs 0 eq_refl B Hd)
    as [j J].
  unfold bind at 1, of_res at 1. rewrite I.
  unfold bind at 1, of_res at 1. rewrite J.
  unfold bind at 1, modify at 1.
  unfold bind at 1, set_cell_value at 1, bind at 1, of_res at 1.
  change (bind_value (VStr (lit "thumbnail_image_embedded")))
    with (Ok (VStr (lit "thumbnail_image_embedded"))).
  unfold modify at 1. unfold bind at 1, modify at 1.
  unfold bind at 1, row_loop at 1, bind at 1, get_state at 1.
  match goal with
  | |- context [for_each ?idxs ?body ?st] =>
      destruct (for_each_row_logs server image_open upper_nonascii
                  (i + 1) (j + 1) (j + 1 + 1) idxs st)
        as [st'' [new [F _]]]
  end.
  rewrite F. unfold bind, get_state, ret.
  eexists; eexists; eexists; reflexivity.
Qed.

End BuildFacts.

(** ** The sheet builder *)

Section BuildClaims.

Variable server : trace -> request -> res response.
Variable image_open : bytes -> res image.
Variable upper_nonascii : N -> pystr.

Lemma processed_count_nonneg (df : DataFrame) (max_rows : Z) :
  0 <= processed_count df max_rows.
Proof.
  unfold processed_count.
  destruct (0 <? max_rows) eqn:E; [|apply len_nonneg].
  apply Z.ltb_lt in E. pose proof (len_nonneg (rows df)). lia.
Qed.

(** C2: the log a run returns has one entry per processed data row
    (all the rows of the table, or the first [max_rows] of them when
    [max_rows] is positive), numbered 1, 2, ... in row order, each
    with status [ok], [no-bytes] or [error:<kind>]; and a run returns
    whenever the table has a [thumbnail] column and its cells can be
    stored in a worksheet. *)
Theorem build_log_one_entry_per_row (df : DataFrame) (max_rows : Z)
    (tr : trace) :
  (forall out logs tr',
      build_excel_with_images server image_open upper_nonascii
        df max_rows tr = (Ok (out, logs), tr') ->
      len logs = processed_count df max_rows
      /\ List.map row logs = range 1 (processed_count df max_rows + 1)
      /\ Forall valid_status (List.map status logs))
  /\ (has_column df (lit "thumbnail") = true ->
      storable (prepare df max_rows) = true ->
      exists out logs tr',
        build_excel_with_images server image_open upper_nonascii
          df max_rows tr = (Ok (out, logs), tr')).
Proof.
  unfold build_excel_with_images. split.
  - intros out logs tr'.
    destruct (has_column df (lit "thumbnail")); cbn [negb]; [|discriminate].
    destruct (build_body server image_open upper_nonascii
                (prepare df max_rows) (initial_state tr))
      as [r st] eqn:B.
    intros H; injection H as -> <-.
    destruct (build_body_inv server image_open upper_nonascii
                (prepare df max_rows) (initial_state tr) st out logs
                eq_refl eq_refl B) as [R V].
    rewrite prepare_rows_len in R.
    split; [|split; assumption].
    assert (L : len (List.map row logs) = processed_count df max_rows).
    { rewrite R, range_length; pose proof (processed_count_nonneg df max_rows);
        lia. }
    unfold len in *. rewrite length_map in L. exact L.
  - intros Ht Hs. rewrite Ht. cbn [negb].
    destruct (build_body_ok server image_open upper_nonascii
                (prepare df max_rows) tr
                (prepare_has_thumbnail df max_rows Ht)
                (prepare_has_dataurl df max_rows) Hs)
      as [out [logs [st' B]]].
    rewrite B. exists out, logs, (st_trace st'). reflexivity.
Qed.

(** C7: a table without a [thumbnail] column makes the run raise
    [ValueError] at once: no request is issued, and the run returns
    neither a worksheet nor a log. *)
Theorem missing_thumbnail_column (df : DataFrame) (max_rows : Z)
    (tr : trace) :
  has_column df (lit "thumbnail") = false ->
  build_excel_with_images server image_open upper_nonascii df max_rows tr
  = (Raise (ValueError (lit "Missing required column: 'thumbnail'")), tr).
Proof.
  intros H. unfold build_excel_with_images. rewrite H. reflexivity.
Qed.

End BuildClaims.

(** ** The claims on concrete runs *)

(** A table without the column: the run raises and issues nothing. *)
Lemma missing_thumbnail_column_witness :
  build_excel_with_images Scenario.server_ok Scenario.pil_jpeg
    Scenario.upper_plain Scenario.df_nocol 0 []
  = (Raise (ValueError (lit "Missing required column: 'thumbnail'")), []).
Proof.
  apply (missing_thumbnail_column Scenario.server_ok Scenario.pil_jpeg
           Scenario.upper_plain Scenario.df_nocol 0 []).
  reflexivity.
Defined.

(** Three rows capped at two: the run returns. *)
Lemma build_log_one_entry_per_row_witness :
  exists out logs tr',
    build_excel_with_images Scenario.server_ok Scenario.pil_jpeg
      Scenario.upper_plain Scenario.df_three 2 []
    = (Ok (out, logs), tr').
Proof.
  apply (proj2 (build_log_one_entry_per_row Scenario.server_ok
                  Scenario.pil_jpeg Scenario.upper_plain
                  Scenario.df_three 2 [])); reflexivity.
Defined.

(** The same run, computed: two entries, in order. *)
Example build_three_rows_capped :
  build_excel_with_images Scenario.server_ok Scenario.pil_jpeg
    Scenario.upper_plain Scenario.df_three 2 []
  = (Ok ({| ws_title := lit "Products";
            ws_cells :=
              [Scenario.header3;
               [VStr Scenario.url_a; VStr (lit "data:image/jpeg;base64,/9j/")];
               [VNone; VStr []]];
            ws_images := [(mkXLImage [Byte.x89; Byte.x50], (2, 3))];
            ws_row_heights := [(2, 80)];
            ws_col_widths := [(3, 18)] |},
         [{| row := 1; status := lit "ok" |};
          {| row := 2; status := lit "no-bytes" |}]),
     [Scenario.first_get Scenario.url_a]).
Proof. vm_compute. reflexivity. Qed.

(** A 404 answer at the first data row. *)
Lemma http_error_status_row_witness :
  fetch_image Scenario.server_404 (VStr Scenario.url_a) []
    = (Raise HTTPError, [Scenario.first_get Scenario.url_a])
  /\ process_row Scenario.server_404 Scenario.pil_jpeg Scenario.upper_plain
       1 2 3 2 (Scenario.state_of [[VStr Scenario.url_a; VStr []]])
     = (Ok tt,
        log_failure
          (with_trace (Scenario.state_of [[VStr Scenario.url_a; VStr []]])
             [Scenario.first_get Scenario.url_a])
          2 (lit "error:HTTPError")).
Proof.
  exact (http_error_status_row Scenario.server_404 Scenario.pil_jpeg
           Scenario.upper_plain 1 2 3 2
           (Scenario.state_of [[VStr Scenario.url_a; VStr []]])
           {| status_code := 404; content := Ok []; raw := Ok [] |}
           [Scenario.first_get Scenario.url_a]
           eq_refl eq_refl eq_refl).
Defined.

(** C1 fails as stated: a URL answered 404 makes [fetch_image] raise
    rather than return empty, and the run logs the row with status
    [error:HTTPError], not [no-bytes]. *)
Lemma http_404_row_not_no_bytes :
  fetch_image Scenario.server_404 (VStr Scenario.url_a) []
    = (Raise HTTPError, [Scenario.first_get Scenario.url_a])
  /\ build_excel_with_images Scenario.server_404 Scenario.pil_jpeg
       Scenario.upper_plain Scenario.df_url 0 []
     = (Ok (Scenario.sheet [[VStr Scenario.url_a; VStr []]],
            [{| row := 1; status := lit "error:HTTPError" |}]),
        [Scenario.first_get Scenario.url_a])
  /\ lit "error:HTTPError" <> lit "no-bytes".
Proof.
  split; [vm_compute; reflexivity|].
  split; [vm_compute; reflexivity | discriminate].
Qed.

(** C3 fails as stated: the fetch brings bytes that are not an image,
    making the thumbnail raises, the row is logged with an error, and
    its [thumbnail_dataurl] cell, empty before, holds a data URL. *)
Lemma undecodable_image_row_cell_written :
  cell_value (Scenario.sheet [[VStr Scenario.url_a; VStr []]]) 2 2 = VStr []
  /\ build_excel_with_images Scenario.server_ok Scenario.pil_none
       Scenario.upper_plain Scenario.df_url 0 []
     = (Ok (Scenario.sheet
              [[VStr Scenario.url_a;
                VStr (lit "data:image/png;base64,/9j/")]],
            [{| row := 1;
                status := lit "error:UnidentifiedImageError" |}]),
        [Scenario.first_get Scenario.url_a])
  /\ cell_value
       (Scenario.sheet
          [[VStr Scenario.url_a; VStr (lit "data:image/png;base64,/9j/")]])
       2 2
     <> VStr [].
Proof.
  split; [reflexivity|].
  split; [vm_compute; reflexivity | discriminate].
Qed.

(** C8 fails as stated: a row whose URL cell holds the number 5, not a
    string, is fetched under the URL ["5"]: a GET is issued, it
    raises, and the row is logged with the error. *)
Lemma number_cell_is_requested :
  is_str (cell_value (Scenario.sheet [[VInt 5; VStr []]]) 2 1) = false
  /\ row_fetch Scenario.server_no_schema
       (row_url (Scenario.sheet [[VInt 5; VStr []]]) 2 1)
       (Scenario.state_of [[VInt 5; VStr []]])
     = (Raise Scenario.MissingSchema,
        with_trace (Scenario.state_of [[VInt 5; VStr []]])
          [Scenario.first_get (lit "5")])
  /\ build_excel_with_images Scenario.server_no_schema Scenario.pil_none
       Scenario.upper_plain Scenario.df_five 0 []
     = (Ok (Scenario.sheet [[VInt 5; VStr []]],
            [{| row := 1; status := lit "error:MissingSchema" |}]),
        [Scenario.first_get (lit "5")]).
Proof.
  split; [reflexivity|].
  split; vm_compute; reflexivity.
Qed.

(** Three bytes that open as a JPEG. *)
Lemma to_data_url_round_trip_witness :
  exists mime payload,
    to_data_url Scenario.pil_jpeg Scenario.upper_plain Scenario.body3
      = Ok (lit "data:" ++ mime ++ lit ";base64," ++ payload)
    /\ mime = sniff_mime Scenario.pil_jpeg Scenario.upper_plain Scenario.body3
    /\ b64decode payload = Some Scenario.body3.
Proof.
  exact (to_data_url_round_trip Scenario.pil_jpeg Scenario.upper_plain
           Scenario.body3).
Defined.

Example to_data_url_body3 :
  to_data_url Scenario.pil_jpeg Scenario.upper_plain Scenario.body3
    = Ok (lit "data:image/jpeg;base64,/9j/")
  /\ b64decode (lit "/9j/") = Some Scenario.body3.
Proof. split; reflexivity. Qed.

Lemma sniff_mime_cases_witness :
  sniff_mime Scenario.pil_jpeg Scenario.upper_plain Scenario.body3
  = lit "image/jpeg".
Proof.
  exact (proj1 (sniff_mime_cases Scenario.pil_jpeg Scenario.upper_plain
                  Scenario.body3) _ eq_refl eq_refl).
Defined.

(** An empty URL cell at the first data row. *)
Lemma blank_url_no_request_witness :
  row_fetch Scenario.server_ok
    (row_url (st_ws (Scenario.state_of [[VNone; VStr []]])) 2 1)
    (Scenario.state_of [[VNone; VStr []]])
    = (Ok [], Scenario.state_of [[VNone; VStr []]])
  /\ process_row Scenario.server_ok Scenario.pil_jpeg Scenario.upper_plain
       1 2 3 2 (Scenario.state_of [[VNone; VStr []]])
     = (Ok tt,
        log_failure (Scenario.state_of [[VNone; VStr []]]) 2
          (lit "no-bytes")).
Proof.
  exact (proj2 (proj2 (blank_url_no_request Scenario.server_ok
                         Scenario.pil_jpeg Scenario.upper_plain 1 2 3))
           2 (Scenario.state_of [[VNone; VStr []]]) (or_introl eq_refl)).
Defined.

(** A row answered 404, then the loop over a 404 and an empty cell. *)
Lemma failed_fetch_leaves_row_witness :
  exists st' new,
    for_each [2; 3]
      (process_row Scenario.server_404 Scenario.pil_jpeg
         Scenario.upper_plain 1 2 3)
      (Scenario.state_of [[VStr Scenario.url_a; VStr []]; [VNone; VStr []]])
    = (Ok tt, st')
    /\ st_logs st'
       = st_logs (Scenario.state_of
                    [[VStr Scenario.url_a; VStr []]; [VNone; VStr []]])
         ++ new
    /\ List.map row new = List.map (fun i => i - 1) [2; 3].
Proof.
  exact (proj2 (failed_fetch_leaves_row Scenario.server_404 Scenario.pil_jpeg
                  Scenario.upper_plain 1 2 3)
           [2; 3]
           (Scenario.state_of
              [[VStr Scenario.url_a; VStr []]; [VNone; VStr []]])).
Defined.

(* ================================================================== *)
(** * Further properties of the fetcher *)

Section FetchShape.

Variable server : trace -> request -> res response.

(** The fallback of lines 53-60 never raises, and issues its one
    request exactly when the body is empty and the URL is https. *)
Lemma http_fallback_shape (u : pystr) (h : list (pystr * pystr))
    (data : bytes) (tr1 : trace) :
  exists (p : option bytes) (fb : bool),
    http_fallback server http_session u h data tr1
    = (Ok p,
       tr1 ++ (if fb then [get_request http_session (http_twin u) h true]
               else []))
    /\ fb = negb (nonempty data) && startswith u (lit "https://").
Proof.
  unfold http_fallback.
  destruct (negb (nonempty data) && startswith u (lit "https://")).
  - fold (http_twin u).
    unfold try_except, bind, session_get, raise_for_status, read_body,
      of_res, raise, ret.
    destruct (server tr1 _) as [r2|e].
    + destruct (is_error_status r2).
      * exists None, true; split; reflexivity.
      * destruct (body_of r2) as [b|e];
          eexists; exists true; split; reflexivity.
    + exists None, true; split; reflexivity.
  - exists (Some data), false. rewrite app_nil_r. split; reflexivity.
Qed.

Lemma primary_get_shape (u : pystr) (h : list (pystr * pystr))
    (tr : trace) :
  let rq := get_request http_session u h true in
  exists ssl : bool,
    primary_get server http_session u h tr
    = ((if ssl then server (tr ++ [rq]) (get_request http_session u h false)
        else server tr rq),
       tr ++ [rq]
          ++ (if ssl then [get_request http_session u h false] else []))
    /\ ssl = match server tr rq with
             | Raise e => exn_is_SSLError e
             | Ok _ => false
             end.
Proof.
  intros rq. unfold primary_get, try_except, session_get. fold rq.
  destruct (server tr rq) as [r|e] eqn:E.
  - exists false. split; reflexivity.
  - destruct (exn_is_SSLError e) eqn:S.
    + exists true. rewrite <- app_assoc. split; reflexivity.
    + exists false. split; reflexivity.
Qed.

(** The requests of lines 45-60. *)
Lemma fetch_payload_shape (u : pystr) (tr : trace) :
  exists ssl fb : bool,
    snd (fetch_payload server u tr) = tr ++ fetch_requests u ssl fb
    /\ ssl = match server tr (get_request http_session u
                                [(lit "Referer", u)] true) with
             | Raise e => exn_is_SSLError e
             | Ok _ => false
             end
    /\ (fb = true ->
        startswith u (lit "https://") = true
        /\ exists r tr1,
             primary_get server http_session u [(lit "Referer", u)] tr
               = (Ok r, tr1)
             /\ is_error_status r = false /\ body_of r = Ok []).
Proof.
  destruct (primary_get_shape u [(lit "Referer", u)] tr) as [ssl [P S]].
  cbv zeta in P.
  exists ssl.
  unfold fetch_payload, bind at 1.
  destruct (primary_get server http_session u [(lit "Referer", u)] tr)
    as [[r|e] tr1] eqn:G.
  - injection P as _ Pt.
    unfold raise_for_status, bind at 1.
    destruct (is_error_status r) eqn:St.
    + exists false. unfold raise. cbn [snd].
      split; [|split; [exact S|discriminate]].
      rewrite Pt. unfold fetch_requests. rewrite app_nil_r. reflexivity.
    + unfold ret at 1. unfold bind at 1, read_body, of_res.
      destruct (body_of r) as [data|e] eqn:B.
      * destruct (http_fallback_shape u [(lit "Referer", u)] data tr1)
          as [p [fb [F Fb]]].
        rewrite F. exists fb.
        split.
        { cbn [snd]. rewrite Pt. unfold fetch_requests.
          rewrite <- !app_assoc. reflexivity. }
        split; [exact S|].
        intros ->. symmetry in Fb. apply andb_true_iff in Fb.
        destruct Fb as [Fd Fs]. split; [exact Fs|].
        exists r, tr1. split; [reflexivity|]. split; [exact St|].
        apply negb_true_iff, nonempty_false in Fd. subst data. exact B.
      * exists false. cbn [snd].
        split; [|split; [exact S|discriminate]].
        rewrite Pt. unfold fetch_requests. rewrite app_nil_r. reflexivity.
  - injection P as _ Pt. exists false. cbn [snd].
    split; [|split; [exact S|discriminate]].
    rewrite Pt. unfold fetch_requests. rewrite app_nil_r. reflexivity.
Qed.

Lemma fetch_image_trace (u : pystr) (tr : trace) :
  nonempty (strip u) = true ->
  snd (fetch_image server (VStr u) tr) = snd (fetch_payload server u tr).
Proof.
  intros Hu. rewrite (fetch_image_unfold server u tr Hu).
  destruct (fetch_payload server u tr) as [[[d|]|e] tr']; reflexivity.
Qed.

(** The request discipline of [fetch_image]: a call on a non-blank
    URL issues one to three GETs and nothing else, appended to the
    history: the URL; the URL again without certificate verification
    exactly when the first GET raised an [SSLError]; and the
    plain-HTTP twin only for an [https://] URL whose first answer was
    a success with an empty body. *)
Theorem fetch_image_requests (u : pystr) (tr : trace) :
  nonempty (strip u) = true ->
  exists ssl fb : bool,
    snd (fetch_image server (VStr u) tr) = tr ++ fetch_requests u ssl fb
    /\ (1 <= length (fetch_requests u ssl fb) <= 3)%nat
    /\ ssl = match server tr (get_request http_session u
                                [(lit "Referer", u)] true) with
             | Raise e => exn_is_SSLError e
             | Ok _ => false
             end
    /\ (fb = true ->
        startswith u (lit "https://") = true
        /\ exists r tr1,
             primary_get server http_session u [(lit "Referer", u)] tr
               = (Ok r, tr1)
             /\ is_error_status r = false /\ body_of r = Ok []).
Proof.
  intros Hu. rewrite (fetch_image_trace u tr Hu).
  destruct (fetch_payload_shape u tr) as [ssl [fb [T [S F]]]].
  exists ssl, fb. split; [exact T|]. split; [|split; assumption].
  destruct ssl, fb; cbn; lia.
Qed.

(** Whatever it is given, a fetch leaves the history in place and
    adds at most three requests. *)
Lemma fetch_image_trace_bound (v : pyval) (tr : trace) :
  exists extra,
    snd (fetch_image server v tr) = tr ++ extra
    /\ (length extra <= 3)%nat.
Proof.
  assert (B : snd (fetch_image server v tr) = tr
              \/ exists u, v = VStr u /\ nonempty (strip u) = true).
  { destruct v as [|u|z|b|t r]; try (left; reflexivity).
    destruct (nonempty (strip u)) eqn:E; [right; exists u; auto|].
    left. apply nonempty_false in E.
    rewrite (fetch_image_blank server u tr E). reflexivity. }
  destruct B as [B | [u [-> Hu]]].
  - exists []. rewrite app_nil_r. split; [exact B | cbn; lia].
  - rewrite (fetch_image_trace u tr Hu).
    destruct (fetch_payload_shape u tr) as [ssl [fb [T _]]].
    exists (fetch_requests u ssl fb). split; [exact T|].
    destruct ssl, fb; cbn; lia.
Qed.

End FetchShape.

Section FetchResults.

Variable server : trace -> request -> res response.

Lemma clip_within (c : bytes) :
  c <> [] -> len c <= MAX_BYTES -> clip c = c.
Proof.
  intros Hc Hl. unfold clip. destruct c as [|x c]; [contradiction|].
  cbn [nonempty andb]. apply Z.leb_le in Hl. rewrite Hl. reflexivity.
Qed.

Lemma fetch_payload_content (u : pystr) (tr : trace)
    (r : response) (tr1 : trace) (c : bytes) :
  primary_get server http_session u [(lit "Referer", u)] tr = (Ok r, tr1) ->
  is_error_status r = false ->
  content r = Ok c -> c <> [] ->
  fetch_payload server u tr = (Ok (Some c), tr1).
Proof.
  intros Hget Hst Hc Hne.
  rewrite (fetch_payload_after_get server u tr r tr1 Hget Hst).
  unfold body_of. rewrite Hc.
  destruct c as [|x c]; [contradiction|]. reflexivity.
Qed.

(** A body within the limit is returned byte for byte: when the GET
    (with its retry, if any) is answered with a success status and a
    non-empty [content] of at most [MAX_BYTES] bytes, [fetch_image]
    returns exactly that content and issues no further request. *)
Theorem fetch_image_returns_content (u : pystr) (tr : trace)
    (r : response) (tr1 : trace) (c : bytes) :
  nonempty (strip u) = true ->
  primary_get server http_session u [(lit "Referer", u)] tr = (Ok r, tr1) ->
  is_error_status r = false ->
  content r = Ok c -> c <> [] -> len c <= MAX_BYTES ->
  fetch_image server (VStr u) tr = (Ok c, tr1).
Proof.
  intros Hu Hget Hst Hc Hne Hlen.
  rewrite (fetch_image_unfold server u tr Hu).
  rewrite (fetch_payload_content u tr r tr1 c Hget Hst Hc Hne).
  rewrite (clip_within c Hne Hlen). reflexivity.
Qed.

Lemma take_nonempty {A} (n : Z) (l : list A) :
  0 < n -> l <> [] -> take n l <> [].
Proof.
  intros Hn Hl. destruct l as [|x l]; [contradiction|]. cbn [take].
  destruct (n <=? 0) eqn:E; [apply Z.leb_le in E; lia | discriminate].
Qed.

(** The raw-stream path: when [content] is empty and the raw stream
    holds bytes, [fetch_image] returns the stream if it is at most
    [MAX_BYTES] long and the empty result if it is longer (reading
    [MAX_BYTES + 1] bytes is enough to tell); no fallback request is
    made, whatever the scheme of the URL. *)
Theorem fetch_image_raw_stream (u : pystr) (tr : trace)
    (r : response) (tr1 : trace) (b : bytes) :
  nonempty (strip u) = true ->
  primary_get server http_session u [(lit "Referer", u)] tr = (Ok r, tr1) ->
  is_error_status r = false ->
  content r = Ok [] -> raw r = Ok b -> b <> [] ->
  fetch_image server (VStr u) tr
  = (Ok (if len b <=? MAX_BYTES then b else []), tr1).
Proof.
  intros Hu Hget Hst Hc Hr Hb.
  rewrite (fetch_image_unfold server u tr Hu).
  rewrite (fetch_payload_after_get server u tr r tr1 Hget Hst).
  unfold body_of, raw_read. rewrite Hc, Hr. cbn [nonempty].
  assert (Hpos : 0 < MAX_BYTES + 1) by (unfold MAX_BYTES; lia).
  pose proof (take_nonempty (MAX_BYTES + 1) b Hpos Hb) as Hne.
  unfold http_fallback.
  destruct (take (MAX_BYTES + 1) b) as [|x t] eqn:T; [contradiction|].
  cbn [nonempty negb andb]. unfold ret. rewrite <- T.
  destruct (len b <=? MAX_BYTES) eqn:L.
  - apply Z.leb_le in L. rewrite (take_all b (MAX_BYTES + 1)) by lia.
    rewrite (clip_within b Hb L). reflexivity.
  - apply Z.leb_gt in L. rewrite clip_too_long; [reflexivity|].
    rewrite take_len by lia. lia.
Qed.

(** Failures of the first request path reach the caller unchanged: an
    exception of the GET that is not an [SSLError], after that one
    request; whatever the retry without verification raises, after
    the two requests; and an exception raised while the body of a
    successful answer is read. *)
Theorem fetch_image_propagates (u : pystr) (tr : trace) :
  nonempty (strip u) = true ->
  let rq := get_request http_session u [(lit "Referer", u)] true in
  let rq' := get_request http_session u [(lit "Referer", u)] false in
  (forall e,
      server tr rq = Raise e -> exn_is_SSLError e = false ->
      fetch_image server (VStr u) tr = (Raise e, tr ++ [rq]))
  /\ (forall e e',
      server tr rq = Raise e -> exn_is_SSLError e = true ->
      server (tr ++ [rq]) rq' = Raise e' ->
      fetch_image server (VStr u) tr = (Raise e', tr ++ [rq; rq']))
  /\ (forall r tr1 e,
      primary_get server http_session u [(lit "Referer", u)] tr
        = (Ok r, tr1) ->
      is_error_status r = false -> body_of r = Raise e ->
      fetch_image server (VStr u) tr = (Raise e, tr1)).
Proof.
  intros Hu rq rq'.
  rewrite (fetch_image_unfold server u tr Hu).
  split; [|split].
  - intros e He Hs.
    unfold fetch_payload, bind at 1, primary_get, try_except, session_get.
    fold rq. rewrite He, Hs. reflexivity.
  - intros e e' He Hs He'.
    unfold fetch_payload, bind at 1, primary_get, try_except, session_get.
    fold rq rq'. rewrite He, Hs, He', <- app_assoc. reflexivity.
  - intros r tr1 e Hget Hst Hb.
    rewrite (fetch_payload_after_get server u tr r tr1 Hget Hst), Hb.
    reflexivity.
Qed.

(** The retry without verification stands in for the first GET: when
    the GET raises an [SSLError] and the retry is answered, the fetch
    goes on with that answer, two requests made. *)
Lemma primary_get_retry (u : pystr) (h : list (pystr * pystr))
    (tr : trace) (e : exn) (r : response) :
  server tr (get_request http_session u h true) = Raise e ->
  exn_is_SSLError e = true ->
  server (tr ++ [get_request http_session u h true])
    (get_request http_session u h false) = Ok r ->
  primary_get server http_session u h tr
  = (Ok r, tr ++ [get_request http_session u h true;
                  get_request http_session u h false]).
Proof.
  intros He Hs Hr. unfold primary_get, try_except, session_get.
  rewrite He, Hs, Hr, <- app_assoc. reflexivity.
Qed.

(** A certificate that does not verify is tolerated: when the GET
    raises an [SSLError] and the same GET without verification is
    answered with a success status and a non-empty body within the
    limit, [fetch_image] returns that body after exactly these two
    requests. *)
Theorem fetch_image_tls_retry (u : pystr) (tr : trace) (e : exn)
    (r : response) (c : bytes) :
  nonempty (strip u) = true ->
  let rq := get_request http_session u [(lit "Referer", u)] true in
  let rq' := get_request http_session u [(lit "Referer", u)] false in
  server tr rq = Raise e -> exn_is_SSLError e = true ->
  server (tr ++ [rq]) rq' = Ok r ->
  is_error_status r = false ->
  content r = Ok c -> c <> [] -> len c <= MAX_BYTES ->
  fetch_image server (VStr u) tr = (Ok c, tr ++ [rq; rq']).
Proof.
  intros Hu rq rq' He Hs Hr Hst Hc Hne Hlen.
  rewrite (fetch_image_unfold server u tr Hu).
  rewrite (fetch_payload_content u tr r (tr ++ [rq; rq']) c
             (primary_get_retry u _ tr e r He Hs Hr) Hst Hc Hne).
  rewrite (clip_within c Hne Hlen). reflexivity.
Qed.

End FetchResults.

(** ** The fetcher on concrete hosts *)

Lemma body3_len : len Scenario.body3 <= MAX_BYTES.
Proof. unfold len, MAX_BYTES; simpl; lia. Qed.

Lemma fetch_image_requests_witness :
  exists ssl fb : bool,
    snd (fetch_image Scenario.server_https_only (VStr Scenario.url_s) [])
      = [] ++ fetch_requests Scenario.url_s ssl fb
    /\ (1 <= length (fetch_requests Scenario.url_s ssl fb) <= 3)%nat
    /\ ssl = match Scenario.server_https_only []
                    (get_request http_session Scenario.url_s
                       [(lit "Referer", Scenario.url_s)] true) with
             | Raise e => exn_is_SSLError e
             | Ok _ => false
             end
    /\ (fb = true ->
        startswith Scenario.url_s (lit "https://") = true
        /\ exists r tr1,
             primary_get Scenario.server_https_only http_session
               Scenario.url_s [(lit "Referer", Scenario.url_s)] []
               = (Ok r, tr1)
             /\ is_error_status r = false /\ body_of r = Ok []).
Proof.
  exact (fetch_image_requests Scenario.server_https_only Scenario.url_s []
           eq_refl).
Defined.

Lemma fetch_image_returns_content_witness :
  fetch_image Scenario.server_ok (VStr Scenario.url_a) []
  = (Ok Scenario.body3, [Scenario.first_get Scenario.url_a]).
Proof.
  apply (fetch_image_returns_content Scenario.server_ok Scenario.url_a []
           {| status_code := 200; content := Ok Scenario.body3;
              raw := Ok [] |}).
  - reflexivity.
  - reflexivity.
  - reflexivity.
  - reflexivity.
  - discriminate.
  - exact body3_len.
Defined.

Lemma fetch_image_raw_stream_witness :
  fetch_image (server_raw Scenario.body3) (VStr Scenario.url_s) []
  = (Ok (if len Scenario.body3 <=? MAX_BYTES then Scenario.body3 else []),
     [Scenario.first_get Scenario.url_s]).
Proof.
  apply (fetch_image_raw_stream (server_raw Scenario.body3) Scenario.url_s []
           {| status_code := 200; content := Ok [];
              raw := Ok Scenario.body3 |}).
  - reflexivity.
  - reflexivity.
  - reflexivity.
  - reflexivity.
  - reflexivity.
  - discriminate.
Defined.

Lemma fetch_image_propagates_witness :
  fetch_image Scenario.server_no_schema (VStr Scenario.url_a) []
  = (Raise Scenario.MissingSchema, [Scenario.first_get Scenario.url_a]).
Proof.
  exact (proj1 (fetch_image_propagates Scenario.server_no_schema
                  Scenario.url_a [] eq_refl)
           Scenario.MissingSchema eq_refl eq_refl).
Defined.

Lemma fetch_image_tls_retry_witness :
  fetch_image server_self_signed (VStr Scenario.url_s) []
  = (Ok Scenario.body3,
     [get_request http_session Scenario.url_s
        [(lit "Referer", Scenario.url_s)] true;
      get_request http_session Scenario.url_s
        [(lit "Referer", Scenario.url_s)] false]).
Proof.
  apply (fetch_image_tls_retry server_self_signed Scenario.url_s []
           SSLError
           {| status_code := 200; content := Ok Scenario.body3;
              raw := Ok [] |}
           Scenario.body3).
  - reflexivity.
  - reflexivity.
  - reflexivity.
  - reflexivity.
  - reflexivity.
  - reflexivity.
  - discriminate.
  - exact body3_len.
Defined.

(* ================================================================== *)
(** * Further properties of the data URL *)

Lemma sextet_printable_all (v : N) :
  (v < 64)%N -> sextet_printable v = true.
Proof.
  intros H.
  assert (A : forallb sextet_printable (List.map N.of_nat (seq 0 64)) = true)
    by (vm_compute; reflexivity).
  rewrite forallb_forall in A. apply A.
  apply in_map_iff. exists (N.to_nat v). split; [apply N2Nat.id|].
  apply in_seq. lia.
Qed.

Lemma b64encode_printable (s : bytes) :
  forallb printable (List.map Byte.to_N (b64encode s)) = true.
Proof.
  assert (C : forall v, (v < 64)%N ->
                        printable (Byte.to_N (b64_char v)) = true)
    by exact sextet_printable_all.
  induction s as [|a|a b|a b c s IH] using list_ind3;
    cbn [b64encode List.map forallb];
    rewrite ?C by apply sextet_lt; rewrite ?pad_is_61; auto.
Qed.

Lemma b64encode_len (s : bytes) :
  len (b64encode s) = 4 * ((len s + 2) / 3).
Proof.
  unfold len.
  induction s as [|a|a b|a b c s IH] using list_ind3.
  - reflexivity.
  - reflexivity.
  - reflexivity.
  - cbn [b64encode length]. rewrite !Nat2Z.inj_succ, IH.
    replace (Z.succ (Z.succ (Z.succ (Z.of_nat (length s)))) + 2)
      with (Z.of_nat (length s) + 2 + 1 * 3) by lia.
    rewrite Z.div_add by lia. lia.
Qed.

Section DataUrl.

Variable image_open : bytes -> res image.
Variable upper_nonascii : N -> pystr.

Lemma sniff_mime_range (b : bytes) :
  sniff_mime image_open upper_nonascii b = lit "image/jpeg"
  \/ sniff_mime image_open upper_nonascii b = lit "image/png"
  \/ sniff_mime image_open upper_nonascii b = lit "image/gif".
Proof.
  unfold sniff_mime.
  destruct (_ || _); [left; reflexivity|].
  destruct (pystr_eqb _ (lit "PNG")); [right; left; reflexivity|].
  destruct (pystr_eqb _ (lit "GIF")); [right; right; reflexivity|].
  right; left; reflexivity.
Qed.

Lemma data_url_printable (b : bytes) :
  forallb printable
    (lit "data:" ++ sniff_mime image_open upper_nonascii b
     ++ lit ";base64," ++ List.map Byte.to_N (b64encode b)) = true.
Proof.
  rewrite !forallb_app, b64encode_printable.
  destruct (sniff_mime_range b) as [-> | [-> | ->]]; reflexivity.
Qed.

(** The shape of a data URL: [to_data_url] always returns; the text
    starts with [data:image/], is printable ASCII throughout, and is
    [13 + len(mime) + 4 * ceil(len(b) / 3)] characters long. *)
Theorem to_data_url_shape (b : bytes) :
  exists data_url,
    to_data_url image_open upper_nonascii b = Ok data_url
    /\ startswith data_url (lit "data:image/") = true
    /\ forallb printable data_url = true
    /\ len data_url
       = 13 + len (sniff_mime image_open upper_nonascii b)
         + 4 * ((len b + 2) / 3).
Proof.
  eexists. split; [apply to_data_url_eq|].
  pose proof (data_url_printable b) as P.
  pose proof (b64encode_len b) as L.
  unfold len in *. rewrite !length_app, length_map.
  split; [destruct (sniff_mime_range b) as [-> | [-> | ->]]; reflexivity|].
  split; [exact P|].
  destruct (sniff_mime_range b) as [-> | [-> | ->]];
    cbn [lit list_ascii_of_string List.map length];
    rewrite !Nat2Z.inj_add, L;
    generalize ((Z.of_nat (length b) + 2) / 3); intros q; lia.
Qed.

(** Different images never share a data URL: [to_data_url] is
    injective. *)
Theorem to_data_url_injective (b1 b2 : bytes) :
  to_data_url image_open upper_nonascii b1
    = to_data_url image_open upper_nonascii b2 ->
  b1 = b2.
Proof.
  rewrite !to_data_url_eq. intros H. injection H as H.
  assert (E : List.map Byte.to_N (b64encode b1)
              = List.map Byte.to_N (b64encode b2)).
  { destruct (sniff_mime_range b1) as [M1 | [M1 | M1]];
      destruct (sniff_mime_range b2) as [M2 | [M2 | M2]];
      rewrite M1, M2 in H;
      first [ apply app_inv_head in H; injection H as H; exact H
            | cbn in H; discriminate H ]. }
  pose proof (b64_roundtrip b1) as R1. rewrite E, b64_roundtrip in R1.
  injection R1 as ->. reflexivity.
Qed.

End DataUrl.

Lemma to_data_url_injective_witness :
  to_data_url Scenario.pil_jpeg Scenario.upper_plain Scenario.body3
    = to_data_url Scenario.pil_jpeg Scenario.upper_plain Scenario.body3
  /\ Scenario.body3 = Scenario.body3.
Proof.
  split; [reflexivity|].
  apply (to_data_url_injective Scenario.pil_jpeg Scenario.upper_plain
           Scenario.body3 Scenario.body3).
  reflexivity.
Defined.

(* ================================================================== *)
(** * Further properties of the row loop *)

(** ** Cells *)

Lemma nth_set_nth_same {A} (d d' v : A) (i : nat) (l : list A) :
  nth i (set_nth d i v l) d' = v.
Proof.
  revert l; induction i as [|i IH]; intros [|x l]; cbn; auto.
Qed.

Lemma nth_set_nth_other {A} (d v : A) (i j : nat) (l : list A) :
  i <> j -> nth j (set_nth d i v l) d = nth j l d.
Proof.
  revert j l; induction i as [|i IH]; intros [|j] [|x l] H; cbn;
    try congruence; try reflexivity.
  - destruct j; reflexivity.
  - rewrite IH by congruence. destruct j; reflexivity.
  - apply IH; congruence.
Qed.

Lemma set_nth_length {A} (d v : A) (i : nat) (l : list A) :
  (i < length l)%nat -> length (set_nth d i v l) = length l.
Proof.
  revert l; induction i as [|i IH]; intros [|x l] H; cbn in *; try lia.
  rewrite IH by lia. reflexivity.
Qed.

(** Reading back the cell that was written. *)
Lemma cell_value_put_same (ws : worksheet) (r c : Z) (v : pyval) :
  cell_value (put_cell ws r c v) r c = v.
Proof.
  unfold cell_value, ws_row, put_cell. cbn [with_cells ws_cells].
  rewrite nth_set_nth_same. apply nth_set_nth_same.
Qed.

(** Writing a cell leaves every other cell as it reads. *)
Lemma cell_value_put_other (ws : worksheet) (r c r' c' : Z) (v : pyval) :
  nat_index r' <> nat_index r \/ nat_index c' <> nat_index c ->
  cell_value (put_cell ws r c v) r' c' = cell_value ws r' c'.
Proof.
  intros H. unfold cell_value, ws_row, put_cell. cbn [with_cells ws_cells].
  destruct (Nat.eq_dec (nat_index r') (nat_index r)) as [E | E].
  - rewrite E, nth_set_nth_same.
    destruct H as [H | H]; [contradiction|].
    apply nth_set_nth_other; congruence.
  - rewrite nth_set_nth_other by congruence. reflexivity.
Qed.

Lemma nat_index_inj (a b : Z) :
  1 <= a -> 1 <= b -> a <> b -> nat_index a <> nat_index b.
Proof. unfold nat_index; lia. Qed.

Lemma take_incl {A} (n : Z) (l : list A) (x : A) :
  In x (take n l) -> In x l.
Proof.
  revert n; induction l as [|y l IH]; intros n; cbn [take]; [tauto|].
  destruct (n <=? 0); [intros []|].
  intros [-> | H]; [left; reflexivity | right; exact (IH _ H)].
Qed.

Lemma printable_legal (c : N) :
  printable c = true -> ILLEGAL_CHARACTER c = false.
Proof.
  unfold printable, ILLEGAL_CHARACTER.
  rewrite andb_true_iff, N.leb_le, N.ltb_lt. intros [H1 H2].
  rewrite !orb_false_iff, !andb_false_iff, !N.leb_gt. lia.
Qed.

(** Printable text is stored in a cell as its first 32,767
    characters; storing it never raises. *)
Lemma bind_value_printable (s : pystr) :
  forallb printable s = true ->
  bind_value (VStr s) = Ok (VStr (take 32767 s)).
Proof.
  intros H. cbn [bind_value].
  destruct (existsb ILLEGAL_CHARACTER (take 32767 s)) eqn:E; [|reflexivity].
  apply existsb_exists in E. destruct E as [c [Hin Hc]].
  apply take_incl in Hin. rewrite forallb_forall in H.
  rewrite (printable_legal c (H c Hin)) in Hc. discriminate.
Qed.

Section RowOutcome.

Variable server : trace -> request -> res response.
Variable image_open : bytes -> res image.
Variable upper_nonascii : N -> pystr.
Variables col_thumb col_dataurl col_img : Z.

(** What a turn of the loop does once the fetch has brought bytes. *)
Lemma process_row_bytes_state (row_idx : Z) (st st1 : build_state)
    (x : Byte.byte) (img : bytes) :
  row_fetch server (row_url (st_ws st) row_idx col_thumb) st
    = (Ok (x :: img), st1) ->
  process_row server image_open upper_nonascii
    col_thumb col_dataurl col_img row_idx st
  = (Ok tt,
     let v := VStr (take 32767
                      (data_url_of image_open upper_nonascii (x :: img))) in
     match to_png_thumb image_open (x :: img) THUMB_PX with
     | Ok thumb => log_success st1 row_idx col_dataurl col_img v thumb
     | Raise e =>
         log_failure
           (with_ws st1 (put_cell (st_ws st1) row_idx col_dataurl v))
           row_idx (lit "error:" ++ exn_name e)
     end).
Proof.
  intros F.
  unfold process_row, bind at 1, get_state, try_except, row_try, bind at 1.
  rewrite F. cbn [nonempty]. rewrite to_data_url_eq.
  unfold bind at 1, of_res at 1.
  unfold set_cell_value, bind at 1, of_res at 1.
  rewrite (bind_value_printable _
             (data_url_printable image_open upper_nonascii (x :: img))).
  unfold bind at 1, modify at 1, bind at 1, of_res at 1.
  fold (data_url_of image_open upper_nonascii (x :: img)).
  destruct (to_png_thumb image_open (x :: img) THUMB_PX) as [thumb|e];
    reflexivity.
Qed.

(** A row whose fetch brings bytes always gets its data URL: the
    row's [thumbnail_dataurl] cell then reads the data URL of the
    fetched bytes cut to 32,767 characters, whether or not a thumbnail
    can be made.  When it can, the thumbnail is embedded at the image
    column of the row, the row height is set to 80 and the row is
    logged [ok]; when making it raises, no image is added and the row
    is logged with that error. *)
Theorem process_row_with_bytes (row_idx : Z) (st st1 : build_state)
    (x : Byte.byte) (img : bytes) :
  row_fetch server (row_url (st_ws st) row_idx col_thumb) st
    = (Ok (x :: img), st1) ->
  exists st',
    process_row server image_open upper_nonascii
      col_thumb col_dataurl col_img row_idx st = (Ok tt, st')
    /\ to_data_url image_open upper_nonascii (x :: img)
       = Ok (data_url_of image_open upper_nonascii (x :: img))
    /\ cell_value (st_ws st') row_idx col_dataurl
       = VStr (take 32767
                 (data_url_of image_open upper_nonascii (x :: img)))
    /\ match to_png_thumb image_open (x :: img) THUMB_PX with
       | Ok thumb =>
           st_logs st'
           = st_logs st ++ [{| row := row_idx - 1; status := lit "ok" |}]
           /\ ws_images (st_ws st')
              = ws_images (st_ws st)
                ++ [(mkXLImage thumb, (row_idx, col_img))]
           /\ ws_row_heights (st_ws st')
              = (row_idx, 80) :: ws_row_heights (st_ws st)
       | Raise e =>
           st_logs st'
           = st_logs st
             ++ [{| row := row_idx - 1;
                    status := lit "error:" ++ exn_name e |}]
           /\ ws_images (st_ws st') = ws_images (st_ws st)
           /\ ws_row_heights (st_ws st') = ws_row_heights (st_ws st)
       end.
Proof.
  intros F. eexists. split; [apply (process_row_bytes_state _ _ _ _ _ F)|].
  pose proof (row_fetch_frame server _ _ _ _ F) as Fr.
  split; [apply to_data_url_eq|]. cbv zeta.
  destruct (to_png_thumb image_open (x :: img) THUMB_PX) as [thumb|e].
  - split; [apply cell_value_put_same|].
    rewrite Fr. repeat split.
  - split; [apply cell_value_put_same|].
    rewrite Fr. repeat split.
Qed.

(** The worksheet after a turn of the loop: either as it was, or
    with one value put in the row's [thumbnail_dataurl] cell; images
    and row heights apart, nothing else changes. *)
Lemma process_row_cells (row_idx : Z) (st : build_state) :
  exists st',
    process_row server image_open upper_nonascii
      col_thumb col_dataurl col_img row_idx st = (Ok tt, st')
    /\ (ws_cells (st_ws st') = ws_cells (st_ws st)
        \/ exists v,
             ws_cells (st_ws st')
             = ws_cells (put_cell (st_ws st) row_idx col_dataurl v))
    /\ ws_title (st_ws st') = ws_title (st_ws st)
    /\ ws_col_widths (st_ws st') = ws_col_widths (st_ws st).
Proof.
  destruct (row_fetch server (row_url (st_ws st) row_idx col_thumb) st)
    as [[[|x img]|e] st1] eqn:F;
    pose proof (row_fetch_frame server _ _ _ _ F) as Fr.
  - eexists. split; [apply process_row_fetch_empty; exact F|].
    rewrite Fr. repeat split. left; reflexivity.
  - eexists. split; [apply (process_row_bytes_state _ _ _ _ _ F)|].
    cbv zeta. rewrite Fr.
    destruct (to_png_thumb image_open (x :: img) THUMB_PX) as [thumb|e];
      (split; [right; eexists; reflexivity | split; reflexivity]).
  - eexists. split; [apply process_row_fetch_raises; exact F|].
    rewrite Fr. repeat split. left; reflexivity.
Qed.

(** A turn of the loop writes at most one cell: every cell other
    than the [thumbnail_dataurl] cell of its own row reads afterwards
    as it did before, and the title and the column widths stay. *)
Theorem process_row_frame (row_idx r c : Z) (st : build_state) :
  1 <= row_idx -> 1 <= col_dataurl -> 1 <= r -> 1 <= c ->
  r <> row_idx \/ c <> col_dataurl ->
  exists st',
    process_row server image_open upper_nonascii
      col_thumb col_dataurl col_img row_idx st = (Ok tt, st')
    /\ cell_value (st_ws st') r c = cell_value (st_ws st) r c
    /\ ws_title (st_ws st') = ws_title (st_ws st)
    /\ ws_col_widths (st_ws st') = ws_col_widths (st_ws st).
Proof.
  intros H1 H2 H3 H4 Hrc.
  destruct (process_row_cells row_idx st) as [st' [P [C [T W]]]].
  exists st'. split; [exact P|]. split; [|split; assumption].
  destruct C as [C | [v C]].
  - unfold cell_value, ws_row. rewrite C. reflexivity.
  - rewrite <- (cell_value_put_other (st_ws st) row_idx col_dataurl r c v).
    + unfold cell_value, ws_row. rewrite C. reflexivity.
    + destruct Hrc as [Hr | Hc];
        [left | right]; apply nat_index_inj; assumption.
Qed.

End RowOutcome.

(** ** The loop, row after row *)

Section LoopSummary.

Variable server : trace -> request -> res response.
Variable image_open : bytes -> res image.
Variable upper_nonascii : N -> pystr.
Variables col_thumb col_dataurl col_img : Z.

Lemma row_fetch_trace (url : pystr) (st : build_state) (r : res bytes)
    (st1 : build_state) :
  row_fetch server url st = (r, st1) ->
  exists extra,
    st_trace st1 = st_trace st ++ extra
    /\ (length extra <= 3)%nat
    /\ (url = [] -> extra = []).
Proof.
  unfold row_fetch, lift_net, ret.
  destruct url as [|c url]; cbn [nonempty].
  - intros H; injection H as _ <-. exists [].
    rewrite app_nil_r. repeat split. cbn; lia.
  - destruct (fetch_image_trace_bound server (VStr (c :: url)) (st_trace st))
      as [extra [T B]].
    destruct (fetch_image server (VStr (c :: url)) (st_trace st)) as [x tr].
    cbn [snd] in T. intros H; injection H as _ <-.
    exists extra. cbn [with_trace st_trace].
    split; [exact T|]. split; [exact B | discriminate].
Qed.

Lemma error_not_ok (name : pystr) :
  pystr_eqb (lit "error:" ++ name) (lit "ok") = false.
Proof. reflexivity. Qed.

(** One turn of the loop, in figures. *)
Lemma process_row_summary (row_idx : Z) (st : build_state) :
  exists st' s extra,
    process_row server image_open upper_nonascii
      col_thumb col_dataurl col_img row_idx st = (Ok tt, st')
    /\ st_logs st' = st_logs st ++ [{| row := row_idx - 1; status := s |}]
    /\ List.map snd (ws_images (st_ws st'))
       = List.map snd (ws_images (st_ws st))
         ++ (if pystr_eqb s (lit "ok") then [(row_idx, col_img)] else [])
    /\ ws_row_heights (st_ws st')
       = (if pystr_eqb s (lit "ok") then [(row_idx, 80)] else [])
         ++ ws_row_heights (st_ws st)
    /\ st_ok st' = st_ok st + (if pystr_eqb s (lit "ok") then 1 else 0)
    /\ st_fail st' = st_fail st + (if pystr_eqb s (lit "ok") then 0 else 1)
    /\ st_trace st' = st_trace st ++ extra
    /\ (length extra <= 3)%nat
    /\ (row_url (st_ws st) row_idx col_thumb = [] -> extra = []).
Proof.
  destruct (row_fetch server (row_url (st_ws st) row_idx col_thumb) st)
    as [[[|x img]|e] st1] eqn:F;
    pose proof (row_fetch_frame server _ _ _ _ F) as Fr;
    destruct (row_fetch_trace _ _ _ _ F) as [extra [T [B Z0]]].
  - exists (log_failure st1 row_idx (lit "no-bytes")), (lit "no-bytes"), extra.
    split; [apply process_row_fetch_empty; exact F|].
    rewrite Fr. cbn. rewrite app_nil_r, Z.add_0_r. rewrite Fr in T.
    cbn in T. auto 10.
  - eexists.
    exists (match to_png_thumb image_open (x :: img) THUMB_PX with
            | Ok _ => lit "ok"
            | Raise e => lit "error:" ++ exn_name e
            end), extra.
    split; [apply (process_row_bytes_state _ _ _ _ _ _ _ _ _ _ _ F)|].
    cbv zeta. rewrite Fr in T. cbn in T.
    destruct (to_png_thumb image_open (x :: img) THUMB_PX) as [thumb|e].
    + rewrite Fr. cbn. rewrite map_app, Z.add_0_r. cbn. auto 10.
    + rewrite error_not_ok. rewrite Fr. cbn.
      rewrite app_nil_r, Z.add_0_r. auto 10.
  - exists (log_failure st1 row_idx (lit "error:" ++ exn_name e)),
           (lit "error:" ++ exn_name e), extra.
    split; [apply process_row_fetch_raises; exact F|].
    rewrite error_not_ok. rewrite Fr. cbn.
    rewrite app_nil_r, Z.add_0_r. rewrite Fr in T. cbn in T. auto 10.
Qed.

(** The whole loop, in figures: the images embedded are those of the
    rows logged [ok], anchored at the image column of their rows; the
    two counters count the [ok] entries and the others; at most three
    requests are made per row. *)
Lemma for_each_summary (idxs : list Z) (st : build_state) :
  exists st' new extra,
    for_each idxs
      (process_row server image_open upper_nonascii
         col_thumb col_dataurl col_img) st = (Ok tt, st')
    /\ st_logs st' = st_logs st ++ new
    /\ List.map row new = List.map (fun i => i - 1) idxs
    /\ List.map snd (ws_images (st_ws st'))
       = List.map snd (ws_images (st_ws st))
         ++ List.map (fun e => (row e + 1, col_img)) (filter is_ok new)
    /\ st_ok st' = st_ok st + len (filter is_ok new)
    /\ st_fail st' = st_fail st + (len new - len (filter is_ok new))
    /\ st_trace st' = st_trace st ++ extra
    /\ (length extra <= 3 * length idxs)%nat.
Proof.
  revert st; induction idxs as [|i idxs IH]; intros st.
  - exists st, [], []. cbn. rewrite !app_nil_r, !Z.add_0_r.
    repeat split. lia.
  - destruct (process_row_summary i st)
      as [st1 [s [ex1 [P [L [I [_ [O [Fl [T [B _]]]]]]]]]]].
    destruct (IH st1) as [st' [new [ex2 [F [L' [R [I' [O' [Fl' [T' B']]]]]]]]]].
    exists st', ({| row := i - 1; status := s |} :: new), (ex1 ++ ex2).
    split; [cbn [for_each]; rewrite (bind_ok _ _ _ _ _ P); exact F|].
    split; [rewrite L', L, <- app_assoc; reflexivity|].
    split; [cbn [List.map row]; rewrite R; reflexivity|].
    cbn [filter].
    change (is_ok {| row := i - 1; status := s |})
      with (pystr_eqb s (lit "ok")).
    rewrite I', I, O', O, Fl', Fl, T', T.
    rewrite length_app. unfold len.
    destruct (pystr_eqb s (lit "ok")); cbn [List.map row length];
      rewrite <- !app_assoc, ?Nat2Z.inj_succ.
    + replace (i - 1 + 1) with i by lia.
      repeat split; try reflexivity; lia.
    + repeat split; try reflexivity; lia.
Qed.

End LoopSummary.

(* ================================================================== *)
(** * Further properties of the sheet builder *)

(** ** From the table to the worksheet the loop starts on *)

Lemma with_ws_cells_same (st : build_state) :
  with_ws st (with_cells (st_ws st) (ws_cells (st_ws st))) = st.
Proof. destruct st as [tr [t c i h w] l o f]; reflexivity. Qed.

Lemma for_each_ws_append_state (l : list (list pyval))
    (st st' : build_state) :
  for_each l ws_append st = (Ok tt, st') ->
  exists bound,
    Forall2 (fun r b => bind_values r = Ok b) l bound
    /\ st' = with_ws st
               (with_cells (st_ws st) (ws_cells (st_ws st) ++ bound)).
Proof.
  revert st; induction l as [|r l IH]; intros st.
  - cbn. intros H; injection H as <-. exists [].
    rewrite app_nil_r, with_ws_cells_same. split; [constructor | reflexivity].
  - cbn [for_each]. intros H.
    apply bind_ok_inv in H. destruct H as [[] [s1 [A F]]].
    apply ws_append_inv in A. destruct A as [vals [B ->]].
    apply IH in F. destruct F as [bound [Fb ->]].
    exists (vals :: bound). split; [constructor; assumption|].
    cbn. rewrite <- app_assoc. reflexivity.
Qed.

Lemma sheet_start_length (hs : list pyval) (bound : list (list pyval))
    (j : Z) :
  length (ws_cells (sheet_start hs bound j)) = S (length bound).
Proof.
  unfold sheet_start. cbn [set_col_width ws_cells].
  rewrite put_cell_row1_length.
  - cbn [insert_cols with_cells ws_cells]. rewrite length_map. reflexivity.
  - cbn [insert_cols with_cells ws_cells List.map]. discriminate.
Qed.

Lemma sheet_start_max_row (hs : list pyval) (bound : list (list pyval))
    (j : Z) :
  max_row (sheet_start hs bound j) = 1 + len bound.
Proof.
  unfold max_row, len. rewrite sheet_start_length, Nat2Z.inj_succ. lia.
Qed.

Section BuildStages.

Variable server : trace -> request -> res response.
Variable image_open : bytes -> res image.
Variable upper_nonascii : N -> pystr.

(** A completed run, stage by stage: the header and the rows are
    stored, the two columns are found in the stored header, and the
    row loop runs from the second worksheet row to the last on
    [sheet_start]; the run returns the worksheet and the log the loop
    ends with. *)
Lemma build_body_stages (df_out : DataFrame) (tr : trace)
    (st' : build_state) (out : worksheet) (logs : list LogEntry) :
  build_body server image_open upper_nonascii df_out (initial_state tr)
    = (Ok (out, logs), st') ->
  exists hs bound i j,
    bind_values (columns df_out) = Ok hs
    /\ Forall2 (fun r b => bind_values r = Ok b) (rows df_out) bound
    /\ list_index 0 (lit "thumbnail") hs = Ok i
    /\ list_index 0 (lit "thumbnail_dataurl") hs = Ok j
    /\ for_each (range 2 (len bound + 2))
         (process_row server image_open upper_nonascii
            (i + 1) (j + 1) (j + 1 + 1))
         (with_ws (initial_state tr) (sheet_start hs bound j))
       = (Ok tt, st')
    /\ out = st_ws st' /\ logs = st_logs st'.
Proof.
  intros H. unfold build_body in H.
  apply bind_ok_inv in H. destruct H as [[] [s1 [A H]]].
  apply for_each_ws_append_state in A. destruct A as [all [Fa ->]].
  unfold dataframe_to_rows in Fa. inversion Fa as [|c hs rs bound Bh Fb];
    subst; clear Fa.
  apply bind_ok_inv in H. destruct H as [s1' [s1'' [G H]]].
  unfold get_state in G. injection G as <- <-.
  change (ws_row _ 1) with hs in H.
  apply bind_ok_inv in H. destruct H as [i [s2 [I H]]].
  apply of_res_ok_inv in I. destruct I as [I ->].
  apply bind_ok_inv in H. destruct H as [j [s2 [J H]]].
  apply of_res_ok_inv in J. destruct J as [J ->].
  apply bind_ok_inv in H. destruct H as [[] [s3 [Mo H]]].
  unfold modify in Mo. injection Mo as <-.
  apply bind_ok_inv in H. destruct H as [[] [s4 [Sc H]]].
  unfold set_cell_value, bind, of_res, modify in Sc.
  change (bind_value (VStr (lit "thumbnail_image_embedded")))
    with (Ok (VStr (lit "thumbnail_image_embedded"))) in Sc.
  injection Sc as <-.
  apply bind_ok_inv in H. destruct H as [[] [s5 [Mo H]]].
  unfold modify in Mo. injection Mo as <-.
  apply bind_ok_inv in H. destruct H as [[] [s6 [RL H]]].
  apply bind_ok_inv in H. destruct H as [s6' [s6'' [G H]]].
  unfold get_state in G. injection G as <- <-.
  unfold ret in H. injection H as <- <- <-.
  unfold row_loop, bind at 1, get_state in RL.
  exists hs, bound, i, j.
  split; [exact Bh|]. split; [exact Fb|]. split; [exact I|].
  split; [exact J|]. split; [|split; reflexivity].
  rewrite <- RL. f_equal.
  change (st_ws _) with (sheet_start hs bound j).
  rewrite sheet_start_max_row. f_equal. lia.
Qed.

End BuildStages.

(** ** Cells of the worksheet the loop starts on *)

Lemma cell_value_ext (a b : worksheet) (r c : Z) :
  ws_cells a = ws_cells b -> cell_value a r c = cell_value b r c.
Proof. intros H. unfold cell_value, ws_row. rewrite H. reflexivity. Qed.

(** Reading a row after [insert_cols]: the cells left of the inserted
    column stay, the inserted one is empty, those right of it come
    from one column further left. *)
Lemma nth_shift_cols (idx : Z) (cells : list pyval) (c : nat) :
  nth c (shift_cols idx cells) VNone
  = if (c <? nat_index idx)%nat then nth c cells VNone
    else if (c =? nat_index idx)%nat then VNone
    else nth (c - 1) cells VNone.
Proof.
  unfold shift_cols. set (k := nat_index idx).
  destruct (k <? length cells)%nat eqn:K.
  - apply Nat.ltb_lt in K.
    assert (Lf : length (firstn k cells) = k)
      by (rewrite length_firstn; lia).
    destruct (c <? k)%nat eqn:C1.
    + apply Nat.ltb_lt in C1.
      rewrite app_nth1 by lia.
      rewrite <- (firstn_skipn k cells) at 2.
      rewrite app_nth1 by lia. reflexivity.
    + apply Nat.ltb_ge in C1. rewrite app_nth2 by lia. rewrite Lf.
      destruct (c =? k)%nat eqn:C2.
      * apply Nat.eqb_eq in C2. subst c. rewrite Nat.sub_diag. reflexivity.
      * apply Nat.eqb_neq in C2.
        destruct (c - k)%nat as [|m] eqn:M; [lia|]. cbn [nth].
        rewrite <- (firstn_skipn k cells) at 2.
        rewrite app_nth2 by lia. rewrite Lf. f_equal. lia.
  - apply Nat.ltb_ge in K.
    destruct (c <? k)%nat eqn:C1; [reflexivity|].
    apply Nat.ltb_ge in C1.
    destruct (c =? k)%nat eqn:C2.
    + apply nth_overflow. lia.
    + apply Nat.eqb_neq in C2.
      rewrite !nth_overflow by lia. reflexivity.
Qed.

Lemma shift_cols_nil (idx : Z) : shift_cols idx [] = [].
Proof. unfold shift_cols. cbn. destruct (nat_index idx); reflexivity. Qed.

Lemma cell_value_insert_cols (ws : worksheet) (idx r c : Z) :
  cell_value (insert_cols ws idx) r c
  = nth (nat_index c) (shift_cols idx (ws_row ws r)) VNone.
Proof.
  unfold cell_value, ws_row, insert_cols. cbn [with_cells ws_cells].
  rewrite <- (shift_cols_nil idx) at 1. rewrite map_nth. reflexivity.
Qed.

(** The cells of [sheet_start]: the new header in row 1, and in
    every row the stored values, those of the columns right of
    [thumbnail_dataurl] moved one column to the right. *)
Lemma cell_value_sheet_start (hs : list pyval) (bound : list (list pyval))
    (j r c : Z) :
  0 <= j -> 1 <= r -> 1 <= c ->
  cell_value (sheet_start hs bound j) r c
  = if (r =? 1) && (c =? j + 2)
    then VStr (lit "thumbnail_image_embedded")
    else
      let stored := nth (nat_index r) (hs :: bound) [] in
      if c <? j + 2 then nth (nat_index c) stored VNone
      else if c =? j + 2 then VNone
      else nth (nat_index (c - 1)) stored VNone.
Proof.
  intros Hj Hr Hc. unfold sheet_start.
  match goal with
  | |- cell_value (set_col_width ?x ?a ?b) r c = _ =>
      change (cell_value (set_col_width x a b) r c) with (cell_value x r c)
  end.
  destruct ((r =? 1) && (c =? j + 2)) eqn:E.
  - apply andb_true_iff in E. destruct E as [Er Ec].
    apply Z.eqb_eq in Er, Ec. subst r c.
    replace (j + 1 + 1) with (j + 2) by lia. apply cell_value_put_same.
  - rewrite cell_value_put_other.
    + rewrite cell_value_insert_cols, nth_shift_cols.
      unfold ws_row. cbn [with_cells ws_cells new_worksheet]. cbv zeta.
      assert (K : nat_index (j + 1 + 1) = Z.to_nat (j + 1))
        by (unfold nat_index; f_equal; lia).
      rewrite K.
      destruct (c <? j + 2) eqn:C1.
      * apply Z.ltb_lt in C1.
        replace (nat_index c <? Z.to_nat (j + 1))%nat with true
          by (symmetry; apply Nat.ltb_lt; unfold nat_index; lia).
        reflexivity.
      * apply Z.ltb_ge in C1.
        replace (nat_index c <? Z.to_nat (j + 1))%nat with false
          by (symmetry; apply Nat.ltb_ge; unfold nat_index; lia).
        destruct (c =? j + 2) eqn:C2.
        -- apply Z.eqb_eq in C2.
           replace (nat_index c =? Z.to_nat (j + 1))%nat with true
             by (symmetry; apply Nat.eqb_eq; unfold nat_index; lia).
           reflexivity.
        -- apply Z.eqb_neq in C2.
           replace (nat_index c =? Z.to_nat (j + 1))%nat with false
             by (symmetry; apply Nat.eqb_neq; unfold nat_index; lia).
           f_equal. unfold nat_index. lia.
    + apply andb_false_iff in E. destruct E as [E | E].
      * left. apply Z.eqb_neq in E. unfold nat_index. lia.
      * right. apply Z.eqb_neq in E. unfold nat_index. lia.
Qed.

(** ** What the loop leaves of the worksheet *)

Section LoopCells.

Variable server : trace -> request -> res response.
Variable image_open : bytes -> res image.
Variable upper_nonascii : N -> pystr.
Variables col_thumb col_dataurl col_img : Z.

(** The loop keeps the number of rows and touches no cell outside the
    [thumbnail_dataurl] column, nor the header row. *)
Lemma for_each_cells (idxs : list Z) (st st' : build_state) :
  1 <= col_dataurl ->
  Forall (fun i => 2 <= i <= len (ws_cells (st_ws st))) idxs ->
  for_each idxs
    (process_row server image_open upper_nonascii
       col_thumb col_dataurl col_img) st = (Ok tt, st') ->
  length (ws_cells (st_ws st')) = length (ws_cells (st_ws st))
  /\ (forall r c, 1 <= r -> 1 <= c -> r = 1 \/ c <> col_dataurl ->
        cell_value (st_ws st') r c = cell_value (st_ws st) r c)
  /\ ws_title (st_ws st') = ws_title (st_ws st)
  /\ ws_col_widths (st_ws st') = ws_col_widths (st_ws st).
Proof.
  intros Hd. revert st; induction idxs as [|i idxs IH]; intros st Hi F.
  - cbn in F. injection F as <-. auto.
  - inversion Hi as [|a l Ha Hl]; subst.
    cbn [for_each] in F. apply bind_ok_inv in F.
    destruct F as [[] [st1 [P F]]].
    destruct (process_row_cells server image_open upper_nonascii
                col_thumb col_dataurl col_img i st)
      as [st1' [P' [C [T W]]]].
    rewrite P in P'. injection P' as <-.
    assert (L1 : length (ws_cells (st_ws st1)) = length (ws_cells (st_ws st))).
    { destruct C as [C | [v C]]; rewrite C; [reflexivity|].
      unfold put_cell. cbn [with_cells ws_cells].
      apply set_nth_length. unfold nat_index, len in *. lia. }
    assert (C1 : forall r c, 1 <= r -> 1 <= c -> r = 1 \/ c <> col_dataurl ->
                 cell_value (st_ws st1) r c = cell_value (st_ws st) r c).
    { intros r c Hr Hc Hrc. destruct C as [C | [v C]].
      - apply cell_value_ext; exact C.
      - rewrite (cell_value_ext _ _ r c C).
        apply cell_value_put_other.
        destruct Hrc as [-> | Hrc]; [left | right];
          unfold nat_index; lia. }
    destruct (IH st1) as [L2 [C2 [T2 W2]]]; [|exact F|].
    + unfold len in *. rewrite L1. exact Hl.
    + split; [congruence|]. split; [|split; congruence].
      intros r c Hr Hc Hrc. rewrite C2, C1; auto.
Qed.

Lemma for_each_summary_inv (idxs : list Z) (st st' : build_state) :
  for_each idxs
    (process_row server image_open upper_nonascii
       col_thumb col_dataurl col_img) st = (Ok tt, st') ->
  exists new extra,
    st_logs st' = st_logs st ++ new
    /\ List.map row new = List.map (fun i => i - 1) idxs
    /\ List.map snd (ws_images (st_ws st'))
       = List.map snd (ws_images (st_ws st))
         ++ List.map (fun e => (row e + 1, col_img)) (filter is_ok new)
    /\ st_ok st' = st_ok st + len (filter is_ok new)
    /\ st_fail st' = st_fail st + (len new - len (filter is_ok new))
    /\ st_trace st' = st_trace st ++ extra
    /\ (length extra <= 3 * length idxs)%nat.
Proof.
  intros F.
  destruct (for_each_summary server image_open upper_nonascii
              col_thumb col_dataurl col_img idxs st)
    as [st2 [new [extra [F2 H]]]].
  rewrite F in F2. injection F2 as <-. exists new, extra. exact H.
Qed.

End LoopCells.

Lemma range_bounds (lo hi i : Z) : In i (range lo hi) -> lo <= i < hi.
Proof.
  unfold range. rewrite in_map_iff. intros [k [<- Hk]].
  apply in_seq in Hk. lia.
Qed.

Lemma range_len (lo hi : Z) :
  length (range lo hi) = Z.to_nat (hi - lo).
Proof. unfold range. rewrite length_map, length_seq. reflexivity. Qed.

(** The position [list.index] returns holds the label. *)
Lemma list_index_spec (label : pystr) (l : list pyval) (i0 j : Z) :
  list_index i0 label l = Ok j ->
  i0 <= j /\ nth (Z.to_nat (j - i0)) l VNone = VStr label.
Proof.
  revert i0; induction l as [|v l IH]; intros i0; cbn [list_index];
    [discriminate|].
  destruct (py_eq_str v label) eqn:E.
  - intros H; injection H as <-. rewrite Z.sub_diag. split; [lia|].
    destruct v as [|t|z|b|t r]; try discriminate.
    cbn in E. apply pystr_eqb_eq in E. subst t. reflexivity.
  - intros H. apply IH in H. destruct H as [Hle Hn]. split; [lia|].
    replace (Z.to_nat (j - i0)) with (S (Z.to_nat (j - (i0 + 1)))) by lia.
    exact Hn.
Qed.

Lemma Forall2_length_eq {A B} (R : A -> B -> Prop) (l : list A)
    (m : list B) :
  Forall2 R l m -> length l = length m.
Proof. induction 1; cbn; congruence. Qed.

(** ** Completed runs *)

Section BuildResults.

Variable server : trace -> request -> res response.
Variable image_open : bytes -> res image.
Variable upper_nonascii : N -> pystr.

(** A completed run of [build_excel_with_images], stage by stage. *)
Lemma build_stages (df : DataFrame) (max_rows : Z) (tr tr' : trace)
    (out : worksheet) (logs : list LogEntry) :
  build_excel_with_images server image_open upper_nonascii df max_rows tr
    = (Ok (out, logs), tr') ->
  exists hs bound i j st',
    bind_values (columns (prepare df max_rows)) = Ok hs
    /\ Forall2 (fun r b => bind_values r = Ok b)
         (rows (prepare df max_rows)) bound
    /\ len bound = processed_count df max_rows
    /\ list_index 0 (lit "thumbnail") hs = Ok i
    /\ list_index 0 (lit "thumbnail_dataurl") hs = Ok j
    /\ for_each (range 2 (len bound + 2))
         (process_row server image_open upper_nonascii
            (i + 1) (j + 1) (j + 1 + 1))
         (with_ws (initial_state tr) (sheet_start hs bound j))
       = (Ok tt, st')
    /\ out = st_ws st' /\ logs = st_logs st' /\ tr' = st_trace st'.
Proof.
  unfold build_excel_with_images.
  destruct (has_column df (lit "thumbnail")); cbn [negb]; [|discriminate].
  destruct (build_body server image_open upper_nonascii
              (prepare df max_rows) (initial_state tr)) as [r st] eqn:B.
  intros H; injection H as -> <-.
  destruct (build_body_stages server image_open upper_nonascii _ _ _ _ _ B)
    as [hs [bound [i [j [Bh [Fb [I [J [F [-> ->]]]]]]]]]].
  exists hs, bound, i, j, st.
  split; [exact Bh|]. split; [exact Fb|].
  split; [|auto 10].
  rewrite <- prepare_rows_len. unfold len.
  rewrite (Forall2_length_eq _ _ _ Fb). reflexivity.
Qed.

(** The row loop of a run, seen from the worksheet it starts on. *)
Lemma loop_on_sheet_start (hs : list pyval) (bound : list (list pyval))
    (i j : Z) (tr : trace) (st' : build_state) :
  0 <= j ->
  for_each (range 2 (len bound + 2))
    (process_row server image_open upper_nonascii
       (i + 1) (j + 1) (j + 1 + 1))
    (with_ws (initial_state tr) (sheet_start hs bound j))
  = (Ok tt, st') ->
  length (ws_cells (st_ws st')) = S (length bound)
  /\ (forall r c, 1 <= r -> 1 <= c -> r = 1 \/ c <> j + 1 ->
        cell_value (st_ws st') r c
        = cell_value (sheet_start hs bound j) r c)
  /\ ws_title (st_ws st') = lit "Products"
  /\ ws_col_widths (st_ws st') = [(j + 1 + 1, 18)].
Proof.
  intros Hj F.
  assert (Hd : 1 <= j + 1) by lia.
  assert (Hr : Forall
                 (fun k => 2 <= k
                           <= len (ws_cells
                                     (st_ws (with_ws (initial_state tr)
                                               (sheet_start hs bound j)))))
                 (range 2 (len bound + 2))).
  { apply Forall_forall. intros k Hk. apply range_bounds in Hk.
    cbn [with_ws st_ws]. unfold len in *.
    rewrite sheet_start_length, Nat2Z.inj_succ. lia. }
  destruct (for_each_cells server image_open upper_nonascii
              (i + 1) (j + 1) (j + 1 + 1) _ _ _ Hd Hr F)
    as [Ln [C [T W]]].
  cbn [with_ws st_ws] in Ln, C, T, W.
  rewrite sheet_start_length in Ln. auto.
Qed.

(** The images of a completed run are those of the rows logged [ok]:
    one per such row, in row order, anchored in the column headed
    [thumbnail_image_embedded] at the row's worksheet row (its log
    number plus one for the header); and the counts of lines 176-182
    are the number of embedded images and the number of other
    processed rows. *)
Theorem build_images_match_log (df : DataFrame) (max_rows : Z)
    (tr tr' : trace) (out : worksheet) (logs : list LogEntry) :
  build_excel_with_images server image_open upper_nonascii df max_rows tr
    = (Ok (out, logs), tr') ->
  exists col_img,
    cell_value out 1 col_img = VStr (lit "thumbnail_image_embedded")
    /\ List.map snd (ws_images out)
       = List.map (fun e => (row e + 1, col_img)) (filter is_ok logs)
    /\ report logs
       = (len (ws_images out),
          processed_count df max_rows - len (ws_images out)).
Proof.
  intros H.
  destruct (build_stages df max_rows tr tr' out logs H)
    as (hs & bound & i & j & st' & Bh & Fb & Lb & I & J & F & -> & -> & _).
  destruct (list_index_spec _ _ _ _ J) as [Hj _].
  destruct (for_each_summary_inv server image_open upper_nonascii
              _ _ _ _ _ _ F) as [new [extra [L [R [Im _]]]]].
  cbn [with_ws initial_state st_logs st_ws app] in L, Im.
  exists (j + 1 + 1).
  destruct (loop_on_sheet_start hs bound i j tr st' Hj F) as [_ [C _]].
  split.
  { rewrite C by (auto; lia).
    rewrite cell_value_sheet_start by lia.
    replace (j + 1 + 1 =? j + 2) with true by (symmetry; apply Z.eqb_eq; lia).
    reflexivity. }
  assert (Si : ws_images (sheet_start hs bound j) = []) by reflexivity.
  rewrite Si in Im. cbn [List.map app] in Im. rewrite L.
  split; [exact Im|].
  assert (Li : len (ws_images (st_ws st')) = len (filter is_ok new)).
  { unfold len. rewrite <- (length_map snd), Im, length_map. reflexivity. }
  assert (Ln : len new = processed_count df max_rows).
  { rewrite <- Lb. unfold len.
    rewrite <- (length_map row), R, length_map, range_len.
    unfold len. lia. }
  unfold report. rewrite Li, <- Ln.
  destruct new as [|e new']; reflexivity.
Qed.

(** The layout of the sheet a completed run returns: it is titled
    [Products] and has one header row and one row per processed data
    row; its header holds [thumbnail_dataurl] and, in the next
    column, [thumbnail_image_embedded]; that column, and no other, has
    its width set, to 18. *)
Theorem build_sheet_layout (df : DataFrame) (max_rows : Z)
    (tr tr' : trace) (out : worksheet) (logs : list LogEntry) :
  build_excel_with_images server image_open upper_nonascii df max_rows tr
    = (Ok (out, logs), tr') ->
  exists col_dataurl,
    1 <= col_dataurl
    /\ cell_value out 1 col_dataurl = VStr (lit "thumbnail_dataurl")
    /\ cell_value out 1 (col_dataurl + 1)
       = VStr (lit "thumbnail_image_embedded")
    /\ max_row out = 1 + processed_count df max_rows
    /\ ws_title out = lit "Products"
    /\ ws_col_widths out = [(col_dataurl + 1, 18)].
Proof.
  intros H.
  destruct (build_stages df max_rows tr tr' out logs H)
    as (hs & bound & i & j & st' & Bh & Fb & Lb & I & J & F & -> & -> & _).
  destruct (list_index_spec _ _ _ _ J) as [Hj Nj].
  destruct (loop_on_sheet_start hs bound i j tr st' Hj F) as [Ln [C [T W]]].
  exists (j + 1). split; [lia|].
  split.
  { rewrite C by (auto; lia). rewrite cell_value_sheet_start by lia.
    replace (j + 1 =? j + 2) with false by (symmetry; apply Z.eqb_neq; lia).
    rewrite andb_false_r. cbv zeta.
    replace (j + 1 <? j + 2) with true by (symmetry; apply Z.ltb_lt; lia).
    change (nat_index 1) with 0%nat. cbn [nth].
    rewrite <- Nj. f_equal. unfold nat_index. lia. }
  split.
  { rewrite C by (auto; lia). rewrite cell_value_sheet_start by lia.
    replace (j + 1 + 1 =? j + 2) with true by (symmetry; apply Z.eqb_eq; lia).
    reflexivity. }
  split.
  { unfold max_row, len. rewrite Ln, Nat2Z.inj_succ.
    unfold len in Lb. lia. }
  split; [exact T | exact W].
Qed.

(** A completed run keeps the history of requests and adds at most
    three requests per processed row. *)
Theorem build_requests_bound (df : DataFrame) (max_rows : Z)
    (tr tr' : trace) (out : worksheet) (logs : list LogEntry) :
  build_excel_with_images server image_open upper_nonascii df max_rows tr
    = (Ok (out, logs), tr') ->
  exists extra,
    tr' = tr ++ extra /\ len extra <= 3 * processed_count df max_rows.
Proof.
  intros H.
  destruct (build_stages df max_rows tr tr' out logs H)
    as (hs & bound & i & j & st' & Bh & Fb & Lb & I & J & F & _ & _ & ->).
  destruct (for_each_summary_inv server image_open upper_nonascii
              _ _ _ _ _ _ F) as [new [extra [_ [_ [_ [_ [_ [T B]]]]]]]].
  exists extra. split; [exact T|].
  rewrite range_len in B. unfold len in *. lia.
Qed.

(** No input value is lost or moved across rows: in the sheet of a
    completed run, every cell below the header and outside the
    [thumbnail_dataurl] column holds what was stored there before
    the loop: the stored input value of that row, at its own column
    when left of the inserted image column and one column further
    right otherwise; the image column's cells are empty. *)
Theorem build_keeps_input_cells (df : DataFrame) (max_rows : Z)
    (tr tr' : trace) (out : worksheet) (logs : list LogEntry) :
  build_excel_with_images server image_open upper_nonascii df max_rows tr
    = (Ok (out, logs), tr') ->
  exists hs bound j,
    bind_values (columns (prepare df max_rows)) = Ok hs
    /\ Forall2 (fun r b => bind_values r = Ok b)
         (rows (prepare df max_rows)) bound
    /\ list_index 0 (lit "thumbnail_dataurl") hs = Ok j
    /\ forall r c,
         2 <= r -> 1 <= c -> c <> j + 1 ->
         cell_value out r c
         = let stored := nth (nat_index r) (hs :: bound) [] in
           if c <? j + 2 then nth (nat_index c) stored VNone
           else if c =? j + 2 then VNone
           else nth (nat_index (c - 1)) stored VNone.
Proof.
  intros H.
  destruct (build_stages df max_rows tr tr' out logs H)
    as (hs & bound & i & j & st' & Bh & Fb & Lb & I & J & F & -> & -> & _).
  destruct (list_index_spec _ _ _ _ J) as [Hj _].
  destruct (loop_on_sheet_start hs bound i j tr st' Hj F) as [_ [C _]].
  exists hs, bound, j. split; [exact Bh|]. split; [exact Fb|].
  split; [exact J|].
  intros r c Hr2 Hc Hcj.
  rewrite C by (auto; lia). rewrite cell_value_sheet_start by lia.
  replace (r =? 1) with false by (symmetry; apply Z.eqb_neq; lia).
  reflexivity.
Qed.

End BuildResults.

(** ** Where the loop reads its URLs *)

Section UrlCell.

Variable server : trace -> request -> res response.
Variable image_open : bytes -> res image.
Variable upper_nonascii : N -> pystr.

(** The URL cell of a row, at any point of the loop.  The column the
    loop reads is the position of [thumbnail] in the header as found
    before the image column was inserted.  With [thumbnail] left of
    [thumbnail_dataurl] that is the row's stored thumbnail value.
    With [thumbnail] right of it, the insertion has moved the
    thumbnail values one column further: the loop reads the stored
    value on their left, or the empty image column when the two
    columns were adjacent.  No turn of the loop changes that cell. *)
Theorem url_cell_read (hs : list pyval) (bound : list (list pyval))
    (i j : Z) (tr : trace) (idxs : list Z) (st' : build_state) (r : Z) :
  0 <= i -> 0 <= j -> i <> j -> 2 <= r ->
  Forall (fun k => 2 <= k <= 1 + len bound) idxs ->
  for_each idxs
    (process_row server image_open upper_nonascii
       (i + 1) (j + 1) (j + 1 + 1))
    (with_ws (initial_state tr) (sheet_start hs bound j))
  = (Ok tt, st') ->
  cell_value (st_ws st') r (i + 1)
  = let stored := nth (nat_index r) (hs :: bound) [] in
    if i <? j then nth (Z.to_nat i) stored VNone
    else if i =? j + 1 then VNone
    else nth (Z.to_nat (i - 1)) stored VNone.
Proof.
  intros Hi Hj Hij Hr Hk F.
  assert (Hd : 1 <= j + 1) by lia.
  assert (Hk' : Forall
                  (fun k => 2 <= k
                            <= len (ws_cells
                                      (st_ws (with_ws (initial_state tr)
                                                (sheet_start hs bound j)))))
                  idxs).
  { cbn [with_ws st_ws]. unfold len in *.
    rewrite sheet_start_length, Nat2Z.inj_succ.
    eapply Forall_impl; [|exact Hk]. cbv beta. intros k Hk2. lia. }
  destruct (for_each_cells server image_open upper_nonascii
              (i + 1) (j + 1) (j + 1 + 1) _ _ _ Hd Hk' F) as [_ [C _]].
  cbn [with_ws st_ws] in C.
  rewrite C by (try right; lia).
  rewrite cell_value_sheet_start by lia.
  replace (r =? 1) with false by (symmetry; apply Z.eqb_neq; lia).
  cbn [andb]. cbv zeta.
  destruct (i <? j) eqn:E1.
  - apply Z.ltb_lt in E1.
    replace (i + 1 <? j + 2) with true by (symmetry; apply Z.ltb_lt; lia).
    f_equal. unfold nat_index. f_equal. lia.
  - apply Z.ltb_ge in E1.
    replace (i + 1 <? j + 2) with false by (symmetry; apply Z.ltb_ge; lia).
    destruct (i =? j + 1) eqn:E2.
    + apply Z.eqb_eq in E2.
      replace (i + 1 =? j + 2) with true by (symmetry; apply Z.eqb_eq; lia).
      reflexivity.
    + apply Z.eqb_neq in E2.
      replace (i + 1 =? j + 2) with false by (symmetry; apply Z.eqb_neq; lia).
      f_equal. unfold nat_index. f_equal. lia.
Qed.

End UrlCell.

(** ** Completed runs, on concrete tables *)

Lemma build_three_capped :
  build_excel_with_images Scenario.server_ok Scenario.pil_jpeg
    Scenario.upper_plain Scenario.df_three 2 []
  = (Ok (sheet_three_capped, logs_three_capped),
     [Scenario.first_get Scenario.url_a]).
Proof. vm_compute. reflexivity. Qed.

Lemma build_images_match_log_witness :
  exists col_img,
    cell_value sheet_three_capped 1 col_img
      = VStr (lit "thumbnail_image_embedded")
    /\ List.map snd (ws_images sheet_three_capped)
       = List.map (fun e => (row e + 1, col_img))
           (filter is_ok logs_three_capped)
    /\ report logs_three_capped
       = (len (ws_images sheet_three_capped),
          processed_count Scenario.df_three 2
          - len (ws_images sheet_three_capped)).
Proof.
  exact (build_images_match_log Scenario.server_ok Scenario.pil_jpeg
           Scenario.upper_plain Scenario.df_three 2 []
           [Scenario.first_get Scenario.url_a]
           sheet_three_capped logs_three_capped build_three_capped).
Defined.

Lemma build_sheet_layout_witness :
  exists col_dataurl,
    1 <= col_dataurl
    /\ cell_value sheet_three_capped 1 col_dataurl
       = VStr (lit "thumbnail_dataurl")
    /\ cell_value sheet_three_capped 1 (col_dataurl + 1)
       = VStr (lit "thumbnail_image_embedded")
    /\ max_row sheet_three_capped = 1 + processed_count Scenario.df_three 2
    /\ ws_title sheet_three_capped = lit "Products"
    /\ ws_col_widths sheet_three_capped = [(col_dataurl + 1, 18)].
Proof.
  exact (build_sheet_layout Scenario.server_ok Scenario.pil_jpeg
           Scenario.upper_plain Scenario.df_three 2 []
           [Scenario.first_get Scenario.url_a]
           sheet_three_capped logs_three_capped build_three_capped).
Defined.

Lemma build_requests_bound_witness :
  exists extra,
    [Scenario.first_get Scenario.url_a] = [] ++ extra
    /\ len extra <= 3 * processed_count Scenario.df_three 2.
Proof.
  exact (build_requests_bound Scenario.server_ok Scenario.pil_jpeg
           Scenario.upper_plain Scenario.df_three 2 []
           [Scenario.first_get Scenario.url_a]
           sheet_three_capped logs_three_capped build_three_capped).
Defined.

Lemma build_keeps_input_cells_witness :
  exists hs bound j,
    bind_values (columns (prepare Scenario.df_three 2)) = Ok hs
    /\ Forall2 (fun r b => bind_values r = Ok b)
         (rows (prepare Scenario.df_three 2)) bound
    /\ list_index 0 (lit "thumbnail_dataurl") hs = Ok j
    /\ forall r c,
         2 <= r -> 1 <= c -> c <> j + 1 ->
         cell_value sheet_three_capped r c
         = let stored := nth (nat_index r) (hs :: bound) [] in
           if c <? j + 2 then nth (nat_index c) stored VNone
           else if c =? j + 2 then VNone
           else nth (nat_index (c - 1)) stored VNone.
Proof.
  exact (build_keeps_input_cells Scenario.server_ok Scenario.pil_jpeg
           Scenario.upper_plain Scenario.df_three 2 []
           [Scenario.first_get Scenario.url_a]
           sheet_three_capped logs_three_capped build_three_capped).
Defined.

(** [thumbnail] immediately right of [thumbnail_dataurl]: the loop
    reads the empty image column. *)
Lemma url_cell_read_witness :
  cell_value
    (sheet_start header_swapped [[VStr []; VStr Scenario.url_a]] 0) 2 2
  = VNone.
Proof.
  exact (url_cell_read Scenario.server_ok Scenario.pil_jpeg
           Scenario.upper_plain header_swapped
           [[VStr []; VStr Scenario.url_a]] 1 0 [] []
           (with_ws (initial_state [])
              (sheet_start header_swapped [[VStr []; VStr Scenario.url_a]] 0))
           2 ltac:(lia) ltac:(lia) ltac:(lia) ltac:(lia)
           (Forall_nil _) eq_refl).
Defined.

(** The same table through a whole run: the URL is never requested
    and the row is logged [no-bytes]. *)
Example build_swapped_columns :
  build_excel_with_images Scenario.server_ok Scenario.pil_jpeg
    Scenario.upper_plain
    {| columns := header_swapped; rows := [[VStr []; VStr Scenario.url_a]] |}
    0 []
  = (Ok ({| ws_title := lit "Products";
            ws_cells :=
              [[VStr (lit "thumbnail_dataurl");
                VStr (lit "thumbnail_image_embedded");
                VStr (lit "thumbnail")];
               [VStr []; VNone; VStr Scenario.url_a]];
            ws_images := []; ws_row_heights := [];
            ws_col_widths := [(2, 18)] |},
         [{| row := 1; status := lit "no-bytes" |}]),
     []).
Proof. vm_compute. reflexivity. Qed.

(** ** Turns of the loop, on concrete rows *)

Lemma row_fetch_state_url :
  row_fetch Scenario.server_ok (row_url (st_ws state_url) 2 1) state_url
  = (Ok Scenario.body3,
     with_trace state_url [Scenario.first_get Scenario.url_a]).
Proof. vm_compute. reflexivity. Qed.

(** Bytes that do not open as an image: the data URL is written, no
    image is embedded, the row is logged with the error. *)
Lemma process_row_with_bytes_witness :
  exists st',
    process_row Scenario.server_ok Scenario.pil_none Scenario.upper_plain
      1 2 3 2 state_url = (Ok tt, st')
    /\ to_data_url Scenario.pil_none Scenario.upper_plain Scenario.body3
       = Ok (data_url_of Scenario.pil_none Scenario.upper_plain
               Scenario.body3)
    /\ cell_value (st_ws st') 2 2
       = VStr (take 32767
                 (data_url_of Scenario.pil_none Scenario.upper_plain
                    Scenario.body3))
    /\ match to_png_thumb Scenario.pil_none Scenario.body3 THUMB_PX with
       | Ok thumb =>
           st_logs st'
           = st_logs state_url ++ [{| row := 2 - 1; status := lit "ok" |}]
           /\ ws_images (st_ws st')
              = ws_images (st_ws state_url) ++ [(mkXLImage thumb, (2, 3))]
           /\ ws_row_heights (st_ws st')
              = (2, 80) :: ws_row_heights (st_ws state_url)
       | Raise e =>
           st_logs st'
           = st_logs state_url
             ++ [{| row := 2 - 1; status := lit "error:" ++ exn_name e |}]
           /\ ws_images (st_ws st') = ws_images (st_ws state_url)
           /\ ws_row_heights (st_ws st') = ws_row_heights (st_ws state_url)
       end.
Proof.
  exact (process_row_with_bytes Scenario.server_ok Scenario.pil_none
           Scenario.upper_plain 1 2 3 2 state_url _ Byte.xff
           [Byte.xd8; Byte.xff] row_fetch_state_url).
Defined.

(** The URL cell of the row survives the turn that embeds its image. *)
Lemma process_row_frame_witness :
  exists st',
    process_row Scenario.server_ok Scenario.pil_jpeg Scenario.upper_plain
      1 2 3 2 state_url = (Ok tt, st')
    /\ cell_value (st_ws st') 2 1 = cell_value (st_ws state_url) 2 1
    /\ ws_title (st_ws st') = ws_title (st_ws state_url)
    /\ ws_col_widths (st_ws st') = ws_col_widths (st_ws state_url).
Proof.
  apply (process_row_frame Scenario.server_ok Scenario.pil_jpeg
           Scenario.upper_plain 1 2 3 2 2 1 state_url); try lia.
Defined.

(* ================================================================== *)
(** * Reading the uploaded table *)

Lemma startswith_app (p t : pystr) : startswith (p ++ t) p = true.
Proof.
  induction p as [|c p IH]; cbn; [destruct t; reflexivity|].
  rewrite N.eqb_refl. exact IH.
Qed.

Lemma endswith_app (s p : pystr) : endswith (s ++ p) p = true.
Proof. unfold endswith. rewrite rev_app_distr. apply startswith_app. Qed.

(** Lowering reaches an ASCII ending whatever stands before it. *)
Lemma lower_from_app_ascii (f : nat -> N -> pystr) (s ext : pystr)
    (i : nat) :
  forallb (fun c => (c <? 128)%N) ext = true ->
  lower_from f i (s ++ ext)
  = lower_from f i s ++ List.map lower_ascii ext.
Proof.
  intros He. revert i; induction s as [|c s IH]; intros i.
  - cbn [app lower_from]. revert i.
    induction ext as [|c ext IHe]; intros i; [reflexivity|].
    cbn [forallb] in He. apply andb_true_iff in He. destruct He as [Hc He].
    cbn [lower_from List.map]. rewrite Hc, (IHe He). reflexivity.
  - cbn [app lower_from]. rewrite IH, app_assoc. reflexivity.
Qed.

Section ReadTable.

Variable lower_nonascii : pystr -> nat -> N -> pystr.
Variable read_excel : UploadedFile -> res DataFrame.
Variable read_csv : UploadedFile -> res DataFrame.

(** The extension decides, whatever its letter case and whatever the
    rest of the name: a name ending in ASCII characters that lower to
    [.xlsx] or [.xls] is handed to the Excel reader, one ending in
    [.csv] to the CSV reader, and the result is the reader's. *)
Theorem read_any_table_by_extension (stem ext : pystr) (b : bytes) :
  forallb (fun c => (c <? 128)%N) ext = true ->
  let f := {| name := stem ++ ext; file_bytes := b |} in
  (List.map lower_ascii ext = lit ".xlsx"
   \/ List.map lower_ascii ext = lit ".xls" ->
   read_any_table lower_nonascii read_excel read_csv f = read_excel f)
  /\ (List.map lower_ascii ext = lit ".csv" ->
      read_any_table lower_nonascii read_excel read_csv f = read_csv f).
Proof.
  intros He f. unfold read_any_table, lower. cbn [name f].
  rewrite (lower_from_app_ascii _ stem ext 0 He).
  set (pre := lower_from (lower_nonascii (stem ++ ext)) 0 stem).
  split.
  - intros [E | E]; rewrite E, endswith_app;
      [reflexivity | rewrite orb_true_r; reflexivity].
  - intros E. rewrite E, endswith_app.
    unfold endswith. rewrite rev_app_distr. reflexivity.
Qed.

End ReadTable.

Section ReadTableRejects.

Variable lower_nonascii : pystr -> nat -> N -> pystr.
Variable read_excel : UploadedFile -> res DataFrame.
Variable read_csv : UploadedFile -> res DataFrame.

(** Other names are refused before anything is parsed: the empty
    name, and every name whose last character is an ASCII character
    other than x, s and v in either case, make [read_any_table] raise
    [ValueError("Use .xlsx/.xls/.csv")], whatever the readers would
    have answered. *)
Theorem read_any_table_rejects (b : bytes) :
  read_any_table lower_nonascii read_excel read_csv
    {| name := []; file_bytes := b |}
  = Raise (ValueError (lit "Use .xlsx/.xls/.csv"))
  /\ (forall stem c,
        (c <? 128)%N = true ->
        lower_ascii c <> 120%N -> lower_ascii c <> 115%N ->
        lower_ascii c <> 118%N ->
        read_any_table lower_nonascii read_excel read_csv
          {| name := stem ++ [c]; file_bytes := b |}
        = Raise (ValueError (lit "Use .xlsx/.xls/.csv"))).
Proof.
  split; [reflexivity|].
  intros stem c Hc Hx Hs Hv.
  unfold read_any_table, lower. cbn [name].
  rewrite (lower_from_app_ascii _ stem [c] 0)
    by (cbn; rewrite Hc; reflexivity).
  cbn [List.map]. unfold endswith. rewrite rev_app_distr.
  cbn [rev app lit list_ascii_of_string List.map startswith].
  apply N.eqb_neq in Hx, Hs, Hv.
  change (N_of_ascii "x") with 120%N. change (N_of_ascii "s") with 115%N.
  change (N_of_ascii "v") with 118%N.
  rewrite Hx, Hs, Hv. reflexivity.
Qed.

End ReadTableRejects.

Lemma read_any_table_by_extension_witness :
  read_any_table lower_plain excel_unreadable csv_three upload_csv
  = csv_three upload_csv.
Proof.
  apply (proj2 (read_any_table_by_extension lower_plain excel_unreadable
                  csv_three (lit "Products") (lit ".CSV") [] eq_refl)).
  reflexivity.
Defined.

Lemma read_any_table_rejects_witness :
  read_any_table lower_plain excel_unreadable csv_three upload_txt
  = Raise (ValueError (lit "Use .xlsx/.xls/.csv")).
Proof.
  apply (proj2 (read_any_table_rejects lower_plain excel_unreadable
                  csv_three []) (lit "notes.tx") 116%N);
    [reflexivity | discriminate | discriminate | discriminate].
Defined.

(* ================================================================== *)
(** * The run behind the Process button *)

Section BuildReport.

Variable server : trace -> request -> res response.
Variable image_open : bytes -> res image.
Variable upper_nonascii : N -> pystr.

(** The filter of lines 176-179 counts the images of the sheet. *)
Lemma build_ok_count (df : DataFrame) (max_rows : Z)
    (tr tr' : trace) (out : worksheet) (logs : list LogEntry) :
  build_excel_with_images server image_open upper_nonascii df max_rows tr
    = (Ok (out, logs), tr') ->
  len (filter is_ok logs) = len (ws_images out)
  /\ len logs = processed_count df max_rows.
Proof.
  intros H.
  destruct (build_stages server image_open upper_nonascii
              df max_rows tr tr' out logs H)
    as (hs & bound & i & j & st' & Bh & Fb & Lb & I & J & F & -> & -> & _).
  destruct (for_each_summary_inv server image_open upper_nonascii
              _ _ _ _ _ _ F) as [new [extra [L [R [Im _]]]]].
  cbn [with_ws initial_state st_logs st_ws app] in L, Im.
  assert (Si : ws_images (sheet_start hs bound j) = []) by reflexivity.
  rewrite Si in Im. cbn [List.map app] in Im. rewrite L.
  split.
  - unfold len. rewrite <- (length_map snd (ws_images _)), Im, length_map.
    reflexivity.
  - rewrite <- Lb. unfold len.
    rewrite <- (length_map row), R, length_map, range_len.
    unfold len. lia.
Qed.

End BuildReport.

Section ActionFacts.

Variable server : trace -> request -> res response.
Variable image_open : bytes -> res image.
Variable upper_nonascii : N -> pystr.
Variable lower_nonascii : pystr -> nat -> N -> pystr.
Variable read_excel : UploadedFile -> res DataFrame.
Variable read_csv : UploadedFile -> res DataFrame.
Variable preview : DataFrame -> list ui_event.


(** A run that succeeds offers what was built: when the table is
    read and the builder returns a sheet and a log, the page gains,
    in this order, the table's size and columns, the preview, the
    success line, the download of exactly that sheet under the name
    [products_with_images.xlsx], the two counts and at most the first
    fifty log entries (or two zero counts for an empty log), and the
    closing note; the counts are the number of images embedded in
    the sheet and the number of the other processed rows. *)
Theorem action_offers_built_sheet (f : UploadedFile) (limit : Z)
    (pg : page_state) (df : DataFrame) (out : worksheet)
    (logs : list LogEntry) (tr' : trace) :
  read_any_table lower_nonascii read_excel read_csv f = Ok df ->
  build_excel_with_images server image_open upper_nonascii
    df limit (pg_trace pg) = (Ok (out, logs), tr') ->
  let n_ok := len (ws_images out) in
  let n_fail := processed_count df limit - n_ok in
  action server image_open upper_nonascii lower_nonascii
    read_excel read_csv preview true (Some f) limit pg
  = (Ok tt,
     {| pg_trace := tr';
        pg_events :=
          pg_events pg
          ++ [UiWriteTable (len (rows df)) (columns df)]
          ++ preview df
          ++ [UiSuccess
                (lit "Done. Download and use in your main dashboard.");
              UiDownload (lit "Download preprocessed Excel") out
                (lit "products_with_images.xlsx") XLSX_MIME]
          ++ (if nonempty logs
              then [UiWriteCounts n_ok n_fail; UiDataframe (take 50 logs)]
              else [UiWriteCounts 0 0])
          ++ [UiInfo info_note] |}).
Proof.
  intros R Bd n_ok n_fail.
  destruct (build_ok_count server image_open upper_nonascii
              df limit _ _ _ _ Bd) as [Ho Hl].
  unfold action, try_except, action_try, bind at 1, of_res at 1.
  rewrite R.
  unfold bind at 1, emit at 1, modify at 1.
  unfold bind at 1, emit_all at 1, modify at 1.
  unfold bind at 1, lift_page at 1. cbn [pg_trace pg_events].
  rewrite Bd.
  unfold bind at 1, emit at 1, modify at 1.
  unfold bind at 1, emit at 1, modify at 1.
  unfold show_report. rewrite Ho, Hl. fold n_ok. fold n_fail.
  destruct (nonempty logs);
    unfold bind, emit, modify; cbn [pg_trace pg_events];
    rewrite <- !app_assoc; reflexivity.
Qed.

End ActionFacts.


Lemma read_upload_csv_three :
  read_any_table lower_plain excel_unreadable csv_three upload_csv
  = Ok Scenario.df_three.
Proof. reflexivity. Qed.


(** The three-row CSV capped at two rows. *)
Lemma action_offers_built_sheet_witness :
  action Scenario.server_ok Scenario.pil_jpeg Scenario.upper_plain
    lower_plain excel_unreadable csv_three no_preview
    true (Some upload_csv) 2 empty_page
  = (Ok tt,
     {| pg_trace := [Scenario.first_get Scenario.url_a];
        pg_events :=
          []
          ++ [UiWriteTable (len (rows Scenario.df_three))
                (columns Scenario.df_three)]
          ++ no_preview Scenario.df_three
          ++ [UiSuccess
                (lit "Done. Download and use in your main dashboard.");
              UiDownload (lit "Download preprocessed Excel")
                sheet_three_capped
                (lit "products_with_images.xlsx") XLSX_MIME]
          ++ (if nonempty logs_three_capped
              then [UiWriteCounts (len (ws_images sheet_three_capped))
                      (processed_count Scenario.df_three 2
                       - len (ws_images sheet_three_capped));
                    UiDataframe (take 50 logs_three_capped)]
              else [UiWriteCounts 0 0])
          ++ [UiInfo info_note] |}).
Proof.
  exact (action_offers_built_sheet Scenario.server_ok Scenario.pil_jpeg
           Scenario.upper_plain lower_plain excel_unreadable csv_three
           no_preview upload_csv 2 empty_page Scenario.df_three
           sheet_three_capped logs_three_capped
           [Scenario.first_get Scenario.url_a]
           read_upload_csv_three build_three_capped).
Defined.

(* ================================================================== *)
(** * Tables that cannot be written *)



Section Unstorable.

Variable server : trace -> request -> res response.
Variable image_open : bytes -> res image.
Variable upper_nonascii : N -> pystr.


End Unstorable.

